(** * mini-praw: a shallow embedding of [mini_praw.py]

    The client reads Reddit's public JSON endpoints.  Everything it handles
    is a parsed JSON value, so the model works on a JSON datatype with
    Python's rules for truthiness, [dict.get], subscripting and iteration,
    and every function that can raise returns an [outcome].  The HTTP
    server is an oracle: a function from the history of the run and the
    request to a response. *)

From Stdlib Require Import List String Ascii ZArith QArith Bool Lia.
Import ListNotations.

Set Warnings "-register-all".

Local Open Scope string_scope.
Local Open Scope Z_scope.
Local Open Scope list_scope.

(* ================================================================== *)
(** ** JSON values as Python sees them *)
(* ================================================================== *)

(** What [resp.json()] returns.  A number is kept by its exact value: a
    Python [int] is an integer, a finite [float] is a rational.  A dict
    lists its entries in insertion order, as Python dicts do; lookup takes
    the first entry with the key. *)
Inductive json : Type :=
| JNull
| JBool (b : bool)
| JInt (z : Z)
| JFloat (q : Q)
| JStr (s : string)
| JList (items : list json)
| JDict (entries : list (string * json)).

(** Python exceptions the code can meet, and the client's own
    [RedditHTTPError]. *)
Inductive exn : Type :=
| KeyError (key : string)
| IndexError
| TypeError
| AttributeError
| JSONDecodeError
| RedditHTTPError (status_code : Z) (url : string).

(** The result of running a piece of code: a value, a raised exception, or
    the recursion or iteration allowance of the model used up. *)
Inductive outcome (A : Type) : Type :=
| Done (a : A)
| Raise (e : exn)
| OutOfFuel.

Arguments Done {A} a.
Arguments Raise {A} e.
Arguments OutOfFuel {A}.

Definition obind {A B : Type} (o : outcome A) (k : A -> outcome B) : outcome B :=
  match o with
  | Done a => k a
  | Raise e => Raise e
  | OutOfFuel => OutOfFuel
  end.

Notation "'do' x <- o ; k" := (obind o (fun x => k))
  (at level 10, x name, o at level 99, k at level 200).

(** [bool(v)] *)
Definition truthy (v : json) : bool :=
  match v with
  | JNull => false
  | JBool b => b
  | JInt z => negb (z =? 0)
  | JFloat q => negb (Qeq_bool q 0)
  | JStr s => negb (String.eqb s "")
  | JList items => match items with [] => false | _ => true end
  | JDict entries => match entries with [] => false | _ => true end
  end.

(** [a or b] *)
Definition py_or (a b : json) : json := if truthy a then a else b.

(** [isinstance(v, dict)] *)
Definition is_dict (v : json) : bool :=
  match v with JDict _ => true | _ => false end.

(** [v == s] for a string literal [s] *)
Definition str_is (v : json) (s : string) : bool :=
  match v with JStr x => String.eqb x s | _ => false end.

Fixpoint lookup (entries : list (string * json)) (key : string) : option json :=
  match entries with
  | [] => None
  | (k, v) :: rest => if String.eqb k key then Some v else lookup rest key
  end.

(** [d.get(key, default)] on a dict *)
Definition get_or (entries : list (string * json)) (key : string) (default : json) : json :=
  match lookup entries key with Some v => v | None => default end.

(** [v.get(key, default)]: only a dict has the method. *)
Definition dict_get (v : json) (key : string) (default : json) : outcome json :=
  match v with
  | JDict entries => Done (get_or entries key default)
  | _ => Raise AttributeError
  end.

(** [v[key]] for a string key. *)
Definition getitem (v : json) (key : string) : outcome json :=
  match v with
  | JDict entries =>
      match lookup entries key with Some x => Done x | None => Raise (KeyError key) end
  | _ => Raise TypeError
  end.

(** One-character strings of a string, as iteration over a [str] gives. *)
Fixpoint chars (s : string) : list json :=
  match s with
  | EmptyString => []
  | String c rest => JStr (String c EmptyString) :: chars rest
  end.

(** [v[i]] for a literal index [i >= 0].  The keys of a parsed JSON object
    are strings, so an integer subscript on a dict is a [KeyError]. *)
Definition getindex (v : json) (i : nat) : outcome json :=
  match v with
  | JList items =>
      match nth_error items i with Some x => Done x | None => Raise IndexError end
  | JStr s =>
      match nth_error (chars s) i with Some x => Done x | None => Raise IndexError end
  | JDict _ => Raise (KeyError "")
  | _ => Raise TypeError
  end.

(** [for x in v]: a list gives its items, a dict its keys, a string its
    characters; anything else is not iterable. *)
Definition py_iter (v : json) : outcome (list json) :=
  match v with
  | JList items => Done items
  | JDict entries => Done (map (fun kv => JStr (fst kv)) entries)
  | JStr s => Done (chars s)
  | _ => Raise TypeError
  end.

(** [d[key] = v] on a dict under construction: replaces the value in place
    or appends a new entry. *)
Fixpoint dict_set (entries : list (string * json)) (key : string) (v : json)
  : list (string * json) :=
  match entries with
  | [] => [(key, v)]
  | (k, x) :: rest =>
      if String.eqb k key then (k, v) :: rest else (k, x) :: dict_set rest key v
  end.

(* ------------------------------------------------------------------ *)
(** *** Strings *)
(* ------------------------------------------------------------------ *)

(** Strings are sequences of bytes (UTF-8).  [lower] maps the ASCII capitals
    only; the suffixes and prefixes the program tests are ASCII. *)
Definition ascii_lower (c : ascii) : ascii :=
  let n := N_of_ascii c in
  if ((65 <=? n) && (n <=? 90))%N then ascii_of_N (n + 32) else c.

Fixpoint lower (s : string) : string :=
  match s with
  | EmptyString => EmptyString
  | String c rest => String (ascii_lower c) (lower rest)
  end.

(** [s[n:]] *)
Fixpoint str_drop (n : nat) (s : string) : string :=
  match n, s with
  | O, _ => s
  | S n', String _ rest => str_drop n' rest
  | S _, EmptyString => EmptyString
  end.

(** [s.startswith(pre)] *)
Fixpoint startswith (s pre : string) : bool :=
  match pre, s with
  | EmptyString, _ => true
  | String a pre', String b s' => Ascii.eqb a b && startswith s' pre'
  | String _ _, EmptyString => false
  end.

Definition endswith (s suf : string) : bool :=
  let n := String.length s in
  let m := String.length suf in
  (m <=? n)%nat && String.eqb (str_drop (n - m) s) suf.

(** [s.replace("&amp;", "&")]: every occurrence, scanning from the left. *)
Fixpoint replace_amp (s : string) : string :=
  match s with
  | String "&" (String "a" (String "m" (String "p" (String ";" rest)))) =>
      String "&" (replace_amp rest)
  | String c rest => String c (replace_amp rest)
  | EmptyString => EmptyString
  end.

(** A string method called on [v]: anything but a [str] lacks it. *)
Definition as_str (v : json) : outcome string :=
  match v with JStr s => Done s | _ => Raise AttributeError end.

(** [sep.join(v)]: [v] must be iterable and hold only strings. *)
Fixpoint join_strs (sep : string) (l : list json) : outcome string :=
  match l with
  | [] => Done ""
  | [JStr s] => Done s
  | JStr s :: rest => do r <- join_strs sep rest; Done (s ++ sep ++ r)%string
  | _ :: _ => Raise TypeError
  end.

Definition py_join (sep : string) (v : json) : outcome string :=
  do items <- py_iter v; join_strs sep items.

(* ------------------------------------------------------------------ *)
(** *** Equality and hashing, for the [seen] set *)
(* ------------------------------------------------------------------ *)

(** The value of a number or boolean ([True == 1]). *)
Definition num_value (v : json) : option Q :=
  match v with
  | JBool b => Some (inject_Z (if b then 1 else 0))
  | JInt z => Some (inject_Z z)
  | JFloat q => Some q
  | _ => None
  end.

(** [a == b] on hashable values. *)
Definition py_eq (a b : json) : bool :=
  match a, b with
  | JNull, JNull => true
  | JStr x, JStr y => String.eqb x y
  | _, _ =>
      match num_value a, num_value b with
      | Some x, Some y => Qeq_bool x y
      | _, _ => false
      end
  end.

(** [hash(v)] raises [TypeError] on a list or a dict. *)
Definition hashable (v : json) : bool :=
  match v with JList _ | JDict _ => false | _ => true end.

(* ================================================================== *)
(** ** Media extraction: [_extract_media] *)
(* ================================================================== *)

(** The dict [_extract_media] returns. *)
Record media_info : Type := {
  media_urls : list json;
  primary_media_url : json
}.

Definition media_exts : list string :=
  [".jpg"; ".jpeg"; ".png"; ".gif"; ".mp4"; ".webm"].

(** [any(url.lower().endswith(ext) for ext in [...])] *)
Definition is_media_link (u : string) : bool :=
  existsb (endswith (lower u)) media_exts.

(** A [for] loop whose body appends to [media_urls]. *)
Fixpoint for_each_append (body : json -> outcome (list json)) (l : list json)
  : outcome (list json) :=
  match l with
  | [] => Done []
  | x :: rest =>
      do here <- body x;
      do later <- for_each_append body rest;
      Done (here ++ later)
  end.

(** [if src: media_urls.append(src.replace("&amp;", "&"))] *)
Definition unescaped (src : json) : outcome (list json) :=
  if truthy src then do s <- as_str src; Done [JStr (replace_amp s)] else Done [].

(** 1) the submission's own url *)
Definition direct_link (info : list (string * json)) : outcome (list json) :=
  let url := py_or (get_or info "url" JNull) (JStr "") in
  do u <- as_str url;
  Done (if is_media_link u then [url] else []).

(** 2) preview images: the source of an image, then its resolutions *)
Definition source_url (img : json) : outcome (list json) :=
  do source <- dict_get img "source" JNull;
  do src <- dict_get (py_or source (JDict [])) "url" JNull;
  unescaped src.

Definition resolution_url (res : json) : outcome (list json) :=
  do u <- dict_get res "url" JNull;
  unescaped u.

Definition resolution_urls (img : json) : outcome (list json) :=
  do resolutions <- dict_get img "resolutions" JNull;
  do rs <- py_iter (py_or resolutions (JList []));
  for_each_append resolution_url rs.

Definition image_urls (img : json) : outcome (list json) :=
  do src <- source_url img;
  do res <- resolution_urls img;
  Done (src ++ res).

(** [preview.get("images") or []] of a preview that is a dict *)
Definition preview_images (info : list (string * json)) : outcome (list json) :=
  match get_or info "preview" JNull with
  | JDict preview => py_iter (py_or (get_or preview "images" JNull) (JList []))
  | _ => Done []
  end.

Definition preview_urls (info : list (string * json)) : outcome (list json) :=
  do images <- preview_images info;
  for_each_append image_urls images.

(** [media_metadata.get(media_id)]: the keys are strings, and a list or a
    dict cannot be hashed. *)
Definition get_by_value (entries : list (string * json)) (key : json) : outcome json :=
  match key with
  | JStr k => Done (get_or entries k JNull)
  | JList _ | JDict _ => Raise TypeError
  | _ => Done JNull
  end.

(** 3) gallery posts *)
Definition gallery_item_url (media_metadata : list (string * json)) (item : json)
  : outcome (list json) :=
  do media_id <- dict_get item "media_id" JNull;
  do found <- get_by_value media_metadata media_id;
  let meta := py_or found (JDict []) in
  do s <- dict_get meta "s" JNull;
  do src <- dict_get (py_or s (JDict [])) "u" JNull;
  unescaped src.

Definition gallery_urls (info : list (string * json)) : outcome (list json) :=
  match get_or info "gallery_data" JNull, get_or info "media_metadata" JNull with
  | JDict gallery_data, JDict media_metadata =>
      do items <- py_iter (get_or gallery_data "items" (JList []));
      for_each_append (gallery_item_url media_metadata) items
  | _, _ => Done []
  end.

(** 4) Reddit-hosted video *)
Definition video_urls (info : list (string * json)) : outcome (list json) :=
  match py_or (get_or info "media" JNull) (get_or info "secure_media" JNull) with
  | JDict media =>
      let rv := py_or (get_or media "reddit_video" JNull) (JDict []) in
      do fallback_url <- dict_get rv "fallback_url" JNull;
      Done (if truthy fallback_url then [fallback_url] else [])
  | _ => Done []
  end.

(** The deduplication loop; [seen] is the set, kept as the list of its
    members. *)
Fixpoint dedup (seen : list json) (l : list json) : outcome (list json) :=
  match l with
  | [] => Done []
  | u :: rest =>
      if hashable u then
        if existsb (py_eq u) seen then dedup seen rest
        else do deduped <- dedup (u :: seen) rest; Done (u :: deduped)
      else Raise TypeError
  end.

Definition _extract_media (info : json) : outcome media_info :=
  match info with
  | JDict entries =>
      do direct <- direct_link entries;
      do preview <- preview_urls entries;
      do gallery <- gallery_urls entries;
      do video <- video_urls entries;
      do deduped <- dedup [] (direct ++ preview ++ gallery ++ video);
      Done {| media_urls := deduped; primary_media_url := hd JNull deduped |}
  | _ => Raise AttributeError
  end.

(** The candidates in the order the specification's invariant words it:
    every preview source before every preview resolution. *)
Definition claimed_candidates (info : list (string * json)) : outcome (list json) :=
  do direct <- direct_link info;
  do images <- preview_images info;
  do sources <- for_each_append source_url images;
  do resolutions <- for_each_append resolution_urls images;
  do gallery <- gallery_urls info;
  do video <- video_urls info;
  Done (direct ++ sources ++ resolutions ++ gallery ++ video).

(* ================================================================== *)
(** ** The client and the world it talks to *)
(* ================================================================== *)

(** What a run does that can be seen from outside: the requests it sends
    and, for a generator, the items it yields, in the order they happen. *)
Inductive event : Type :=
| Request (path : string) (params : list (string * json))
| Yield (item : json).

Definition trace : Type := list event.

(** The items a run yielded and the requests it sent. *)
Definition yielded (t : trace) : list json :=
  flat_map (fun ev => match ev with Yield item => [item] | Request _ _ => [] end) t.

Definition requests (t : trace) : list (string * list (string * json)) :=
  flat_map (fun ev => match ev with Request p q => [(p, q)] | Yield _ => [] end) t.

(** A response of [session.get]: [resp.ok], [resp.status_code], and the
    parsed body ([None] when [resp.json()] cannot parse it). *)
Record response : Type := {
  ok : bool;
  status : Z;
  body : option json
}.

(** What the program takes from outside.  [server] answers a request, given
    the requests the run sent before it.  [format_date] is [_format_date],
    total because of its [except Exception: return None]; [py_repr] is
    [str(v)] on a value that is not a string.  Neither the calendar nor the
    printing of numbers is modelled.  The throttling in [_get] only delays
    a request, and time is not modelled either. *)
Record Env : Type := {
  server : list (string * list (string * json)) -> string -> list (string * json)
           -> response;
  format_date : json -> json;
  py_repr : json -> string
}.

(** Code that talks to the server: it reads and extends the trace. *)
Definition M (A : Type) : Type := trace -> outcome A * trace.

Definition ret {A : Type} (a : A) : M A := fun t => (Done a, t).

Definition bind {A B : Type} (m : M A) (k : A -> M B) : M B :=
  fun t =>
    match m t with
    | (Done a, t') => k a t'
    | (Raise e, t') => (Raise e, t')
    | (OutOfFuel, t') => (OutOfFuel, t')
    end.

Definition lift {A : Type} (o : outcome A) : M A := fun t => (o, t).

Definition out_of_fuel {A : Type} : M A := fun t => (OutOfFuel, t).

Definition yield (item : json) : M unit := fun t => (Done tt, t ++ [Yield item]).

Notation "x <- m ;; k" := (bind m (fun x => k))
  (at level 61, m at next level, right associativity).
Notation "m ;; k" := (bind m (fun _ => k))
  (at level 61, right associativity).

(** How a [for] body left the loop: it ran to the end of the list with the
    loop variables [a], or it executed [return]. *)
Inductive flow (A R : Type) : Type :=
| Continue (a : A)
| Return (r : R).

Arguments Continue {A R} a.
Arguments Return {A R} r.

Definition BASE_URL : string := "https://www.reddit.com".

(** The state of a [Reddit] object that the modelled code reads. *)
Record Reddit : Type := {
  return_full : bool
}.

(** [if full is None: full = self.return_full] *)
Definition resolve_full (self : Reddit) (full : option bool) : bool :=
  match full with
  | Some b => b
  | None => return_full self
  end.

(** [min(remaining, 100) if remaining is not None else 100] *)
Definition page_size (remaining : option Z) : Z :=
  match remaining with
  | Some r => Z.min r 100
  | None => 100
  end.

(** The dict literal of [search_subreddits] and its [raw] key. *)
Definition subreddit_record (full : bool) (info : json) : outcome json :=
  do id <- getitem info "id";
  do name <- getitem info "display_name";
  do title <- dict_get info "title" JNull;
  do subscribers <- dict_get info "subscribers" JNull;
  do public_description <- dict_get info "public_description" JNull;
  do url <- dict_get info "url" JNull;
  let sub_dict :=
    [("id", id); ("name", name); ("title", title); ("subscribers", subscribers);
     ("public_description", public_description); ("url", url)] in
  Done (JDict (if full then dict_set sub_dict "raw" info else sub_dict)).

(** The [for child in children] loop of [search_subreddits]. *)
Fixpoint search_page (full : bool) (children : list json) (results : list json)
  (remaining : option Z) : outcome (flow (list json * option Z) (list json)) :=
  match children with
  | [] => Done (Continue (results, remaining))
  | child :: rest =>
      do info <- getitem child "data";
      do sub_dict <- subreddit_record full info;
      let results := results ++ [sub_dict] in
      match remaining with
      | Some r =>
          let r := r - 1 in
          if r <=? 0 then Done (Return results)
          else search_page full rest results (Some r)
      | None => search_page full rest results None
      end
  end.

Section Client.

Variable E : Env.

Definition _format_date (ts : json) : json := format_date E ts.

(** [f"{v}"] *)
Definition py_str (v : json) : string :=
  match v with
  | JStr s => s
  | _ => py_repr E v
  end.

(** [Reddit._get]: one request; a response that is not [ok] raises. *)
Definition _get (path : string) (params : list (string * json)) : M json :=
  fun t =>
    let resp := server E (requests t) path params in
    let t' := t ++ [Request path params] in
    if ok resp then
      match body resp with
      | Some data => (Done data, t')
      | None => (Raise JSONDecodeError, t')
      end
    else (Raise (RedditHTTPError (status resp) (BASE_URL ++ path)%string), t').

(** The [while True] loop of [search_subreddits]; [fuel] bounds the number
    of pages. *)
Fixpoint search_loop (fuel : nat) (query : string) (full : bool)
  (results : list json) (after : json) (remaining : option Z) : M (list json) :=
  match fuel with
  | O => out_of_fuel
  | S fuel' =>
      let params := [("q", JStr query); ("limit", JInt (page_size remaining))] in
      let params := if truthy after then dict_set params "after" after else params in
      data <- _get "/subreddits/search.json" params ;;
      children <- lift (do d <- getitem data "data"; getitem d "children") ;;
      items <- lift (py_iter children) ;;
      fl <- lift (search_page full items results remaining) ;;
      match fl with
      | Return results => ret results
      | Continue (results, remaining) =>
          after <- lift (do d <- getitem data "data"; dict_get d "after" JNull) ;;
          if negb (truthy after) || negb (truthy children) then ret results
          else search_loop fuel' query full results after remaining
      end
  end.

Definition search_subreddits (self : Reddit) (query : string) (limit : option Z)
  (full : option bool) (fuel : nat) : M (list json) :=
  let full := resolve_full self full in
  search_loop fuel query full [] JNull limit.

(* ------------------------------------------------------------------ *)
(** *** Comments: [_fetch_more_children] and [_flatten_comments] *)
(* ------------------------------------------------------------------ *)

Definition _fetch_more_children (link_id : json) (child_ids : json) : M json :=
  if negb (truthy child_ids) then ret (JList [])
  else
    children <- lift (py_join "," child_ids) ;;
    let params :=
      [("api_type", JStr "json"); ("link_id", link_id); ("children", JStr children);
       ("limit_children", JBool false); ("sort", JStr "confidence")] in
    data <- _get "/api/morechildren.json" params ;;
    lift (do j <- dict_get data "json" (JDict []);
          do d <- dict_get j "data" (JDict []);
          dict_get d "things" (JList [])).

(** The parent linkage of a comment, from [data.get("parent_id")]:
    [(parent_comment_id, is_top_level)]. *)
Definition parent_link (parent_fullname : json) : outcome (json * bool) :=
  if truthy parent_fullname then
    do s <- as_str parent_fullname;
    if startswith s "t1_" then Done (JStr (str_drop 3 s), false)
    else if startswith s "t3_" then Done (JNull, true)
    else Done (JNull, false)
  else Done (JNull, false).

(** The dict appended to [comments] for a [t1] child. *)
Definition comment_record (data : json) (depth_inner : Z) : outcome json :=
  do parent_fullname <- dict_get data "parent_id" JNull;
  do link <- parent_link parent_fullname;
  let parent_comment_id := fst link in
  let is_top_level := snd link in
  do id <- getitem data "id";
  do author <- dict_get data "author" JNull;
  do body <- dict_get data "body" (JStr "");
  do created_utc <- dict_get data "created_utc" (JFloat 0);
  do ups <- dict_get data "ups" JNull;
  do downs <- dict_get data "downs" JNull;
  Done (JDict
    [("id", id);
     ("author", py_or author JNull);
     ("body", body);
     ("created_utc", created_utc);
     ("created_date", _format_date created_utc);
     ("ups", ups);
     ("downs", downs);
     ("depth", JInt depth_inner);
     ("parent_fullname", parent_fullname);
     ("parent_id", parent_comment_id);
     ("in_reply_to", parent_comment_id);
     ("is_top_level", JBool is_top_level)]).

(** The variables of [_flatten_comments] that [walk] updates. *)
Record flat : Type := {
  comments : list json;
  more_used : Z
}.

(** [more_limit is not None and more_used >= more_limit] *)
Definition limit_reached (more_limit : option Z) (used : Z) : bool :=
  match more_limit with
  | Some k => k <=? used
  | None => false
  end.

(** A [for] loop over [l] that threads the loop state. *)
Fixpoint for_each {S : Type} (body : json -> S -> M S) (l : list json) (st : S) : M S :=
  match l with
  | [] => ret st
  | x :: rest => st' <- body x st ;; for_each body rest st'
  end.

(** The body of the loop in [walk]; [walk_rec] is the recursive call. *)
Definition walk_child (walk_rec : json -> Z -> flat -> M flat)
  (link_id : json) (more_limit : option Z) (depth_inner : Z)
  (child : json) (st : flat) : M flat :=
  kind <- lift (dict_get child "kind" JNull) ;;
  data <- lift (dict_get child "data" (JDict [])) ;;
  if str_is kind "t1" then
    record <- lift (comment_record data depth_inner) ;;
    let st := {| comments := comments st ++ [record]; more_used := more_used st |} in
    replies <- lift (dict_get data "replies" JNull) ;;
    match replies with
    | JDict r =>
        if truthy (get_or r "data" JNull) then
          children <- lift (do d <- getitem replies "data"; getitem d "children") ;;
          walk_rec children (depth_inner + 1) st
        else ret st
    | _ => ret st
    end
  else if str_is kind "more" then
    if limit_reached more_limit (more_used st) then ret st
    else
      ids <- lift (dict_get data "children" JNull) ;;
      let child_ids := py_or ids (JList []) in
      if negb (truthy child_ids) then ret st
      else
        let st := {| comments := comments st; more_used := more_used st + 1 |} in
        more_things <- _fetch_more_children link_id child_ids ;;
        if truthy more_things then walk_rec more_things depth_inner st
        else ret st
  else ret st.

(** [walk]; [fuel] bounds how deep the calls of [walk] nest. *)
Fixpoint walk (fuel : nat) (link_id : json) (more_limit : option Z)
  (children_inner : json) (depth_inner : Z) (st : flat) : M flat :=
  match fuel with
  | O => out_of_fuel
  | S fuel' =>
      items <- lift (py_iter children_inner) ;;
      for_each (walk_child (walk fuel' link_id more_limit) link_id more_limit depth_inner)
        items st
  end.

Definition _flatten_comments (children : json) (link_id : json) (depth : Z)
  (more_limit : option Z) (fuel : nat) : M (list json) :=
  st <- walk fuel link_id more_limit children depth {| comments := []; more_used := 0 |} ;;
  ret (comments st).

(* ------------------------------------------------------------------ *)
(** *** Submissions: the record, [Reddit.submission], [Subreddit._listing] *)
(* ------------------------------------------------------------------ *)

(** The dict literal that [Reddit.submission] and [Subreddit._listing] both
    build from a link's [data]. *)
Definition submission_fields (info : json) (media : media_info)
  : outcome (list (string * json)) :=
  do id <- getitem info "id";
  do title <- dict_get info "title" (JStr "");
  do selftext <- dict_get info "selftext" (JStr "");
  do permalink <- dict_get info "permalink" (JStr "");
  do url <- dict_get info "url" (JStr "");
  do created_utc <- dict_get info "created_utc" (JFloat 0);
  do author <- dict_get info "author" JNull;
  do score <- dict_get info "score" JNull;
  do ups <- dict_get info "ups" JNull;
  do upvote_ratio <- dict_get info "upvote_ratio" JNull;
  do num_comments <- dict_get info "num_comments" JNull;
  do thumbnail <- dict_get info "thumbnail" JNull;
  do is_video <- dict_get info "is_video" JNull;
  do media_field <- dict_get info "media" JNull;
  do preview <- dict_get info "preview" JNull;
  do gallery_data <- dict_get info "gallery_data" JNull;
  do media_metadata <- dict_get info "media_metadata" JNull;
  Done
    [("id", id);
     ("title", title);
     ("selftext", selftext);
     ("permalink", permalink);
     ("url", url);
     ("created_utc", created_utc);
     ("created_date", _format_date created_utc);
     ("author", py_or author JNull);
     ("score", score);
     ("ups", ups);
     ("upvote_ratio", upvote_ratio);
     ("num_comments", num_comments);
     ("thumbnail", thumbnail);
     ("is_video", is_video);
     ("media", media_field);
     ("preview", preview);
     ("gallery_data", gallery_data);
     ("media_metadata", media_metadata);
     ("media_urls", JList (media_urls media));
     ("primary_media_url", primary_media_url media)].

Definition submission (self : Reddit) (id : string) (more_limit : option Z)
  (full : option bool) (fuel : nat) : M json :=
  let full := resolve_full self full in
  raw <- _get ("/comments/" ++ id ++ ".json")%string [("limit", JInt 500)] ;;
  link_info <- lift (do listing <- getindex raw 0;
                     do d <- getitem listing "data";
                     do children <- getitem d "children";
                     do link <- getindex children 0;
                     getitem link "data") ;;
  comments_listing <- lift (do listing <- getindex raw 1;
                            do d <- getitem listing "data";
                            getitem d "children") ;;
  media <- lift (_extract_media link_info) ;;
  submission_dict <- lift (submission_fields link_info media) ;;
  link_fullname <- lift (do name <- dict_get link_info "name" JNull;
                         if truthy name then Done name
                         else do id <- getitem link_info "id";
                              Done (JStr ("t3_" ++ py_str id)%string)) ;;
  comments_flat <- _flatten_comments comments_listing link_fullname 0 more_limit fuel ;;
  let submission_dict := dict_set submission_dict "comments" (JList comments_flat) in
  let submission_dict :=
    if full then
      dict_set (dict_set (dict_set submission_dict "raw_response" raw)
                  "raw_link" link_info)
        "raw_comments_listing" comments_listing
    else submission_dict in
  ret (JDict submission_dict).

(** A [Subreddit] object. *)
Record Subreddit : Type := {
  reddit : Reddit;
  name : string
}.

Definition subreddit (self : Reddit) (name : string) : Subreddit :=
  {| reddit := self; name := name |}.

(** The [for child in children] loop of [_listing]; [Return] is its
    [return]. *)
Fixpoint listing_page (full : bool) (children : list json) (remaining : option Z)
  : M (flow (option Z) unit) :=
  match children with
  | [] => ret (Continue remaining)
  | child :: rest =>
      kind <- lift (dict_get child "kind" JNull) ;;
      if negb (str_is kind "t3") then listing_page full rest remaining
      else
        info <- lift (getitem child "data") ;;
        media <- lift (_extract_media info) ;;
        submission_dict <- lift (submission_fields info media) ;;
        let submission_dict :=
          if full then dict_set submission_dict "raw" info else submission_dict in
        yield (JDict submission_dict) ;;
        match remaining with
        | Some r =>
            let r := r - 1 in
            if r <=? 0 then ret (Return tt)
            else listing_page full rest (Some r)
        | None => listing_page full rest None
        end
  end.

(** [time_filter and sort == "top"] *)
Definition wants_time_filter (time_filter : option string) (sort : string) : option string :=
  match time_filter with
  | Some t => if negb (String.eqb t "") && String.eqb sort "top" then Some t else None
  | None => None
  end.

(** The [params] dict of one page request of [_listing]. *)
Definition listing_params (sort : string) (time_filter : option string)
  (after : json) (remaining : option Z) : list (string * json) :=
  let params := [("limit", JInt (page_size remaining))] in
  let params := if truthy after then dict_set params "after" after else params in
  match wants_time_filter time_filter sort with
  | Some t => dict_set params "t" (JStr t)
  | None => params
  end.

(** The [while True] loop of [_listing]; [fuel] bounds the number of
    pages. *)
Fixpoint listing_loop (fuel : nat) (path : string) (sort : string)
  (time_filter : option string) (full : bool) (after : json) (remaining : option Z)
  : M unit :=
  match fuel with
  | O => out_of_fuel
  | S fuel' =>
      let params := listing_params sort time_filter after remaining in
      data <- _get path params ;;
      children <- lift (do d <- getitem data "data"; getitem d "children") ;;
      items <- lift (py_iter children) ;;
      fl <- listing_page full items remaining ;;
      match fl with
      | Return _ => ret tt
      | Continue remaining =>
          after <- lift (do d <- getitem data "data"; dict_get d "after" JNull) ;;
          if negb (truthy after) || negb (truthy children) then ret tt
          else listing_loop fuel' path sort time_filter full after remaining
      end
  end.

(** The generator, run until it is exhausted: what it yields is in the
    trace. *)
Definition _listing (self : Subreddit) (sort : string) (limit : option Z)
  (time_filter : option string) (full : option bool) (fuel : nat) : M unit :=
  let full := resolve_full (reddit self) full in
  let path := ("/r/" ++ name self ++ "/" ++ sort ++ ".json")%string in
  listing_loop fuel path sort time_filter full JNull limit.

Definition hot (self : Subreddit) (limit : option Z) (full : option bool) (fuel : nat)
  : M unit :=
  _listing self "hot" limit None full fuel.

Definition new (self : Subreddit) (limit : option Z) (full : option bool) (fuel : nat)
  : M unit :=
  _listing self "new" limit None full fuel.

Definition top (self : Subreddit) (limit : option Z) (time_filter : option string)
  (full : option bool) (fuel : nat) : M unit :=
  _listing self "top" limit time_filter full fuel.

End Client.


(* ================================================================== *)
(** ** What the properties speak of *)
(* ================================================================== *)

(* ------------------------------------------------------------------ *)
(** *** Records, traces and runs *)
(* ------------------------------------------------------------------ *)

(** [record[key]] of an output record, when it has the key. *)
Definition field (record : json) (key : string) : option json :=
  match record with
  | JDict entries => lookup entries key
  | _ => None
  end.

(** The comments a run returned, if it returned. *)
Definition returned (r : outcome (list json) * trace) : list json :=
  match fst r with
  | Done records => records
  | _ => []
  end.

(** How many items a run yielded. *)
Definition count_yields (t : trace) : Z := Z.of_nat (List.length (yielded t)).

(** The placeholder expansions of a run: its requests to
    [/api/morechildren.json]. *)
Definition expansions (t : trace) : Z :=
  Z.of_nat (List.length
    (filter (fun rq => String.eqb (fst rq) "/api/morechildren.json") (requests t))).

(** Two runs end the same way, with results related by [R]. *)
Definition outcome_rel {A B : Type} (R : A -> B -> Prop)
  (o0 : outcome A) (o1 : outcome B) : Prop :=
  match o0, o1 with
  | Done a, Done b => R a b
  | Raise e0, Raise e1 => e0 = e1
  | OutOfFuel, OutOfFuel => True
  | _, _ => False
  end.

(** Two events are the same request, or yield items related by [R]. *)
Definition event_rel (R : json -> json -> Prop) (e0 e1 : event) : Prop :=
  match e0, e1 with
  | Request p0 q0, Request p1 q1 => p0 = p1 /\ q0 = q1
  | Yield a, Yield b => R a b
  | _, _ => False
  end.

(** Two runs leave traces related by [T] and end the same way, with results
    related by [R]. *)
Definition run_rel {A B : Type} (T : trace -> trace -> Prop) (R : A -> B -> Prop)
  (r0 : outcome A * trace) (r1 : outcome B * trace) : Prop :=
  T (snd r0) (snd r1) /\ outcome_rel R (fst r0) (fst r1).

(** [full_record] is [plain] with the entries [keys] added at the end, and
    [plain] has none of them: every other entry is the same, in the same
    place. *)
Definition attaches (keys : list string) (plain full_record : json) : Prop :=
  exists fields extras,
    plain = JDict fields /\
    full_record = JDict (fields ++ extras) /\
    map fst extras = keys /\
    forall k, In k keys -> lookup fields k = None.

(** A child that [_listing] does not pass over: its kind is [t3], or it is
    not a dict, so that reading its kind raises. *)
Definition not_passed_over (child : json) : bool :=
  match dict_get child "kind" JNull with
  | Done kind => str_is kind "t3"
  | _ => true
  end.

(** [item] is the record that [_listing] builds from the [t3] child
    [child]. *)
Definition record_of_link (E : Env) (full : bool) (child item : json) : Prop :=
  dict_get child "kind" JNull = Done (JStr "t3") /\
  exists info media fields,
    getitem child "data" = Done info /\
    _extract_media info = Done media /\
    submission_fields E info media = Done fields /\
    item = JDict (if full then dict_set fields "raw" info else fields).

(** A run of [m] extends the trace, and a request that the server answers
    with a status that is not [ok] is the last thing the run does: no
    request and no yield follows it, and the run ends by raising the
    [RedditHTTPError] of that response, so it returns nothing. *)
Definition fails_fast {A : Type} (E : Env) (m : M A) : Prop :=
  forall (t t' : trace) (o : outcome A),
    m t = (o, t') ->
    exists new,
      t' = t ++ new /\
      forall pre path params post,
        new = pre ++ Request path params :: post ->
        ok (server E (requests (t ++ pre)) path params) = false ->
        post = [] /\
        o = Raise (RedditHTTPError
                     (status (server E (requests (t ++ pre)) path params))
                     (BASE_URL ++ path)%string).

(* ------------------------------------------------------------------ *)
(** *** The expansion budget and the initial tree *)
(* ------------------------------------------------------------------ *)

(** [st] with the records [more] appended. *)
Definition with_comments (st : flat) (more : list json) : flat :=
  {| comments := comments st ++ more; more_used := more_used st |}.

(** The end of a run that appended the records [o] to [st], or failed as
    [o] did. *)
Definition append_to (st : flat) (o : outcome (list json)) : outcome flat :=
  match o with
  | Done more => Done (with_comments st more)
  | Raise e => Raise e
  | OutOfFuel => OutOfFuel
  end.

(** [st] after one more expansion. *)
Definition one_more_used (st : flat) : flat :=
  {| comments := comments st; more_used := more_used st + 1 |}.

Section InitialTree.

Variable E : Env.

(** The records of the comments of the initial tree alone, in walk order:
    what [walk] produces where every placeholder is passed over. *)
Definition initial_child (rec : json -> Z -> outcome (list json)) (depth : Z)
  (child : json) : outcome (list json) :=
  do kind <- dict_get child "kind" JNull;
  do data <- dict_get child "data" (JDict []);
  if str_is kind "t1" then
    do record <- comment_record E data depth;
    do replies <- dict_get data "replies" JNull;
    match replies with
    | JDict r =>
        if truthy (get_or r "data" JNull) then
          do children <- (do d <- getitem replies "data"; getitem d "children");
          do below <- rec children (depth + 1);
          Done (record :: below)
        else Done [record]
    | _ => Done [record]
    end
  else Done [].

Fixpoint initial_comments (fuel : nat) (children : json) (depth : Z)
  : outcome (list json) :=
  match fuel with
  | O => OutOfFuel
  | S fuel' =>
      do items <- py_iter children;
      for_each_append (initial_child (initial_comments fuel') depth) items
  end.

End InitialTree.

(** A run from the walk state [st] and the trace [t] that ends in [r] made
    [n] placeholder expansions: [n] is within what the budget leaves, and a
    run that completes has counted exactly [n] more in [more_used]. *)
Definition spends (more_limit : option Z) (st : flat) (t : trace)
  (r : outcome flat * trace) : Prop :=
  exists n,
    expansions (snd r) = expansions t + n /\
    0 <= n /\
    (forall k, more_limit = Some k -> n <= Z.max 0 (k - more_used st)) /\
    (forall st', fst r = Done st' -> more_used st' = more_used st + n).

(* ------------------------------------------------------------------ *)
(** *** The comment forest a walk explores *)
(* ------------------------------------------------------------------ *)

(** A comment with the comments nested below it. *)
Inductive comment_tree : Type :=
| CommentNode (data : json) (replies : list comment_tree).

(** The comments of a tree in pre-order, each with its comment-level
    ancestors, nearest first; [above] are the ancestors of the root. *)
Fixpoint ancestry (above : list json) (tree : comment_tree) : list (json * list json) :=
  match tree with
  | CommentNode data replies =>
      (data, above) :: flat_map (ancestry (data :: above)) replies
  end.

Section Forest.

Variable E : Env.

(** A [for] loop that collects the trees of each child, in order, and
    threads the count of expansions. *)
Fixpoint unfold_each (body : json -> Z -> M (list comment_tree * Z))
  (l : list json) (used : Z) : M (list comment_tree * Z) :=
  match l with
  | [] => ret ([], used)
  | x :: rest =>
      here <- body x used ;;
      later <- unfold_each body rest (snd here) ;;
      ret (fst here ++ fst later, snd later)
  end.

(** The trees that stand for one child of a listing.  A comment is one
    tree, with the trees of its replies below it.  A placeholder that is
    expanded stands for the trees of the things revealed, level with the
    placeholder itself; one that is not expanded stands for nothing. *)
Definition unfold_child (rec : json -> Z -> M (list comment_tree * Z))
  (link_id : json) (more_limit : option Z) (child : json) (used : Z)
  : M (list comment_tree * Z) :=
  kind <- lift (dict_get child "kind" JNull) ;;
  data <- lift (dict_get child "data" (JDict [])) ;;
  if str_is kind "t1" then
    replies <- lift (dict_get data "replies" JNull) ;;
    match replies with
    | JDict r =>
        if truthy (get_or r "data" JNull) then
          children <- lift (do d <- getitem replies "data"; getitem d "children") ;;
          below <- rec children used ;;
          ret ([CommentNode data (fst below)], snd below)
        else ret ([CommentNode data []], used)
    | _ => ret ([CommentNode data []], used)
    end
  else if str_is kind "more" then
    if limit_reached more_limit used then ret ([], used)
    else
      ids <- lift (dict_get data "children" JNull) ;;
      let child_ids := py_or ids (JList []) in
      if negb (truthy child_ids) then ret ([], used)
      else
        more_things <- _fetch_more_children E link_id child_ids ;;
        if truthy more_things then rec more_things (used + 1)
        else ret ([], used + 1)
  else ret ([], used).

(** The forest under a listing of children, expanded as far as the budget
    and [fuel] reach. *)
Fixpoint unfold (fuel : nat) (link_id : json) (more_limit : option Z)
  (children : json) (used : Z) : M (list comment_tree * Z) :=
  match fuel with
  | O => out_of_fuel
  | S fuel' =>
      items <- lift (py_iter children) ;;
      unfold_each (unfold_child (unfold fuel' link_id more_limit) link_id more_limit)
        items used
  end.

(** The walk from [st] to [st'] at depth [depth] emitted, in pre-order, one
    record for each comment of [forest]: the record of its data, at [depth]
    plus the number of its ancestors inside the forest. *)
Definition emitted (depth : Z) (st st' : flat) (forest : list comment_tree) : Prop :=
  exists records,
    comments st' = comments st ++ records /\
    forall above,
      Forall2
        (fun record node =>
           comment_record E (fst node)
             (depth + Z.of_nat (List.length (snd node)) - Z.of_nat (List.length above))
           = Done record)
        records (flat_map (ancestry above) forest).

End Forest.

(* ================================================================== *)
(** ** Sample inputs *)
(* ================================================================== *)

(** A link whose preview has two images, the first with one resolution. *)
Definition two_images : list (string * json) :=
  [("url", JStr "https://example.com/post");
   ("preview", JDict [("images", JList [
      JDict [("source", JDict [("url", JStr "s1")]);
             ("resolutions", JList [JDict [("url", JStr "r1")]])];
      JDict [("source", JDict [("url", JStr "s2")])]])])].

(** A link to a picture, with nothing else. *)
Definition png_link : list (string * json) :=
  [("id", JStr "abc"); ("url", JStr "https://i.redd.it/cat.PNG")].

(** A server that answers the n-th request of a run with the n-th response
    of a script, and with an error status once the script is used up. *)
Definition scripted (script : list response)
  : list (string * list (string * json)) -> string -> list (string * json) -> response :=
  fun sent _ _ =>
    nth (List.length sent) script {| ok := false; status := 503; body := None |}.

(** A successful response with the body [data]. *)
Definition ok_json (data : json) : response :=
  {| ok := true; status := 200; body := Some data |}.

(** A response with the error status [code]. *)
Definition http_error (code : Z) : response :=
  {| ok := false; status := code; body := None |}.

(** An environment over a script; dates and printing are left blank. *)
Definition script_env (script : list response) : Env :=
  {| server := scripted script;
     format_date := fun _ => JNull;
     py_repr := fun _ => "" |}.

(** A [t1] thing: the comment [id] under [parent], with its [replies]. *)
Definition comment (id parent : string) (replies : json) : json :=
  JDict [("kind", JStr "t1");
         ("data", JDict [("id", JStr id); ("parent_id", JStr parent);
                         ("replies", replies)])].

(** A placeholder for the comments [ids]. *)
Definition more (ids : list json) : json :=
  JDict [("kind", JStr "more"); ("data", JDict [("children", JList ids)])].

(** A listing with the children [children] and no cursor. *)
Definition listing_of (children : list json) : json :=
  JDict [("data", JDict [("children", JList children)])].

(** A [t3] thing: the submission [id]. *)
Definition link (id : string) : json :=
  JDict [("kind", JStr "t3"); ("data", JDict [("id", JStr id)])].

(** The [data] of a reply to the comment [xyz987]. *)
Definition reply_data : json :=
  JDict [("id", JStr "c2"); ("parent_id", JStr "t1_xyz987"); ("body", JStr "hi")].

(** A placeholder that holds no child ids. *)
Definition empty_more : json :=
  JDict [("kind", JStr "more"); ("data", JDict [("children", JList [])])].

(** One page of two subreddits, the end of the listing. *)
Definition subreddit_page : json :=
  JDict [("data", JDict [("children", JList [
    JDict [("kind", JStr "t5");
           ("data", JDict [("id", JStr "2qh1i"); ("display_name", JStr "rocq")])];
    JDict [("kind", JStr "t5");
           ("data", JDict [("id", JStr "2qh2j"); ("display_name", JStr "coq")])]])])].

(** One page of two links, the end of the listing. *)
Definition two_links : json := listing_of [link "abc"; link "def"].

(** The response of [/comments/abc.json]: the link, and a comment tree with
    one comment and a placeholder for two more. *)
Definition thread_page : json :=
  JList [listing_of [link "abc"];
         listing_of [comment "c1" "t3_abc" JNull; more [JStr "c2"; JStr "c3"]]].

(** The answer of [/api/morechildren.json] with the things [things]. *)
Definition more_children_page (things : list json) : json :=
  JDict [("json", JDict [("data", JDict [("things", JList things)])])].

(** A comment tree with a placeholder, and a server whose first expansion
    reveals a comment and another placeholder. *)
Definition tree_with_more : json :=
  JList [comment "c1" "t3_abc" JNull; more [JStr "c2"; JStr "c3"]].

(** The first expansion reveals [c2] and a placeholder, the second [c4]. *)
Definition two_expansions : Env :=
  script_env
    [ok_json (more_children_page [comment "c2" "t3_abc" JNull; more [JStr "c4"]]);
     ok_json (more_children_page [comment "c4" "t3_abc" JNull])].

(** A comment whose reply list holds a reply and a placeholder, and a
    server whose expansion reveals one more reply. *)
Definition nested_thread : json :=
  JList [comment "c1" "t3_abc"
           (listing_of [comment "r1" "t1_c1" JNull; more [JStr "r2"]])].

(** The expansion reveals the reply [r2]. *)
Definition one_reply_more : Env :=
  script_env [ok_json (more_children_page [comment "r2" "t1_c1" JNull])].

(* ================================================================== *)
(** ** More of what the properties speak of *)
(* ================================================================== *)

(* ------------------------------------------------------------------ *)
(** *** Values and records *)
(* ------------------------------------------------------------------ *)

(** A string that is not empty. *)
Definition nonempty_str (v : json) : Prop := exists s, v = JStr s /\ s <> "".

(** How deep the lists and dicts of a value nest. *)
Fixpoint height (v : json) : nat :=
  match v with
  | JList items => S (fold_right (fun x m => Nat.max (height x) m) O items)
  | JDict entries =>
      S (fold_right (fun kv m => Nat.max (match kv with (_, x) => height x end) m) O entries)
  | _ => O
  end.

(** The keys of a record, in order. *)
Definition keys (record : json) : list string :=
  match record with
  | JDict entries => map fst entries
  | _ => []
  end.

(** The keys of the record of a link, of a comment and of a subreddit. *)
Definition submission_keys : list string :=
  ["id"; "title"; "selftext"; "permalink"; "url"; "created_utc"; "created_date";
   "author"; "score"; "ups"; "upvote_ratio"; "num_comments"; "thumbnail"; "is_video";
   "media"; "preview"; "gallery_data"; "media_metadata"; "media_urls";
   "primary_media_url"].

Definition comment_keys : list string :=
  ["id"; "author"; "body"; "created_utc"; "created_date"; "ups"; "downs"; "depth";
   "parent_fullname"; "parent_id"; "in_reply_to"; "is_top_level"].

Definition subreddit_keys : list string :=
  ["id"; "name"; "title"; "subscribers"; "public_description"; "url"].

(** The keys that [full] adds to a record. *)
Definition raw_keys (full : bool) (extra : list string) : list string :=
  if full then extra else [].

(** The record [search_subreddits] builds from the child [child] of a
    page. *)
Definition subreddit_of (full : bool) (child : json) : outcome json :=
  do info <- getitem child "data"; subreddit_record full info.

(** The record [_listing] builds from the [data] of a link, without
    [raw]. *)
Definition link_record_of (E : Env) (info : json) : outcome json :=
  do media <- _extract_media info;
  do fields <- submission_fields E info media;
  Done (JDict fields).

(** [record] is what [build] makes of the data [info], with that data
    added at the end as [raw]. *)
Definition built_from_raw (build : json -> outcome json) (record : json) : Prop :=
  exists info plain,
    build info = Done (JDict plain) /\
    record = JDict (plain ++ [("raw", info)]).

(* ------------------------------------------------------------------ *)
(** *** Requests and events *)
(* ------------------------------------------------------------------ *)

(** Every event that a run of [m] adds to the trace satisfies [P]. *)
Definition emits_only {A : Type} (P : event -> Prop) (m : M A) : Prop :=
  forall (t t' : trace) (o : outcome A),
    m t = (o, t') -> exists new, t' = t ++ new /\ Forall P new.

(** An event of a run whose yields all satisfy [P]. *)
Definition yields_only (P : json -> Prop) (ev : event) : Prop :=
  match ev with
  | Yield item => P item
  | Request _ _ => True
  end.

(** The page size [n] of a request fits the budget [limit] of the call: it
    is at most 100 and at most the budget, it is 100 without a budget, and
    it is positive when the budget is. *)
Definition page_size_ok (limit : option Z) (n : Z) : Prop :=
  n <= 100 /\
  match limit with
  | None => n = 100
  | Some l => n <= l /\ (1 <= l -> 1 <= n)
  end.

(** The budget [remaining] of a loop that started with [limit]. *)
Definition within (limit remaining : option Z) : Prop :=
  match limit, remaining with
  | None, None => True
  | Some l, Some r => r <= l /\ (1 <= l -> 1 <= r)
  | _, _ => False
  end.

(** The [params] dict of one page request of [search_subreddits]. *)
Definition search_params (query : string) (after : json) (remaining : option Z)
  : list (string * json) :=
  let params := [("q", JStr query); ("limit", JInt (page_size remaining))] in
  if truthy after then dict_set params "after" after else params.

(** An event of a subreddit search for [query] with the budget [limit]: a
    page request, with the query, a page size and at most a cursor. *)
Definition search_event (query : string) (limit : option Z) (ev : event) : Prop :=
  match ev with
  | Request path params =>
      path = "/subreddits/search.json" /\
      lookup params "q" = Some (JStr query) /\
      (exists n, lookup params "limit" = Some (JInt n) /\ page_size_ok limit n) /\
      incl (map fst params) ["q"; "limit"; "after"]
  | Yield _ => False
  end.

(** An event of a listing: a yield, or a page request to [path] whose
    time filter is [t_param]. *)
Definition listing_event (path : string) (limit : option Z) (t_param : option json)
  (ev : event) : Prop :=
  match ev with
  | Request p params =>
      p = path /\
      lookup params "t" = t_param /\
      (exists n, lookup params "limit" = Some (JInt n) /\ page_size_ok limit n) /\
      incl (map fst params) ["limit"; "after"; "t"]
  | Yield _ => True
  end.

(** The [params] dict of [_fetch_more_children] for the joined ids
    [children]. *)
Definition expansion_params (link_id : json) (children : string) : list (string * json) :=
  [("api_type", JStr "json"); ("link_id", link_id); ("children", JStr children);
   ("limit_children", JBool false); ("sort", JStr "confidence")].

(** An event of a comment walk for the submission [link_id]: the expansion
    of a placeholder. *)
Definition expansion_event (link_id : json) (ev : event) : Prop :=
  match ev with
  | Request path params =>
      path = "/api/morechildren.json" /\
      exists ids,
        params = [("api_type", JStr "json"); ("link_id", link_id);
                  ("children", JStr ids); ("limit_children", JBool false);
                  ("sort", JStr "confidence")]
  | Yield _ => False
  end.

(* ------------------------------------------------------------------ *)
(** *** Submissions and walks *)
(* ------------------------------------------------------------------ *)

(** [raw[0]["data"]["children"][0]["data"]] *)
Definition link_of_response (raw : json) : outcome json :=
  do listing <- getindex raw 0;
  do d <- getitem listing "data";
  do children <- getitem d "children";
  do link <- getindex children 0;
  getitem link "data".

(** [raw[1]["data"]["children"]] *)
Definition comments_of_response (raw : json) : outcome json :=
  do listing <- getindex raw 1;
  do d <- getitem listing "data";
  getitem d "children".

(** [link_info.get("name") or f"t3_{link_info['id']}"] *)
Definition link_fullname (E : Env) (link_info : json) : outcome json :=
  do name <- dict_get link_info "name" JNull;
  if truthy name then Done name
  else do id <- getitem link_info "id";
       Done (JStr ("t3_" ++ py_str E id)%string).

(** A child that [walk] does not pass over: its kind is [t1] or [more], or
    it is not a dict, so that reading its kind raises. *)
Definition walked (child : json) : bool :=
  match dict_get child "kind" JNull with
  | Done kind => str_is kind "t1" || str_is kind "more"
  | _ => true
  end.

(** [a] is [b] with some entries left out: the entries of [a] are entries
    of [b], in the same order. *)
Inductive subseq {A : Type} : list A -> list A -> Prop :=
| subseq_nil : subseq [] []
| subseq_skip (x : A) (a b : list A) : subseq a b -> subseq a (x :: b)
| subseq_keep (x : A) (a b : list A) : subseq a b -> subseq (x :: a) (x :: b).

(** A walk from [st] to [st'] kept the comments [init] of the initial
    tree: what it appended holds them, in their order. *)
Definition keeps (init : outcome (list json)) (st st' : flat) : Prop :=
  exists first recs,
    init = Done first /\ comments st' = comments st ++ recs /\ subseq first recs.

(* ================================================================== *)
(** ** More sample inputs *)
(* ================================================================== *)

(** A video post with a preview image. *)
Definition video_post : list (string * json) :=
  [("url", JStr "https://v.redd.it/xyz");
   ("preview", JDict [("images", JList [
      JDict [("source", JDict [("url", JStr "https://preview.redd.it/a.jpg?s=1&amp;w=2")])]])]);
   ("media", JDict [("reddit_video",
      JDict [("fallback_url", JStr "https://v.redd.it/xyz/DASH_720.mp4")])])].

(** A link whose [url] is a number. *)
Definition numeric_url : list (string * json) := [("url", JInt 5)].

(** A video whose fallback is a list. *)
Definition listed_fallback : list (string * json) :=
  [("media", JDict [("reddit_video", JDict [("fallback_url", JList [JStr "x"])])])].

(** An embedded video: [media] holds no Reddit video, [secure_media] may. *)
Definition embedded (secure_media : json) : list (string * json) :=
  [("media", JDict [("oembed", JStr "youtube")]); ("secure_media", secure_media)].

(** An environment whose server answers every request with [page]. *)
Definition constant_env (page : json) : Env :=
  {| server := fun _ _ _ => ok_json page;
     format_date := fun _ => JNull;
     py_repr := fun _ => "" |}.

(** A page that holds one comment, and a cursor. *)
Definition comment_page : json :=
  JDict [("data", JDict [("children", JList [comment "c1" "t3_abc" JNull]);
                         ("after", JStr "t1_c1")])].

(** A page of two links, with a cursor. *)
Definition links_with_cursor : json :=
  JDict [("data", JDict [("children", JList [link "abc"; link "def"]);
                         ("after", JStr "t3_def")])].

(** The two children of [subreddit_page]. *)
Definition rocq_thing : json :=
  JDict [("kind", JStr "t5");
         ("data", JDict [("id", JStr "2qh1i"); ("display_name", JStr "rocq")])].

Definition coq_thing : json :=
  JDict [("kind", JStr "t5");
         ("data", JDict [("id", JStr "2qh2j"); ("display_name", JStr "coq")])].

(** The records of the two subreddits of [subreddit_page]. *)
Definition rocq_record : json :=
  JDict [("id", JStr "2qh1i"); ("name", JStr "rocq"); ("title", JNull);
         ("subscribers", JNull); ("public_description", JNull); ("url", JNull)].

Definition coq_record : json :=
  JDict [("id", JStr "2qh2j"); ("name", JStr "coq"); ("title", JNull);
         ("subscribers", JNull); ("public_description", JNull); ("url", JNull)].

(** The record of the submission [link id], where dates are left blank. *)
Definition link_record (id : string) : json :=
  JDict [("id", JStr id); ("title", JStr ""); ("selftext", JStr "");
         ("permalink", JStr ""); ("url", JStr ""); ("created_utc", JFloat 0);
         ("created_date", JNull); ("author", JNull); ("score", JNull);
         ("ups", JNull); ("upvote_ratio", JNull); ("num_comments", JNull);
         ("thumbnail", JNull); ("is_video", JNull); ("media", JNull);
         ("preview", JNull); ("gallery_data", JNull);
         ("media_metadata", JNull); ("media_urls", JList []);
         ("primary_media_url", JNull)].

(** What [submission] returns for [thread_page] when nothing is
    expanded. *)
Definition thread_record : json :=
  Eval cbv in
    match fst (submission (script_env [ok_json thread_page]) {| return_full := false |}
                 "abc" (Some 0) None 5 []) with
    | Done record => record
    | _ => JNull
    end.

(** The comments of [tree_with_more] with every placeholder expanded, and
    the trace of that walk. *)
Definition expanded_records : list json :=
  Eval cbv in
    returned (_flatten_comments two_expansions tree_with_more (JStr "t3_abc") 0 None 5 []).

Definition expanded_trace : trace :=
  Eval cbv in
    snd (_flatten_comments two_expansions tree_with_more (JStr "t3_abc") 0 None 5 []).

(** The results of a search on [subreddit_page] with [full]. *)
Definition full_search_results : list json :=
  Eval cbv in
    returned (search_subreddits (script_env [ok_json subreddit_page])
                {| return_full := false |} "rocq" (Some 5) (Some true) 3 []).

(* ================================================================== *)
(** * Properties *)
(* ================================================================== *)

(* ================================================================== *)
(** ** Python primitives *)
(* ================================================================== *)

Lemma obind_done {A B : Type} (o : outcome A) (k : A -> outcome B) (b : B) :
  obind o k = Done b -> exists a, o = Done a /\ k a = Done b.
Proof.
  destruct o as [a| |]; simpl; intros H; try discriminate.
  exists a. split; [reflexivity | exact H].
Qed.

Ltac obind_inv H :=
  let a := fresh "x" in
  let Ha := fresh "E" in
  apply obind_done in H; destruct H as (a & Ha & H).

Tactic Notation "obind_at" hyp(H) "as" ident(a) ident(Ha) :=
  apply obind_done in H; destruct H as (a & Ha & H).

Lemma py_eq_refl (v : json) : hashable v = true -> py_eq v v = true.
Proof.
  destruct v; simpl; intros H; try discriminate; try reflexivity.
  - apply Qeq_bool_iff. reflexivity.
  - apply Z.eqb_refl.
  - apply Qeq_bool_iff. reflexivity.
  - apply String.eqb_refl.
Qed.

Lemma py_eq_str (s : string) (v : json) : py_eq (JStr s) v = true <-> v = JStr s.
Proof.
  destruct v; simpl; split; intros H; try discriminate; try congruence.
  - apply String.eqb_eq in H. congruence.
  - injection H as ->. apply String.eqb_refl.
Qed.

Lemma seen_str (s : string) (l : list json) :
  existsb (py_eq (JStr s)) l = true <-> In (JStr s) l.
Proof.
  rewrite existsb_exists. split.
  - intros (v & Hin & Heq). apply py_eq_str in Heq. subst. exact Hin.
  - intros Hin. exists (JStr s). split; [exact Hin | apply py_eq_str; reflexivity].
Qed.

(* ================================================================== *)
(** ** The deduplication loop *)
(* ================================================================== *)

Lemma dedup_unseen (l seen out : list json) :
  dedup seen l = Done out ->
  forall x, In x out -> In x l /\ existsb (py_eq x) seen = false.
Proof.
  revert seen out. induction l as [|u rest IH]; simpl; intros seen out H x Hx.
  - injection H as <-. destruct Hx.
  - destruct (hashable u) eqn:Hh; [|discriminate].
    destruct (existsb (py_eq u) seen) eqn:Hs.
    + destruct (IH _ _ H x Hx) as [H1 H2]. split; [right; exact H1 | exact H2].
    + obind_inv H. injection H as <-. destruct Hx as [<- | Hx].
      * split; [left; reflexivity | exact Hs].
      * destruct (IH _ _ E x Hx) as [H1 H2]. split; [right; exact H1|].
        simpl in H2. apply orb_false_elim in H2. apply H2.
Qed.

Lemma dedup_NoDup (l seen out : list json) :
  dedup seen l = Done out -> NoDup out.
Proof.
  revert seen out. induction l as [|u rest IH]; simpl; intros seen out H.
  - injection H as <-. constructor.
  - destruct (hashable u) eqn:Hh; [|discriminate].
    destruct (existsb (py_eq u) seen) eqn:Hs.
    + eapply IH; eassumption.
    + obind_inv H. injection H as <-. constructor.
      * intros Hin. destruct (dedup_unseen _ _ _ E u Hin) as [_ H2].
        simpl in H2. rewrite (py_eq_refl u Hh) in H2. discriminate.
      * eapply IH; eassumption.
Qed.

Lemma dedup_keeps_str (l seen out : list json) (s : string) :
  dedup seen l = Done out -> In (JStr s) l -> In (JStr s) seen \/ In (JStr s) out.
Proof.
  revert seen out. induction l as [|u rest IH]; simpl; intros seen out H Hin.
  - destruct Hin.
  - destruct (hashable u) eqn:Hh; [|discriminate].
    destruct (existsb (py_eq u) seen) eqn:Hs.
    + destruct Hin as [-> | Hin].
      * left. apply seen_str. exact Hs.
      * eapply IH; eassumption.
    + obind_inv H. injection H as <-. destruct Hin as [-> | Hin].
      * right. left. reflexivity.
      * destruct (IH _ _ E Hin) as [[Heq | Hseen] | Hout].
        -- right. left. exact Heq.
        -- left. exact Hseen.
        -- right. right. exact Hout.
Qed.

Lemma dedup_split (pre post seen out : list json) (x : json) :
  dedup seen (pre ++ x :: post) = Done out ->
  existsb (py_eq x) seen = false ->
  existsb (py_eq x) pre = false ->
  exists before after,
    out = before ++ x :: after /\ incl before pre /\ incl after post.
Proof.
  revert seen out. induction pre as [|u pre IH]; simpl; intros seen out H Hs Hp.
  - destruct (hashable x) eqn:Hh; [|discriminate]. rewrite Hs in H.
    obind_inv H. injection H as <-. exists [], x0. split; [reflexivity|]. split.
    + intros y [].
    + intros y Hy. apply (dedup_unseen _ _ _ E y Hy).
  - apply orb_false_elim in Hp. destruct Hp as [Hxu Hp].
    destruct (hashable u) eqn:Hh; [|discriminate].
    destruct (existsb (py_eq u) seen) eqn:Hu.
    + destruct (IH _ _ H Hs Hp) as (b & a & -> & Hb & Ha).
      exists b, a. split; [reflexivity|]. split; [|exact Ha].
      intros y Hy. right. apply Hb. exact Hy.
    + obind_inv H. injection H as <-.
      assert (Hs' : existsb (py_eq x) (u :: seen) = false).
      { simpl. rewrite Hxu, Hs. reflexivity. }
      destruct (IH _ _ E Hs' Hp) as (b & a & -> & Hb & Ha).
      exists (u :: b), a. split; [reflexivity|]. split; [|exact Ha].
      intros y [<- | Hy]; [left; reflexivity | right; apply Hb; exact Hy].
Qed.

(* ================================================================== *)
(** ** Media extraction *)
(* ================================================================== *)

Lemma for_each_append_concat (body : json -> outcome (list json)) (l : list json)
  (out : list json) :
  for_each_append body l = Done out ->
  exists parts, Forall2 (fun x urls => body x = Done urls) l parts /\ out = List.concat parts.
Proof.
  revert out. induction l as [|x rest IH]; simpl; intros out H.
  - injection H as <-. exists []. split; [constructor | reflexivity].
  - obind_inv H. obind_inv H. injection H as <-.
    destruct (IH _ E0) as (parts & HF & ->).
    exists (x0 :: parts). split; [constructor; assumption | reflexivity].
Qed.

Lemma media_link_nonempty (u : string) : is_media_link u = true -> truthy (JStr u) = true.
Proof.
  destruct u; [discriminate | reflexivity].
Qed.

Lemma image_urls_parts (images : list json) (preview : list json) :
  for_each_append image_urls images = Done preview ->
  exists per_image,
    Forall2 (fun img urls => exists src res,
               source_url img = Done src /\ resolution_urls img = Done res /\
               urls = src ++ res) images per_image /\
    preview = List.concat per_image.
Proof.
  intros H. destruct (for_each_append_concat _ _ _ H) as (parts & HF & ->).
  exists parts. split; [|reflexivity].
  clear H. induction HF as [|img urls imgs parts' Himg _ IH]; [constructor|].
  constructor; [|exact IH].
  unfold image_urls in Himg. obind_inv Himg. obind_inv Himg. injection Himg as <-.
  exists x, x0. repeat split; assumption.
Qed.

(** C3, as the code has it.  Whenever the extractor returns, [media_urls]
    is the candidate list with later duplicates dropped: it has no
    duplicates, holds only candidates and every candidate string, and keeps
    each URL where it first occurs (what precedes it in the output precedes
    its first occurrence among the candidates, what follows it follows).
    The candidates are the direct link, then for each preview image in
    listed order its source followed by its resolutions, then the gallery
    items, then the hosted-video fallback.  [primary_media_url] is the first
    element, or [None] for an empty list. *)
Theorem C3_media_urls_first_seen :
  forall (info : list (string * json)) (r : media_info),
    _extract_media (JDict info) = Done r ->
    exists direct images per_image gallery video,
      direct_link info = Done direct /\
      preview_images info = Done images /\
      Forall2 (fun img urls => exists src res,
                 source_url img = Done src /\ resolution_urls img = Done res /\
                 urls = src ++ res) images per_image /\
      gallery_urls info = Done gallery /\
      video_urls info = Done video /\
      let candidates := direct ++ List.concat per_image ++ gallery ++ video in
      NoDup (media_urls r) /\
      (forall u, In u (media_urls r) -> In u candidates) /\
      (forall s, In (JStr s) candidates -> In (JStr s) (media_urls r)) /\
      (forall pre s post,
          candidates = pre ++ JStr s :: post -> ~ In (JStr s) pre ->
          exists before after,
            media_urls r = before ++ JStr s :: after /\
            incl before pre /\ incl after post) /\
      primary_media_url r = hd JNull (media_urls r).
Proof.
  intros info r H. simpl in H.
  obind_inv H. rename x into direct, E into Hdirect.
  obind_inv H. rename x into preview, E into Hpreview.
  obind_inv H. rename x into gallery, E into Hgallery.
  obind_inv H. rename x into video, E into Hvideo.
  obind_inv H. rename x into deduped, E into Hdedup.
  injection H as <-. simpl.
  unfold preview_urls in Hpreview. obind_inv Hpreview. rename x into images.
  destruct (image_urls_parts _ _ Hpreview) as (per_image & HF & ->).
  exists direct, images, per_image, gallery, video.
  repeat (split; [assumption|]).
  split; [eapply dedup_NoDup; eassumption|].
  split; [intros u Hu; apply (dedup_unseen _ _ _ Hdedup u Hu)|].
  split.
  - intros s Hs. destruct (dedup_keeps_str _ _ _ s Hdedup Hs) as [[] | Hout]. exact Hout.
  - split; [|reflexivity].
    intros pre s post Hsplit Hpre. rewrite Hsplit in Hdedup.
    apply (dedup_split _ _ _ _ _ Hdedup); [reflexivity|].
    destruct (existsb (py_eq (JStr s)) pre) eqn:Hex; [|reflexivity].
    exfalso. apply Hpre. apply seen_str. exact Hex.
Qed.

Lemma C3_media_urls_first_seen_witness :
  exists direct images per_image gallery video,
    direct_link two_images = Done direct /\
    preview_images two_images = Done images /\
    Forall2 (fun img urls => exists src res,
               source_url img = Done src /\ resolution_urls img = Done res /\
               urls = src ++ res) images per_image /\
    gallery_urls two_images = Done gallery /\
    video_urls two_images = Done video /\
    let candidates := direct ++ List.concat per_image ++ gallery ++ video in
    NoDup [JStr "s1"; JStr "r1"; JStr "s2"] /\
    (forall u, In u [JStr "s1"; JStr "r1"; JStr "s2"] -> In u candidates) /\
    (forall s, In (JStr s) candidates -> In (JStr s) [JStr "s1"; JStr "r1"; JStr "s2"]) /\
    (forall pre s post,
        candidates = pre ++ JStr s :: post -> ~ In (JStr s) pre ->
        exists before after,
          [JStr "s1"; JStr "r1"; JStr "s2"] = before ++ JStr s :: after /\
          incl before pre /\ incl after post) /\
    JStr "s1" = hd JNull [JStr "s1"; JStr "r1"; JStr "s2"].
Proof.
  exact (C3_media_urls_first_seen two_images
           {| media_urls := [JStr "s1"; JStr "r1"; JStr "s2"];
              primary_media_url := JStr "s1" |} eq_refl).
Defined.

(** C3 as stated fails: with two preview images the resolution of the first
    comes before the source of the second, while the claimed precedence puts
    every preview source before every preview resolution. *)
Lemma C3_counterexample_interleaved_preview :
  _extract_media (JDict two_images)
    = Done {| media_urls := [JStr "s1"; JStr "r1"; JStr "s2"];
              primary_media_url := JStr "s1" |} /\
  (do c <- claimed_candidates two_images; dedup [] c)
    = Done [JStr "s1"; JStr "s2"; JStr "r1"] /\
  [JStr "s1"; JStr "r1"; JStr "s2"] <> [JStr "s1"; JStr "s2"; JStr "r1"].
Proof.
  split; [reflexivity|]. split; [reflexivity|]. discriminate.
Qed.

(** C8.  A submission whose url ends, in any letter case, in one of the six
    media extensions, and which has no preview, gallery or media
    substructure (the field is missing or is not an object), gets exactly
    that url: [media_urls == [url]] and [primary_media_url == url]. *)
Theorem C8_direct_link_only :
  forall (info : list (string * json)) (u : string),
    lookup info "url" = Some (JStr u) ->
    is_media_link u = true ->
    is_dict (get_or info "preview" JNull) = false ->
    is_dict (get_or info "gallery_data" JNull)
      && is_dict (get_or info "media_metadata" JNull) = false ->
    is_dict (py_or (get_or info "media" JNull) (get_or info "secure_media" JNull)) = false ->
    _extract_media (JDict info)
      = Done {| media_urls := [JStr u]; primary_media_url := JStr u |}.
Proof.
  intros info u Hurl Hext Hprev Hgal Hmedia.
  assert (Hd : direct_link info = Done [JStr u]).
  { unfold direct_link, get_or. rewrite Hurl. unfold py_or.
    rewrite (media_link_nonempty u Hext). simpl. rewrite Hext. reflexivity. }
  assert (Hp : preview_urls info = Done []).
  { unfold preview_urls, preview_images.
    destruct (get_or info "preview" JNull); try reflexivity. discriminate. }
  assert (Hg : gallery_urls info = Done []).
  { unfold gallery_urls.
    destruct (get_or info "gallery_data" JNull); try reflexivity.
    destruct (get_or info "media_metadata" JNull); try reflexivity. discriminate. }
  assert (Hv : video_urls info = Done []).
  { unfold video_urls.
    destruct (py_or (get_or info "media" JNull) (get_or info "secure_media" JNull));
      try reflexivity. discriminate. }
  unfold _extract_media. rewrite Hd, Hp, Hg, Hv. reflexivity.
Qed.

Lemma C8_direct_link_only_witness :
  _extract_media (JDict png_link)
    = Done {| media_urls := [JStr "https://i.redd.it/cat.PNG"];
              primary_media_url := JStr "https://i.redd.it/cat.PNG" |}.
Proof.
  apply (C8_direct_link_only png_link "https://i.redd.it/cat.PNG"); reflexivity.
Defined.

(* ================================================================== *)
(** ** Comment records *)
(* ================================================================== *)


Lemma t1_not_t3 (s : string) : startswith s "t1_" = true -> startswith s "t3_" = false.
Proof.
  destruct s as [|a [|b s]]; cbn [startswith]; try discriminate.
  - rewrite andb_false_r. discriminate.
  - destruct (Ascii.eqb "t" a); cbn [andb]; [|discriminate].
    destruct (Ascii.eqb "1" b) eqn:Hb; cbn [andb]; [|discriminate].
    apply Ascii.eqb_eq in Hb. subst b. reflexivity.
Qed.

Lemma parent_link_cases (ref p : json) (top : bool) :
  parent_link ref = Done (p, top) ->
  (forall s, ref = JStr s -> startswith s "t1_" = true ->
     p = JStr (str_drop 3 s) /\ top = false) /\
  (forall s, ref = JStr s -> startswith s "t3_" = true -> p = JNull /\ top = true) /\
  ((forall s, ref = JStr s -> startswith s "t1_" = false /\ startswith s "t3_" = false) ->
     p = JNull /\ top = false).
Proof.
  unfold parent_link. intros H. destruct (truthy ref) eqn:Ht.
  - obind_at H as x Hx. destruct ref; try discriminate. injection Hx as <-.
    destruct (startswith s "t1_") eqn:H1.
    + injection H as <- <-. pose proof (t1_not_t3 s H1) as H3.
      split; [|split].
      * intros s' [= <-] _. split; reflexivity.
      * intros s' [= <-] H3'. congruence.
      * intros Hn. destruct (Hn s eq_refl). congruence.
    + destruct (startswith s "t3_") eqn:H3; injection H as <- <-.
      * split; [|split].
        -- intros s' [= <-] H1'. congruence.
        -- intros s' [= <-] _. split; reflexivity.
        -- intros Hn. destruct (Hn s eq_refl). congruence.
      * split; [|split].
        -- intros s' [= <-] H1'. congruence.
        -- intros s' [= <-] H3'. congruence.
        -- intros _. split; reflexivity.
  - injection H as <- <-. split; [|split].
    + intros s -> H1. destruct s as [|a s]; [discriminate H1 | discriminate Ht].
    + intros s -> H1. destruct s as [|a s]; [discriminate H1 | discriminate Ht].
    + intros _. split; reflexivity.
Qed.

(** C5.  The parent linkage of an emitted comment record depends on the
    upstream reference [data.get("parent_id")] alone: a reference that
    starts with [t1_] gives [parent_id] the reference without the prefix and
    [is_top_level] false; one that starts with [t3_] gives no [parent_id]
    and [is_top_level] true; any other or missing reference gives no
    [parent_id] and [is_top_level] false.  [parent_fullname] is the raw
    reference and [in_reply_to] repeats [parent_id]. *)
Theorem C5_parent_linkage :
  forall (E : Env) (data : json) (depth : Z) (record : json),
    comment_record E data depth = Done record ->
    exists ref,
      dict_get data "parent_id" JNull = Done ref /\
      field record "parent_fullname" = Some ref /\
      field record "in_reply_to" = field record "parent_id" /\
      (forall s, ref = JStr s -> startswith s "t1_" = true ->
         field record "parent_id" = Some (JStr (str_drop 3 s)) /\
         field record "is_top_level" = Some (JBool false)) /\
      (forall s, ref = JStr s -> startswith s "t3_" = true ->
         field record "parent_id" = Some JNull /\
         field record "is_top_level" = Some (JBool true)) /\
      ((forall s, ref = JStr s ->
          startswith s "t1_" = false /\ startswith s "t3_" = false) ->
         field record "parent_id" = Some JNull /\
         field record "is_top_level" = Some (JBool false)).
Proof.
  intros E data depth record H. unfold comment_record in H.
  obind_at H as ref Href.
  obind_at H as lnk Hlink.
  do 6 obind_inv H. injection H as <-.
  exists ref. split; [exact Href|]. split; [reflexivity|]. split; [reflexivity|].
  destruct lnk as [p top].
  destruct (parent_link_cases ref p top Hlink) as (H1 & H3 & Hn).
  change (field _ "parent_id") with (Some p).
  change (field _ "is_top_level") with (Some (JBool top)).
  split; [|split].
  - intros s Hs Hp. destruct (H1 s Hs Hp) as [-> ->]. split; reflexivity.
  - intros s Hs Hp. destruct (H3 s Hs Hp) as [-> ->]. split; reflexivity.
  - intros Ho. destruct (Hn Ho) as [-> ->]. split; reflexivity.
Qed.

Lemma C5_parent_linkage_witness :
  exists record,
    comment_record (script_env []) reply_data 0 = Done record /\
    field record "parent_id" = Some (JStr "xyz987") /\
    field record "is_top_level" = Some (JBool false).
Proof.
  eexists. split; [reflexivity|].
  destruct (C5_parent_linkage (script_env []) reply_data 0 _ eq_refl)
    as (ref & Href & _ & _ & H1 & _).
  injection Href as <-. apply (H1 "t1_xyz987"); reflexivity.
Defined.

(* ================================================================== *)
(** ** The comment walk, one child at a time *)
(* ================================================================== *)

Lemma walk_child_empty_placeholder
  (E : Env) (walk_rec : json -> Z -> flat -> M flat) (link_id : json)
  (more_limit : option Z) (depth : Z) (child : json) (data : list (string * json))
  (st : flat) (t : trace) :
  dict_get child "kind" JNull = Done (JStr "more") ->
  dict_get child "data" (JDict []) = Done (JDict data) ->
  truthy (get_or data "children" JNull) = false ->
  walk_child E walk_rec link_id more_limit depth child st t = (Done st, t).
Proof.
  intros Hkind Hdata Hids. unfold walk_child, bind, lift.
  rewrite Hkind, Hdata. cbn [str_is String.eqb Ascii.eqb Bool.eqb].
  destruct (limit_reached more_limit (more_used st)); [reflexivity|].
  cbn [dict_get]. unfold py_or. rewrite Hids. reflexivity.
Qed.

Lemma walk_list (E : Env) (fuel : nat) (link_id : json) (more_limit : option Z)
  (items : list json) (depth : Z) (st : flat) (t : trace) :
  walk E (S fuel) link_id more_limit (JList items) depth st t
  = for_each (walk_child E (walk E fuel link_id more_limit) link_id more_limit depth)
      items st t.
Proof. reflexivity. Qed.

Lemma for_each_cons {S : Type} (body : json -> S -> M S) (x : json) (rest : list json)
  (st : S) (t : trace) :
  for_each body (x :: rest) st t
  = match body x st t with
    | (Done st', t') => for_each body rest st' t'
    | (Raise e, t') => (Raise e, t')
    | (OutOfFuel, t') => (OutOfFuel, t')
    end.
Proof. reflexivity. Qed.

(** C10.  A placeholder whose child-id list is empty or absent is skipped
    entirely: walking it alone leaves the trace (no request) and the walk
    state (no unit of budget, no record) as they were, and a list that
    starts with it is walked as the rest of the list is.  The More-Fetcher
    given an empty id list returns an empty list without a request. *)
Theorem C10_empty_placeholder_skipped :
  forall (E : Env) (fuel : nat) (link_id : json) (more_limit : option Z) (depth : Z)
         (child : json) (data : list (string * json)) (rest : list json)
         (st : flat) (t : trace),
    dict_get child "kind" JNull = Done (JStr "more") ->
    dict_get child "data" (JDict []) = Done (JDict data) ->
    truthy (get_or data "children" JNull) = false ->
    walk E (S fuel) link_id more_limit (JList [child]) depth st t = (Done st, t) /\
    walk E (S fuel) link_id more_limit (JList (child :: rest)) depth st t
      = walk E (S fuel) link_id more_limit (JList rest) depth st t /\
    (forall ids, truthy ids = false ->
       _fetch_more_children E link_id ids t = (Done (JList []), t)).
Proof.
  intros E fuel link_id more_limit depth child data rest st t Hkind Hdata Hids.
  pose proof (walk_child_empty_placeholder E (walk E fuel link_id more_limit)
                link_id more_limit depth child data st t Hkind Hdata Hids) as Hskip.
  split; [|split].
  - rewrite walk_list, for_each_cons, Hskip. reflexivity.
  - rewrite !walk_list, for_each_cons, Hskip. reflexivity.
  - intros ids Hfalsy. unfold _fetch_more_children. rewrite Hfalsy. reflexivity.
Qed.

Lemma C10_empty_placeholder_skipped_witness :
  walk (script_env []) 3 (JStr "t3_abc") None
       (JList [empty_more; comment "c1" "t3_abc" JNull]) 0
       {| comments := []; more_used := 0 |} []
  = walk (script_env []) 3 (JStr "t3_abc") None
       (JList [comment "c1" "t3_abc" JNull]) 0
       {| comments := []; more_used := 0 |} [].
Proof.
  apply (C10_empty_placeholder_skipped (script_env []) 2 (JStr "t3_abc") None 0
           empty_more [("children", JList [])] [comment "c1" "t3_abc" JNull]
           {| comments := []; more_used := 0 |} []); reflexivity.
Defined.

(* ================================================================== *)
(** ** Listings *)
(* ================================================================== *)

Lemma bind_lift {A B : Type} (o : outcome A) (k : A -> M B) (t : trace) :
  bind (lift o) k t
  = match o with
    | Done a => k a t
    | Raise e => (Raise e, t)
    | OutOfFuel => (OutOfFuel, t)
    end.
Proof. destruct o; reflexivity. Qed.

Lemma bind_yield {B : Type} (item : json) (k : unit -> M B) (t : trace) :
  bind (yield item) k t = k tt (t ++ [Yield item]).
Proof. reflexivity. Qed.

Lemma str_is_eq (v : json) (s : string) : str_is v s = true -> v = JStr s.
Proof.
  destruct v; simpl; try discriminate. intros H. apply String.eqb_eq in H. congruence.
Qed.

Lemma listing_page_cons (E : Env) (full : bool) (child : json) (rest : list json)
  (remaining : option Z) :
  listing_page E full (child :: rest) remaining
  = (kind <- lift (dict_get child "kind" JNull) ;;
     if negb (str_is kind "t3") then listing_page E full rest remaining
     else
       info <- lift (getitem child "data") ;;
       media <- lift (_extract_media info) ;;
       submission_dict <- lift (submission_fields E info media) ;;
       let submission_dict :=
         if full then dict_set submission_dict "raw" info else submission_dict in
       yield (JDict submission_dict) ;;
       match remaining with
       | Some r =>
           let r := r - 1 in
           if r <=? 0 then ret (Return tt)
           else listing_page E full rest (Some r)
       | None => listing_page E full rest None
       end).
Proof. reflexivity. Qed.

Lemma listing_page_yields (E : Env) (full : bool) (children : list json) :
  forall (remaining : option Z) (t t' : trace) (o : outcome (flow (option Z) unit)),
    listing_page E full children remaining t = (o, t') ->
    exists items,
      t' = t ++ map Yield items /\
      Forall (fun item => exists child, In child children /\ record_of_link E full child item)
        items.
Proof.
  induction children as [|child rest IH]; intros remaining t t' o H.
  - injection H as <- <-. exists []. split; [symmetry; apply app_nil_r | constructor].
  - assert (Hrest : forall remaining t t' o,
              listing_page E full rest remaining t = (o, t') ->
              exists items,
                t' = t ++ map Yield items /\
                Forall (fun item => exists c, In c (child :: rest) /\
                                              record_of_link E full c item) items).
    { intros r0 t0 t0' o0 H0. destruct (IH _ _ _ _ H0) as (items & -> & HF).
      exists items. split; [reflexivity|].
      eapply Forall_impl; [|exact HF]. intros item (c & Hc & Hr).
      exists c. split; [right; exact Hc | exact Hr]. }
    assert (Hstop : forall (e : outcome (flow (option Z) unit)),
              (e, t) = (o, t') ->
              exists items,
                t' = t ++ map Yield items /\
                Forall (fun item => exists c, In c (child :: rest) /\
                                              record_of_link E full c item) items).
    { intros e [= <- <-]. exists []. split; [symmetry; apply app_nil_r | constructor]. }
    rewrite listing_page_cons, bind_lift in H.
    destruct (dict_get child "kind" JNull) as [kind| |] eqn:Hkind; try (eapply Hstop; eassumption).
    destruct (str_is kind "t3") eqn:Ht3; cbn [negb] in H; [|eapply Hrest; eassumption].
    apply str_is_eq in Ht3. subst kind.
    rewrite bind_lift in H.
    destruct (getitem child "data") as [info| |] eqn:Hinfo; try (eapply Hstop; eassumption).
    rewrite bind_lift in H.
    destruct (_extract_media info) as [media| |] eqn:Hmedia; try (eapply Hstop; eassumption).
    rewrite bind_lift in H.
    destruct (submission_fields E info media) as [fields| |] eqn:Hfields;
      try (eapply Hstop; eassumption).
    cbv zeta in H. rewrite bind_yield in H.
    set (item := JDict (if full then dict_set fields "raw" info else fields)) in *.
    assert (Hitem : exists c, In c (child :: rest) /\ record_of_link E full c item).
    { exists child. split; [left; reflexivity|]. split; [exact Hkind|].
      exists info, media, fields. repeat split; assumption. }
    assert (Hmore : forall r,
              listing_page E full rest r (t ++ [Yield item]) = (o, t') ->
              exists items,
                t' = t ++ map Yield items /\
                Forall (fun item => exists c, In c (child :: rest) /\
                                              record_of_link E full c item) items).
    { intros r Hr. destruct (Hrest _ _ _ _ Hr) as (items & -> & HF).
      exists (item :: items). split; [rewrite <- app_assoc; reflexivity|].
      constructor; assumption. }
    destruct remaining as [r|]; [|eapply Hmore; eassumption].
    destruct (r - 1 <=? 0); [|eapply Hmore; eassumption].
    injection H as <- <-. exists [item]. split; [reflexivity|].
    constructor; [exact Hitem | constructor].
Qed.

Lemma listing_page_filter (E : Env) (full : bool) (children : list json) :
  forall (remaining : option Z) (t : trace),
    listing_page E full children remaining t
    = listing_page E full (filter not_passed_over children) remaining t.
Proof.
  induction children as [|child rest IH]; intros remaining t; [reflexivity|].
  cbn [filter]. unfold not_passed_over at 1.
  destruct (dict_get child "kind" JNull) as [kind| |] eqn:Hkind.
  - destruct (str_is kind "t3") eqn:Ht3.
    + rewrite !listing_page_cons, !bind_lift, Hkind, Ht3. cbn [negb].
      rewrite !bind_lift. destruct (getitem child "data") as [info| |]; try reflexivity.
      rewrite !bind_lift. destruct (_extract_media info) as [media| |]; try reflexivity.
      rewrite !bind_lift.
      destruct (submission_fields E info media) as [fields| |]; try reflexivity.
      cbv zeta. rewrite !bind_yield.
      destruct remaining as [r|]; cbv zeta; [destruct (r - 1 <=? 0); [reflexivity|]|];
        apply IH.
    + rewrite listing_page_cons, bind_lift, Hkind, Ht3. cbn [negb]. apply IH.
  - rewrite !listing_page_cons, !bind_lift, Hkind. reflexivity.
  - rewrite !listing_page_cons, !bind_lift, Hkind. reflexivity.
Qed.

(** C9.  In a page of a hot/new/top listing a child whose kind is not [t3]
    is skipped entirely: the rest of the page is processed from the same
    trace and with the same remaining budget as if the child were not
    there, and a whole page runs as the page without such children does.
    Whatever a page yields is the record built from one of its [t3]
    children. *)
Theorem C9_only_links_yielded :
  forall (E : Env) (full : bool) (child kind : json) (rest : list json)
         (remaining : option Z) (t : trace),
    dict_get child "kind" JNull = Done kind ->
    str_is kind "t3" = false ->
    listing_page E full (child :: rest) remaining t
      = listing_page E full rest remaining t /\
    (forall children r0 t0,
        listing_page E full children r0 t0
        = listing_page E full (filter not_passed_over children) r0 t0) /\
    (forall children r0 t0 o t',
        listing_page E full children r0 t0 = (o, t') ->
        exists items,
          t' = t0 ++ map Yield items /\
          Forall (fun item => exists c, In c children /\ record_of_link E full c item)
            items).
Proof.
  intros E full child kind rest remaining t Hkind Ht3. split; [|split].
  - rewrite listing_page_cons, bind_lift, Hkind, Ht3. reflexivity.
  - intros children r0 t0. apply listing_page_filter.
  - intros children r0 t0 o t' H. eapply listing_page_yields. exact H.
Qed.

Lemma C9_only_links_yielded_witness :
  listing_page (script_env []) false [comment "c1" "t3_abc" JNull; link "abc"] (Some 1) []
  = listing_page (script_env []) false [link "abc"] (Some 1) [].
Proof.
  apply (C9_only_links_yielded (script_env []) false (comment "c1" "t3_abc" JNull)
           (JStr "t1") [link "abc"] (Some 1) []); reflexivity.
Defined.

(* ================================================================== *)
(** ** The [full] flag *)
(* ================================================================== *)

Lemma requests_app (a b : trace) : requests (a ++ b) = requests a ++ requests b.
Proof. unfold requests. apply flat_map_app. Qed.

Lemma yielded_app (a b : trace) : yielded (a ++ b) = yielded a ++ yielded b.
Proof. unfold yielded. apply flat_map_app. Qed.

Lemma event_rel_requests (R : json -> json -> Prop) (a b : trace) :
  Forall2 (event_rel R) a b -> requests a = requests b.
Proof.
  induction 1 as [|e0 e1 a b He _ IH]; [reflexivity|].
  destruct e0, e1; simpl in He; try contradiction.
  - destruct He as [-> ->]. change (requests (?e :: ?l)) with (requests [e] ++ requests l).
    simpl. f_equal. exact IH.
  - exact IH.
Qed.

Lemma submission_fields_no_raw (E : Env) (info : json) (media : media_info)
  (fields : list (string * json)) (x : json) :
  submission_fields E info media = Done fields ->
  dict_set fields "raw" x = fields ++ [("raw", x)] /\ lookup fields "raw" = None.
Proof.
  unfold submission_fields. intros H. do 17 obind_inv H. injection H as <-.
  split; reflexivity.
Qed.

Lemma listing_record_attaches (E : Env) (info : json) (media : media_info)
  (fields : list (string * json)) :
  submission_fields E info media = Done fields ->
  attaches ["raw"] (JDict fields) (JDict (dict_set fields "raw" info)).
Proof.
  intros H. destruct (submission_fields_no_raw E info media fields info H) as [Hset Hno].
  exists fields, [("raw", info)]. rewrite Hset. repeat split.
  intros k [<- | []]. exact Hno.
Qed.

Lemma subreddit_record_attaches (info : json) :
  outcome_rel (attaches ["raw"]) (subreddit_record false info) (subreddit_record true info).
Proof.
  unfold subreddit_record.
  destruct (getitem info "id"); simpl; try reflexivity.
  destruct (getitem info "display_name"); simpl; try reflexivity.
  destruct (dict_get info "title" JNull); simpl; try reflexivity.
  destruct (dict_get info "subscribers" JNull); simpl; try reflexivity.
  destruct (dict_get info "public_description" JNull); simpl; try reflexivity.
  destruct (dict_get info "url" JNull); simpl; try reflexivity.
  eexists _, [("raw", info)]. repeat split.
  intros k [<- | []]. reflexivity.
Qed.

Lemma search_page_attaches (children : list json) :
  forall (results0 results1 : list json) (remaining : option Z),
    Forall2 (attaches ["raw"]) results0 results1 ->
    outcome_rel
      (fun f0 f1 =>
         match f0, f1 with
         | Continue (r0, m0), Continue (r1, m1) =>
             Forall2 (attaches ["raw"]) r0 r1 /\ m0 = m1
         | Return r0, Return r1 => Forall2 (attaches ["raw"]) r0 r1
         | _, _ => False
         end)
      (search_page false children results0 remaining)
      (search_page true children results1 remaining).
Proof.
  induction children as [|child rest IH]; intros results0 results1 remaining HR.
  - simpl. split; [exact HR | reflexivity].
  - cbn [search_page].
    destruct (getitem child "data") as [info| |]; cbn [obind outcome_rel]; try reflexivity.
    pose proof (subreddit_record_attaches info) as Hrec.
    destruct (subreddit_record false info) as [rec0| |],
             (subreddit_record true info) as [rec1| |];
      cbn [obind outcome_rel] in *; try contradiction; try exact Hrec.
    assert (HR' : Forall2 (attaches ["raw"]) (results0 ++ [rec0]) (results1 ++ [rec1])).
    { apply Forall2_app; [exact HR | constructor; [exact Hrec | constructor]]. }
    destruct remaining as [r|]; cbv zeta.
    + destruct (r - 1 <=? 0); [exact HR' | apply IH; exact HR'].
    + apply IH; exact HR'.
Qed.

Lemma bind_rel {A0 A1 B0 B1 : Type} (T : trace -> trace -> Prop)
  (RA : A0 -> A1 -> Prop) (RB : B0 -> B1 -> Prop)
  (m0 : M A0) (m1 : M A1) (k0 : A0 -> M B0) (k1 : A1 -> M B1) (t0 t1 : trace) :
  run_rel T RA (m0 t0) (m1 t1) ->
  (forall a0 a1 t0' t1', T t0' t1' -> RA a0 a1 -> run_rel T RB (k0 a0 t0') (k1 a1 t1')) ->
  run_rel T RB (bind m0 k0 t0) (bind m1 k1 t1).
Proof.
  unfold run_rel, bind. intros [HT HR] Hk.
  destruct (m0 t0) as [[a0| |] t0'], (m1 t1) as [[a1| |] t1'];
    cbn [fst snd outcome_rel] in *; try contradiction.
  - apply Hk; assumption.
  - split; assumption.
  - split; assumption.
Qed.

Lemma lift_rel {A0 A1 : Type} (T : trace -> trace -> Prop) (R : A0 -> A1 -> Prop)
  (o0 : outcome A0) (o1 : outcome A1) (t0 t1 : trace) :
  T t0 t1 -> outcome_rel R o0 o1 -> run_rel T R (lift o0 t0) (lift o1 t1).
Proof. intros HT HR. split; assumption. Qed.

Lemma outcome_rel_eq {A : Type} (o : outcome A) : outcome_rel eq o o.
Proof. destruct o; simpl; reflexivity. Qed.

Lemma get_rel (E : Env) (T : trace -> trace -> Prop) (path : string)
  (params : list (string * json)) (t0 t1 : trace) :
  requests t0 = requests t1 ->
  T (t0 ++ [Request path params]) (t1 ++ [Request path params]) ->
  run_rel T eq (_get E path params t0) (_get E path params t1).
Proof.
  intros Hreq HT. unfold _get. rewrite Hreq.
  destruct (ok (server E (requests t1) path params)).
  - destruct (body (server E (requests t1) path params)); split; simpl; auto.
  - split; simpl; auto.
Qed.

Lemma search_loop_attaches (E : Env) (query : string) (fuel : nat) :
  forall (results0 results1 : list json) (after : json) (remaining : option Z) (t : trace),
    Forall2 (attaches ["raw"]) results0 results1 ->
    run_rel eq (Forall2 (attaches ["raw"]))
      (search_loop E fuel query false results0 after remaining t)
      (search_loop E fuel query true results1 after remaining t).
Proof.
  induction fuel as [|fuel IH]; intros results0 results1 after remaining t HR.
  - split; simpl; auto.
  - cbn [search_loop]. cbv zeta.
    apply (bind_rel eq eq); [apply get_rel; reflexivity|].
    intros data ? t0 ? <- <-.
    apply (bind_rel eq eq); [apply lift_rel; [reflexivity | apply outcome_rel_eq]|].
    intros children ? t1 ? <- <-.
    apply (bind_rel eq eq); [apply lift_rel; [reflexivity | apply outcome_rel_eq]|].
    intros items ? t2 ? <- <-.
    eapply bind_rel;
      [apply lift_rel; [reflexivity | apply search_page_attaches; exact HR]|].
    intros [[r0 m0]|r0] [[r1 m1]|r1] t3 ? <- Hfl; cbn beta iota in Hfl; try contradiction.
    + destruct Hfl as [Hr ->].
      apply (bind_rel eq eq); [apply lift_rel; [reflexivity | apply outcome_rel_eq]|].
      intros after' ? t4 ? <- <-.
      destruct (negb (truthy after') || negb (truthy children)).
      * split; simpl; auto.
      * apply IH. exact Hr.
    + split; simpl; auto.
Qed.

Lemma run_rel_refl {A : Type} (r : outcome A * trace) : run_rel eq eq r r.
Proof. split; [reflexivity | apply outcome_rel_eq]. Qed.

Lemma listing_page_attaches (E : Env) (children : list json) :
  forall (remaining : option Z) (t0 t1 : trace),
    Forall2 (event_rel (attaches ["raw"])) t0 t1 ->
    run_rel (Forall2 (event_rel (attaches ["raw"]))) eq
      (listing_page E false children remaining t0)
      (listing_page E true children remaining t1).
Proof.
  induction children as [|child rest IH]; intros remaining t0 t1 HT.
  - split; simpl; auto.
  - rewrite !listing_page_cons.
    apply (bind_rel _ eq); [apply lift_rel; [exact HT | apply outcome_rel_eq]|].
    intros kind ? t0' t1' HT' <-.
    destruct (negb (str_is kind "t3")); [apply IH; exact HT'|].
    apply (bind_rel _ eq); [apply lift_rel; [exact HT' | apply outcome_rel_eq]|].
    intros info ? t0'' t1'' HT'' <-.
    apply (bind_rel _ eq); [apply lift_rel; [exact HT'' | apply outcome_rel_eq]|].
    intros media ? t0a t1a HTa <-.
    pose proof (listing_record_attaches E info media) as Hatt.
    destruct (submission_fields E info media) as [fields| |];
      [|split; simpl; auto ..].
    rewrite !bind_lift. cbv zeta. rewrite !bind_yield.
    assert (HTy : Forall2 (event_rel (attaches ["raw"]))
                    (t0a ++ [Yield (JDict fields)])
                    (t1a ++ [Yield (JDict (dict_set fields "raw" info))])).
    { apply Forall2_app; [exact HTa|]. constructor; [|constructor].
      apply Hatt. reflexivity. }
    destruct remaining as [r|]; cbv zeta.
    + destruct (r - 1 <=? 0); [split; simpl; auto | apply IH; exact HTy].
    + apply IH; exact HTy.
Qed.

Lemma listing_loop_attaches (E : Env) (path sort : string) (time_filter : option string)
  (fuel : nat) :
  forall (after : json) (remaining : option Z) (t0 t1 : trace),
    Forall2 (event_rel (attaches ["raw"])) t0 t1 ->
    run_rel (Forall2 (event_rel (attaches ["raw"]))) eq
      (listing_loop E fuel path sort time_filter false after remaining t0)
      (listing_loop E fuel path sort time_filter true after remaining t1).
Proof.
  induction fuel as [|fuel IH]; intros after remaining t0 t1 HT.
  - split; simpl; auto.
  - cbn [listing_loop]. cbv zeta.
    apply (bind_rel _ eq).
    { apply get_rel; [eapply event_rel_requests; exact HT|].
      apply Forall2_app; [exact HT|]. constructor; [split; reflexivity | constructor]. }
    intros data ? t0' t1' HT' <-.
    apply (bind_rel _ eq); [apply lift_rel; [exact HT' | apply outcome_rel_eq]|].
    intros children ? t0'' t1'' HT'' <-.
    apply (bind_rel _ eq); [apply lift_rel; [exact HT'' | apply outcome_rel_eq]|].
    intros items ? t0a t1a HTa <-.
    apply (bind_rel _ eq); [apply listing_page_attaches; exact HTa|].
    intros fl ? t0b t1b HTb <-.
    destruct fl as [remaining'|[]]; [|split; simpl; auto].
    apply (bind_rel _ eq); [apply lift_rel; [exact HTb | apply outcome_rel_eq]|].
    intros after' ? t0c t1c HTc <-.
    destruct (negb (truthy after') || negb (truthy children)).
    + split; simpl; auto.
    + apply IH. exact HTc.
Qed.

Lemma submission_fields_no_extras (E : Env) (info : json) (media : media_info)
  (fields : list (string * json)) (c a b d : json) :
  submission_fields E info media = Done fields ->
  dict_set (dict_set (dict_set (dict_set fields "comments" c) "raw_response" a)
              "raw_link" b) "raw_comments_listing" d
  = dict_set fields "comments" c
      ++ [("raw_response", a); ("raw_link", b); ("raw_comments_listing", d)] /\
  forall k, In k ["raw_response"; "raw_link"; "raw_comments_listing"] ->
            lookup (dict_set fields "comments" c) k = None.
Proof.
  unfold submission_fields. intros H. do 17 obind_inv H. injection H as <-.
  split; [reflexivity|].
  intros k [<- | [<- | [<- | []]]]; reflexivity.
Qed.

Lemma submission_attaches (E : Env) (self : Reddit) (id : string) (more_limit : option Z)
  (fuel : nat) (t : trace) :
  run_rel eq (attaches ["raw_response"; "raw_link"; "raw_comments_listing"])
    (submission E self id more_limit (Some false) fuel t)
    (submission E self id more_limit (Some true) fuel t).
Proof.
  unfold submission. cbn [resolve_full].
  apply (bind_rel eq eq); [apply run_rel_refl|]. intros raw ? t0 ? <- <-.
  apply (bind_rel eq eq); [apply run_rel_refl|]. intros link_info ? t1 ? <- <-.
  apply (bind_rel eq eq); [apply run_rel_refl|]. intros comments_listing ? t2 ? <- <-.
  apply (bind_rel eq eq); [apply run_rel_refl|]. intros media ? t3 ? <- <-.
  rewrite !bind_lift.
  destruct (submission_fields E link_info media) as [fields| |] eqn:Hfields;
    [|split; simpl; auto ..].
  apply (bind_rel eq eq); [apply run_rel_refl|]. intros link_fullname ? t4 ? <- <-.
  apply (bind_rel eq eq); [apply run_rel_refl|]. intros comments_flat ? t5 ? <- <-.
  cbv zeta.
  destruct (submission_fields_no_extras E link_info media fields (JList comments_flat)
              raw link_info comments_listing Hfields) as [Hset Hno].
  split; [reflexivity|]. cbn [fst ret outcome_rel].
  eexists _, _. split; [reflexivity|]. split; [rewrite Hset; reflexivity|].
  split; [reflexivity | exact Hno].
Qed.

Lemma lookup_app (a b : list (string * json)) (k : string) :
  lookup (a ++ b) k = match lookup a k with Some v => Some v | None => lookup b k end.
Proof.
  induction a as [|[k0 v0] a IH]; simpl; [reflexivity|].
  destruct (String.eqb k0 k); [reflexivity | exact IH].
Qed.

Lemma lookup_key (b : list (string * json)) (k : string) :
  In k (map fst b) -> lookup b k <> None.
Proof.
  induction b as [|[k0 v0] b IH]; simpl; [intros []|].
  intros [-> | Hin].
  - rewrite String.eqb_refl. discriminate.
  - destruct (String.eqb k0 k); [discriminate | apply IH; exact Hin].
Qed.

Lemma attaches_fields (keys : list string) (plain full_record : json) :
  attaches keys plain full_record ->
  (forall k, In k keys -> field plain k = None /\ field full_record k <> None) /\
  (forall k v, field plain k = Some v -> field full_record k = Some v).
Proof.
  intros (fields & extras & -> & -> & Hkeys & Hno). cbn [field]. split.
  - intros k Hk. split; [apply Hno; exact Hk|].
    rewrite lookup_app, (Hno k Hk). apply lookup_key. rewrite Hkeys. exact Hk.
  - intros k v Hv. rewrite lookup_app, Hv. reflexivity.
Qed.

(** C6.  At every entry point a call without [full] behaves as the call with
    the client's default, so the resolved flag is the explicit value when
    there is one and the default otherwise.  The call with the flag on does
    what the call with the flag off does (same requests, same outcome), and
    each record it returns or yields is the record of the other call with
    the raw entries added at the end: [raw] for a search result and for a
    listing item, [raw_response], [raw_link] and [raw_comments_listing] for a
    submission.  So those keys are present exactly when the flag is on, and
    every other field has the same value either way. *)
Theorem C6_full_flag :
  forall (E : Env) (self : Reddit) (sub : Subreddit),
    (forall query limit fuel,
        search_subreddits E self query limit None fuel
        = search_subreddits E self query limit (Some (return_full self)) fuel) /\
    (forall sort limit time_filter fuel,
        _listing E sub sort limit time_filter None fuel
        = _listing E sub sort limit time_filter (Some (return_full (reddit sub))) fuel) /\
    (forall id more_limit fuel,
        submission E self id more_limit None fuel
        = submission E self id more_limit (Some (return_full self)) fuel) /\
    (forall query limit fuel t,
        run_rel eq (Forall2 (attaches ["raw"]))
          (search_subreddits E self query limit (Some false) fuel t)
          (search_subreddits E self query limit (Some true) fuel t)) /\
    (forall sort limit time_filter fuel t0 t1,
        Forall2 (event_rel (attaches ["raw"])) t0 t1 ->
        run_rel (Forall2 (event_rel (attaches ["raw"]))) eq
          (_listing E sub sort limit time_filter (Some false) fuel t0)
          (_listing E sub sort limit time_filter (Some true) fuel t1)) /\
    (forall id more_limit fuel t,
        run_rel eq (attaches ["raw_response"; "raw_link"; "raw_comments_listing"])
          (submission E self id more_limit (Some false) fuel t)
          (submission E self id more_limit (Some true) fuel t)) /\
    (forall keys plain full_record,
        attaches keys plain full_record ->
        (forall k, In k keys -> field plain k = None /\ field full_record k <> None) /\
        (forall k v, field plain k = Some v -> field full_record k = Some v)).
Proof.
  intros E self sub.
  split; [reflexivity|]. split; [reflexivity|]. split; [reflexivity|].
  split; [|split; [|split]].
  - intros query limit fuel t.
    apply (search_loop_attaches E query fuel [] [] JNull limit t). constructor.
  - intros sort limit time_filter fuel t0 t1 HT.
    apply listing_loop_attaches. exact HT.
  - intros id more_limit fuel t. apply submission_attaches.
  - intros keys plain full_record. apply attaches_fields.
Qed.

Lemma C6_full_flag_witness :
  run_rel (Forall2 (event_rel (attaches ["raw"]))) eq
    (_listing (script_env [ok_json (listing_of [link "abc"])])
       (subreddit {| return_full := false |} "rocq") "hot" (Some 5) None (Some false) 3 [])
    (_listing (script_env [ok_json (listing_of [link "abc"])])
       (subreddit {| return_full := false |} "rocq") "hot" (Some 5) None (Some true) 3 []).
Proof.
  apply (C6_full_flag (script_env [ok_json (listing_of [link "abc"])])
           {| return_full := false |} (subreddit {| return_full := false |} "rocq")).
  constructor.
Defined.

(* ================================================================== *)
(** ** Transport failures *)
(* ================================================================== *)

Lemma fails_fast_pure {A : Type} (E : Env) (m : M A) :
  (forall t, snd (m t) = t) -> fails_fast E m.
Proof.
  intros Hm t t' o H. exists []. split.
  - rewrite app_nil_r. specialize (Hm t). rewrite H in Hm. exact Hm.
  - intros pre path params post Hsplit. destruct pre; discriminate.
Qed.

Lemma fails_fast_ret {A : Type} (E : Env) (a : A) : fails_fast E (ret a).
Proof. apply fails_fast_pure. reflexivity. Qed.

Lemma fails_fast_lift {A : Type} (E : Env) (o : outcome A) : fails_fast E (lift o).
Proof. apply fails_fast_pure. reflexivity. Qed.

Lemma fails_fast_out_of_fuel {A : Type} (E : Env) : fails_fast E (@out_of_fuel A).
Proof. apply fails_fast_pure. reflexivity. Qed.

Lemma fails_fast_yield (E : Env) (item : json) : fails_fast E (yield item).
Proof.
  intros t t' o [= <- <-]. exists [Yield item]. split; [reflexivity|].
  intros pre path params post Hsplit.
  destruct pre as [|e [|e' pre]]; discriminate.
Qed.

Lemma fails_fast_get (E : Env) (path : string) (params : list (string * json)) :
  fails_fast E (_get E path params).
Proof.
  intros t t' o H. unfold _get in H. exists [Request path params].
  assert (Ht' : t' = t ++ [Request path params]).
  { destruct (ok _); [destruct (body _)|]; injection H as _ <-; reflexivity. }
  split; [exact Ht'|].
  intros pre path' params' post Hsplit Hok.
  destruct pre as [|e pre].
  - injection Hsplit as <- <- <-. rewrite app_nil_r in Hok. rewrite Hok in H.
    injection H as <- _. rewrite app_nil_r. split; reflexivity.
  - destruct pre; discriminate.
Qed.

Lemma fails_fast_bind {A B : Type} (E : Env) (m : M A) (k : A -> M B) :
  fails_fast E m -> (forall a, fails_fast E (k a)) -> fails_fast E (bind m k).
Proof.
  intros Hm Hk t t' o H. unfold bind in H.
  destruct (m t) as [o1 t1] eqn:Hrun.
  destruct (Hm t t1 o1 Hrun) as (new1 & -> & H1).
  destruct o1 as [a| |].
  - destruct (Hk a _ _ _ H) as (new2 & -> & H2).
    exists (new1 ++ new2). split; [symmetry; apply app_assoc|].
    intros pre path params post Hsplit Hok.
    apply app_eq_app in Hsplit. destruct Hsplit as (l & [[Hpre Hpost] | [Hpre Hpost]]).
    + destruct l as [|x l].
      * rewrite app_nil_r in Hpre. subst pre. simpl in Hpost.
        specialize (H2 [] path params post (eq_sym Hpost)).
        rewrite app_nil_r in H2. apply H2. exact Hok.
      * injection Hpost as <- ->.
        destruct (H1 pre path params l Hpre Hok) as [_ Habs]. discriminate.
    + subst pre. specialize (H2 l path params post Hpost).
      rewrite <- app_assoc in H2. apply H2. exact Hok.
  - injection H as <- <-. exists new1. split; [reflexivity|].
    intros pre path params post Hsplit Hok.
    destruct (H1 pre path params post Hsplit Hok) as [-> [= ->]]. split; reflexivity.
  - injection H as <- <-. exists new1. split; [reflexivity|].
    intros pre path params post Hsplit Hok.
    destruct (H1 pre path params post Hsplit Hok) as [_ Habs]. discriminate.
Qed.

Ltac ff_step :=
  match goal with
  | |- fails_fast _ (bind _ _) => apply fails_fast_bind; [|intros ?]
  | |- fails_fast _ (lift _) => apply fails_fast_lift
  | |- fails_fast _ (ret _) => apply fails_fast_ret
  | |- fails_fast _ out_of_fuel => apply fails_fast_out_of_fuel
  | |- fails_fast _ (yield _) => apply fails_fast_yield
  | |- fails_fast _ (_get _ _ _) => apply fails_fast_get
  | |- fails_fast _ (if ?b then _ else _) => destruct b
  | |- fails_fast _ (match ?x with _ => _ end) => destruct x
  end.

Ltac ff := cbv zeta; repeat (ff_step; cbv zeta); auto.

Lemma fails_fast_for_each {S : Type} (E : Env) (body : json -> S -> M S) :
  (forall x st, fails_fast E (body x st)) ->
  forall l st, fails_fast E (for_each body l st).
Proof.
  intros Hbody l. induction l as [|x rest IH]; intros st; cbn [for_each]; ff.
Qed.

Lemma fails_fast_fetch_more (E : Env) (link_id child_ids : json) :
  fails_fast E (_fetch_more_children E link_id child_ids).
Proof. unfold _fetch_more_children. ff. Qed.

Lemma fails_fast_walk_child (E : Env) (walk_rec : json -> Z -> flat -> M flat)
  (link_id : json) (more_limit : option Z) (depth : Z) (child : json) (st : flat) :
  (forall c d s, fails_fast E (walk_rec c d s)) ->
  fails_fast E (walk_child E walk_rec link_id more_limit depth child st).
Proof.
  intros Hrec. unfold walk_child. pose proof (fails_fast_fetch_more E) as Hfetch. ff.
Qed.

Lemma fails_fast_walk (E : Env) (link_id : json) (more_limit : option Z) (fuel : nat) :
  forall children depth st,
    fails_fast E (walk E fuel link_id more_limit children depth st).
Proof.
  induction fuel as [|fuel IH]; intros children depth st; cbn [walk]; ff.
  apply fails_fast_for_each. intros x s. apply fails_fast_walk_child. exact IH.
Qed.

Lemma fails_fast_flatten (E : Env) (children link_id : json) (depth : Z)
  (more_limit : option Z) (fuel : nat) :
  fails_fast E (_flatten_comments E children link_id depth more_limit fuel).
Proof. unfold _flatten_comments. pose proof (fails_fast_walk E) as Hwalk. ff. Qed.

Lemma fails_fast_submission (E : Env) (self : Reddit) (id : string)
  (more_limit : option Z) (full : option bool) (fuel : nat) :
  fails_fast E (submission E self id more_limit full fuel).
Proof. unfold submission. pose proof (fails_fast_flatten E) as Hflat. ff. Qed.

Lemma fails_fast_search (E : Env) (query : string) (full : bool) (fuel : nat) :
  forall results after remaining,
    fails_fast E (search_loop E fuel query full results after remaining).
Proof.
  induction fuel as [|fuel IH]; intros results after remaining; cbn [search_loop]; ff.
Qed.

Lemma fails_fast_listing_page (E : Env) (full : bool) (children : list json) :
  forall remaining, fails_fast E (listing_page E full children remaining).
Proof.
  induction children as [|child rest IH]; intros remaining;
    [apply fails_fast_ret|].
  rewrite listing_page_cons. ff.
Qed.

Lemma fails_fast_listing (E : Env) (path sort : string) (time_filter : option string)
  (full : bool) (fuel : nat) :
  forall after remaining,
    fails_fast E (listing_loop E fuel path sort time_filter full after remaining).
Proof.
  induction fuel as [|fuel IH]; intros after remaining; cbn [listing_loop].
  - apply fails_fast_out_of_fuel.
  - pose proof (fails_fast_listing_page E full) as Hpage. ff.
Qed.

(** C7.  [_get] sends exactly one request, and a response whose status is
    not a success makes it raise [RedditHTTPError].  In a search, a listing,
    a comment walk and a submission fetch, a request answered with such a
    status is the last event of the run (nothing is sent again, nothing more
    is yielded) and the run ends by raising that error, so it returns no
    result; a failed placeholder expansion thus aborts the whole
    [submission] call. *)
Theorem C7_transport_failure_propagates :
  forall (E : Env),
    (forall path params t,
        snd (_get E path params t) = t ++ [Request path params] /\
        (ok (server E (requests t) path params) = false ->
         fst (_get E path params t)
         = Raise (RedditHTTPError (status (server E (requests t) path params))
                    (BASE_URL ++ path)%string))) /\
    (forall self query limit full fuel,
        fails_fast E (search_subreddits E self query limit full fuel)) /\
    (forall sub sort limit time_filter full fuel,
        fails_fast E (_listing E sub sort limit time_filter full fuel)) /\
    (forall children link_id depth more_limit fuel,
        fails_fast E (_flatten_comments E children link_id depth more_limit fuel)) /\
    (forall self id more_limit full fuel,
        fails_fast E (submission E self id more_limit full fuel)).
Proof.
  intros E. split; [|split; [|split; [|split]]].
  - intros path params t. unfold _get.
    destruct (ok (server E (requests t) path params)).
    + split; [|discriminate]. destruct (body _); reflexivity.
    + split; reflexivity.
  - intros self query limit full fuel. apply fails_fast_search.
  - intros sub sort limit time_filter full fuel. apply fails_fast_listing.
  - intros children link_id depth more_limit fuel. apply fails_fast_flatten.
  - intros self id more_limit full fuel. apply fails_fast_submission.
Qed.

Lemma C7_transport_failure_propagates_witness :
  fst (submission (script_env [ok_json thread_page; http_error 500])
         {| return_full := false |} "abc" None None 5 [])
  = Raise (RedditHTTPError 500 "https://www.reddit.com/api/morechildren.json").
Proof.
  destruct (C7_transport_failure_propagates
              (script_env [ok_json thread_page; http_error 500]))
    as (_ & _ & _ & _ & Hsub).
  destruct (Hsub {| return_full := false |} "abc" None None 5%nat [] _ _ eq_refl)
    as (new & Hnew & Hfail).
  destruct (Hfail [Request "/comments/abc.json" [("limit", JInt 500)]]
              "/api/morechildren.json"
              [("api_type", JStr "json"); ("link_id", JStr "t3_abc");
               ("children", JStr "c2,c3"); ("limit_children", JBool false);
               ("sort", JStr "confidence")] []) as [_ Hout].
  - simpl in Hnew. symmetry. exact Hnew.
  - reflexivity.
  - exact Hout.
Defined.

(* ================================================================== *)
(** ** The result budget of the paginators *)
(* ================================================================== *)

Lemma count_yields_app (a b : trace) : count_yields (a ++ b) = count_yields a + count_yields b.
Proof. unfold count_yields. rewrite yielded_app, length_app. lia. Qed.

Lemma listing_page_budget (E : Env) (full : bool) (children : list json) :
  forall (r : Z) (t t' : trace) (o : outcome (flow (option Z) unit)),
    1 <= r ->
    listing_page E full children (Some r) t = (o, t') ->
    count_yields t' <= count_yields t + r /\
    match o with
    | Done (Continue (Some r')) => 1 <= r' /\ count_yields t' = count_yields t + (r - r')
    | Done (Continue None) => False
    | _ => True
    end.
Proof.
  induction children as [|child rest IH]; intros r t t' o Hr H.
  - injection H as <- <-. split; [lia|]. split; [exact Hr | lia].
  - rewrite listing_page_cons, bind_lift in H.
    destruct (dict_get child "kind" JNull) as [kind| |];
      [|injection H as <- <-; split; [lia | exact I] ..].
    destruct (negb (str_is kind "t3")); [eapply IH; eassumption|].
    rewrite bind_lift in H.
    destruct (getitem child "data") as [info| |];
      [|injection H as <- <-; split; [lia | exact I] ..].
    rewrite bind_lift in H.
    destruct (_extract_media info) as [media| |];
      [|injection H as <- <-; split; [lia | exact I] ..].
    rewrite bind_lift in H.
    destruct (submission_fields E info media) as [fields| |];
      [|injection H as <- <-; split; [lia | exact I] ..].
    cbv zeta in H. rewrite bind_yield in H.
    destruct (r - 1 <=? 0) eqn:Hle.
    + injection H as <- <-. rewrite count_yields_app.
      change (count_yields [Yield _]) with 1. split; [lia | exact I].
    + apply Z.leb_gt in Hle.
      destruct (IH (r - 1) _ _ _ ltac:(lia) H) as [Hb Ho].
      rewrite count_yields_app in Hb, Ho.
      change (count_yields [Yield _]) with 1 in Hb, Ho.
      split; [lia|].
      destruct o as [[[r'|]|]| |]; auto. destruct Ho as [H1 H2]. split; lia.
Qed.

Lemma listing_loop_budget (E : Env) (path sort : string) (time_filter : option string)
  (full : bool) (fuel : nat) :
  forall (after : json) (r : Z) (t t' : trace) (o : outcome unit),
    1 <= r ->
    listing_loop E fuel path sort time_filter full after (Some r) t = (o, t') ->
    count_yields t' <= count_yields t + r.
Proof.
  induction fuel as [|fuel IH]; intros after r t t' o Hr H.
  - injection H as <- <-. lia.
  - cbn [listing_loop] in H. cbv zeta in H.
    set (params := listing_params sort time_filter after (Some r)) in H.
    unfold bind at 1 in H.
    assert (Hget : forall og tg, _get E path params t = (og, tg) ->
                                 count_yields tg = count_yields t).
    { intros og tg Hg. unfold _get in Hg.
      destruct (ok _); [destruct (body _)|]; injection Hg as _ <-;
        rewrite count_yields_app; change (count_yields [Request _ _]) with 0; lia. }
    destruct (_get E path params t) as [[data| |] t1] eqn:Hg;
      specialize (Hget _ _ eq_refl);
      [|injection H as <- <-; lia ..].
    rewrite bind_lift in H.
    destruct (do d <- getitem data "data"; getitem d "children") as [children| |];
      [|injection H as <- <-; lia ..].
    rewrite bind_lift in H.
    destruct (py_iter children) as [items| |]; [|injection H as <- <-; lia ..].
    unfold bind at 1 in H.
    destruct (listing_page E full items (Some r) t1) as [fl t2] eqn:Hpage.
    destruct (listing_page_budget E full items r t1 t2 fl Hr Hpage) as [Hb Hfl].
    destruct fl as [[[r'|]|[]]| |]; try contradiction;
      try (injection H as <- <-; lia).
    destruct Hfl as [Hr' Hcount]. rewrite bind_lift in H.
    destruct (do d <- getitem data "data"; dict_get d "after" JNull) as [after'| |];
      [|injection H as <- <-; lia ..].
    destruct (negb (truthy after') || negb (truthy children)).
    + injection H as <- <-. lia.
    + specialize (IH _ _ _ _ _ Hr' H). lia.
Qed.

Lemma search_page_budget (full : bool) (children : list json) :
  forall (results : list json) (r : Z)
         (fl : flow (list json * option Z) (list json)),
    1 <= r ->
    search_page full children results (Some r) = Done fl ->
    match fl with
    | Continue (results', Some r') =>
        1 <= r' /\ Z.of_nat (List.length results') = Z.of_nat (List.length results) + (r - r')
    | Continue (_, None) => False
    | Return results' =>
        Z.of_nat (List.length results') <= Z.of_nat (List.length results) + r
    end.
Proof.
  induction children as [|child rest IH]; intros results r fl Hr H.
  - injection H as <-. split; [exact Hr | lia].
  - cbn [search_page] in H. obind_at H as info Hinfo. obind_at H as sub_dict Hrec.
    cbv zeta in H. destruct (r - 1 <=? 0) eqn:Hle.
    + apply Z.leb_le in Hle. injection H as <-. rewrite length_app. simpl. lia.
    + apply Z.leb_gt in Hle.
      specialize (IH (results ++ [sub_dict]) (r - 1) fl ltac:(lia) H).
      rewrite length_app in IH. simpl in IH.
      destruct fl as [[results' [r'|]]|results']; [|exact IH|]; [destruct IH; split|]; lia.
Qed.

Lemma search_loop_budget (E : Env) (query : string) (full : bool) (fuel : nat) :
  forall (results : list json) (after : json) (r : Z) (t t' : trace) (out : list json),
    1 <= r ->
    search_loop E fuel query full results after (Some r) t = (Done out, t') ->
    Z.of_nat (List.length out) <= Z.of_nat (List.length results) + r.
Proof.
  induction fuel as [|fuel IH]; intros results after r t t' out Hr H.
  - discriminate.
  - cbn [search_loop] in H. cbv zeta in H.
    set (params := if truthy after then _ else _) in H.
    unfold bind at 1 in H.
    destruct (_get E "/subreddits/search.json" params t) as [[data| |] t1];
      [|discriminate ..].
    rewrite bind_lift in H.
    destruct (do d <- getitem data "data"; getitem d "children") as [children| |];
      [|discriminate ..].
    rewrite bind_lift in H.
    destruct (py_iter children) as [items| |]; [|discriminate ..].
    rewrite bind_lift in H.
    destruct (search_page full items results (Some r)) as [fl| |] eqn:Hpage;
      [|discriminate ..].
    pose proof (search_page_budget full items results r fl Hr Hpage) as Hfl.
    destruct fl as [[results' [r'|]]|results']; try contradiction.
    + destruct Hfl as [Hr' Hlen]. rewrite bind_lift in H.
      destruct (do d <- getitem data "data"; dict_get d "after" JNull) as [after'| |];
        [|discriminate ..].
      destruct (negb (truthy after') || negb (truthy children)).
      * injection H as <- <-. lia.
      * specialize (IH _ _ _ _ _ _ Hr' H). lia.
    + injection H as <- <-. exact Hfl.
Qed.

(** C4, at the input where the code departs from it.  With a budget of 0
    the first page is requested with page size 0, and the first item of the
    answer is still produced: the budget is only tested after an item has
    been handed out.  The listing yields one item and the search returns
    one result, while the budget allows none. *)
Theorem C4_zero_budget_yields_one :
  snd (hot (script_env [ok_json two_links])
         (subreddit {| return_full := false |} "rocq") (Some 0) None 3 [])
  = [Request "/r/rocq/hot.json" [("limit", JInt 0)];
     Yield (JDict [("id", JStr "abc"); ("title", JStr ""); ("selftext", JStr "");
                   ("permalink", JStr ""); ("url", JStr ""); ("created_utc", JFloat 0);
                   ("created_date", JNull); ("author", JNull); ("score", JNull);
                   ("ups", JNull); ("upvote_ratio", JNull); ("num_comments", JNull);
                   ("thumbnail", JNull); ("is_video", JNull); ("media", JNull);
                   ("preview", JNull); ("gallery_data", JNull);
                   ("media_metadata", JNull); ("media_urls", JList []);
                   ("primary_media_url", JNull)])] /\
  count_yields
    (snd (hot (script_env [ok_json two_links])
            (subreddit {| return_full := false |} "rocq") (Some 0) None 3 [])) = 1 /\
  fst (search_subreddits (script_env [ok_json subreddit_page])
         {| return_full := false |} "rocq" (Some 0) None 3 [])
  = Done [JDict [("id", JStr "2qh1i"); ("name", JStr "rocq"); ("title", JNull);
                 ("subscribers", JNull); ("public_description", JNull);
                 ("url", JNull)]].
Proof.
  split; [vm_compute; reflexivity|]. split; vm_compute; reflexivity.
Qed.

(** From a budget of at least 1 on, a listing never yields more than the
    budget and a search never returns more. *)
Lemma paginators_within_positive_budget (E : Env) :
  (forall sub sort time_filter full fuel limit t t' o,
      1 <= limit ->
      _listing E sub sort (Some limit) time_filter full fuel t = (o, t') ->
      count_yields t' <= count_yields t + limit) /\
  (forall self query full fuel limit t t' out,
      1 <= limit ->
      search_subreddits E self query (Some limit) full fuel t = (Done out, t') ->
      Z.of_nat (List.length out) <= limit).
Proof.
  split.
  - intros sub sort time_filter full fuel limit t t' o Hl H. unfold _listing in H.
    exact (listing_loop_budget E _ sort time_filter _ fuel JNull limit t t' o Hl H).
  - intros self query full fuel limit t t' out Hl H. unfold search_subreddits in H.
    pose proof (search_loop_budget E query _ fuel [] JNull limit t t' out Hl H) as Hb.
    simpl in Hb. exact Hb.
Qed.


Lemma fails_fast_extends {A : Type} (E : Env) (m : M A) (t : trace) :
  fails_fast E m -> exists new, snd (m t) = t ++ new.
Proof.
  intros Hm. destruct (m t) as [o t'] eqn:Hrun.
  destruct (Hm t t' o Hrun) as (new & -> & _). exists new. reflexivity.
Qed.

Lemma get_trace (E : Env) (path : string) (params : list (string * json)) (t : trace) :
  snd (_get E path params t) = t ++ [Request path params].
Proof. unfold _get. destruct (ok _); [destruct (body _)|]; reflexivity. Qed.

(** Every page of a listing is requested with [limit] set to
    min(remaining, 100), or to 100 without a budget. *)
Lemma listing_page_size (E : Env) (path sort : string) (time_filter : option string)
  (full : bool) (fuel : nat) (after : json) (remaining : option Z) (t : trace) :
  exists params rest,
    snd (listing_loop E (S fuel) path sort time_filter full after remaining t)
    = t ++ Request path params :: rest /\
    lookup params "limit" = Some (JInt (page_size remaining)).
Proof.
  cbn [listing_loop]. cbv zeta.
  set (params := listing_params sort time_filter after remaining).
  assert (Hlimit : lookup params "limit" = Some (JInt (page_size remaining))).
  { unfold params, listing_params.
    destruct (wants_time_filter time_filter sort), (truthy after); reflexivity. }
  unfold bind at 1. pose proof (get_trace E path params t) as Hget.
  destruct (_get E path params t) as [[data| |] t1]; cbn [snd] in Hget; subst t1.
  - match goal with
    | |- context [snd (?k (t ++ [Request path params]))] =>
        assert (Hk : exists new, snd (k (t ++ [Request path params]))
                                 = (t ++ [Request path params]) ++ new)
    end.
    { apply fails_fast_extends with (E := E).
      pose proof (fails_fast_listing_page E full) as Hpage.
      pose proof (fails_fast_listing E path sort time_filter full fuel) as Hloop. ff. }
    destruct Hk as (new & Hk). exists params, new. split; [|exact Hlimit].
    rewrite Hk, <- app_assoc. reflexivity.
  - exists params, []. split; [reflexivity | exact Hlimit].
  - exists params, []. split; [reflexivity | exact Hlimit].
Qed.

(** A listing stops after a page that comes without a cursor or without
    items, whatever is left of the budget. *)
Lemma listing_stops_without_cursor (E : Env) (path sort : string)
  (time_filter : option string) (full : bool) (fuel : nat) (after : json)
  (remaining remaining' : option Z) (t t1 t2 : trace)
  (data children cursor : json) (items : list json) :
  _get E path (listing_params sort time_filter after remaining) t = (Done data, t1) ->
  (do d <- getitem data "data"; getitem d "children") = Done children ->
  py_iter children = Done items ->
  listing_page E full items remaining t1 = (Done (Continue remaining'), t2) ->
  (do d <- getitem data "data"; dict_get d "after" JNull) = Done cursor ->
  truthy cursor = false \/ truthy children = false ->
  listing_loop E (S fuel) path sort time_filter full after remaining t = (Done tt, t2).
Proof.
  intros Hget Hchildren Hitems Hpage Hcursor Hstop.
  cbn [listing_loop]. cbv zeta. unfold bind at 1. rewrite Hget.
  rewrite bind_lift, Hchildren, bind_lift, Hitems. unfold bind at 1. rewrite Hpage.
  rewrite bind_lift, Hcursor.
  destruct Hstop as [-> | ->]; [reflexivity|].
  rewrite orb_true_r. reflexivity.
Qed.

(* ================================================================== *)
(** ** The expansion budget *)
(* ================================================================== *)

Lemma expansions_app (a b : trace) : expansions (a ++ b) = expansions a + expansions b.
Proof.
  unfold expansions. rewrite requests_app, filter_app, length_app. lia.
Qed.

Lemma spends_here (more_limit : option Z) (st : flat) (t : trace) (o : outcome flat) :
  (forall st', o = Done st' -> more_used st' = more_used st) ->
  spends more_limit st t (o, t).
Proof.
  intros Ho. exists 0. cbn [fst snd]. split; [lia|]. split; [lia|]. split.
  - intros k _. lia.
  - intros st' Hst'. rewrite (Ho st' Hst'). lia.
Qed.

Lemma spends_seq (more_limit : option Z) (st st1 : flat) (t t1 : trace)
  (r : outcome flat * trace) :
  spends more_limit st t (Done st1, t1) ->
  spends more_limit st1 t1 r ->
  spends more_limit st t r.
Proof.
  intros (n1 & He1 & Hn1 & Hk1 & Hd1) (n2 & He2 & Hn2 & Hk2 & Hd2).
  cbn [fst snd] in *. specialize (Hd1 st1 eq_refl).
  exists (n1 + n2). split; [lia|]. split; [lia|]. split.
  - intros k Hk. specialize (Hk1 k Hk). specialize (Hk2 k Hk). lia.
  - intros st' Hst'. specialize (Hd2 st' Hst'). lia.
Qed.

Lemma spends_for_each (more_limit : option Z) (body : json -> flat -> M flat) :
  (forall x st t, spends more_limit st t (body x st t)) ->
  forall l st t, spends more_limit st t (for_each body l st t).
Proof.
  intros Hbody l. induction l as [|x rest IH]; intros st t.
  - apply spends_here. intros st' [= <-]. reflexivity.
  - rewrite for_each_cons. specialize (Hbody x st t).
    destruct (body x st t) as [[st1| |] t1].
    + eapply spends_seq; [exact Hbody | apply IH].
    + exact Hbody.
    + exact Hbody.
Qed.

Lemma fetch_more_expansions (E : Env) (link_id child_ids : json) (t : trace) :
  truthy child_ids = true ->
  exists n,
    expansions (snd (_fetch_more_children E link_id child_ids t)) = expansions t + n /\
    0 <= n <= 1 /\
    (forall things, fst (_fetch_more_children E link_id child_ids t) = Done things -> n = 1).
Proof.
  intros Hids. unfold _fetch_more_children. rewrite Hids. cbn [negb].
  rewrite bind_lift. destruct (py_join "," child_ids) as [children| |].
  - set (params := [("api_type", JStr "json"); _; _; _; _]).
    unfold bind at 1.
    assert (Hget : snd (_get E "/api/morechildren.json" params t)
                   = t ++ [Request "/api/morechildren.json" params]).
    { unfold _get. destruct (ok _); [destruct (body _)|]; reflexivity. }
    destruct (_get E "/api/morechildren.json" params t) as [[data| |] t1];
      cbn [snd] in Hget; subst t1; exists 1; unfold lift;
      cbn [fst snd]; rewrite expansions_app;
      (split; [reflexivity|]); (split; [lia|]); intros; reflexivity.
  - exists 0. cbn [fst snd]. split; [lia|]. split; [lia|]. discriminate.
  - exists 0. cbn [fst snd]. split; [lia|]. split; [lia|]. discriminate.
Qed.

Lemma spends_same_used (more_limit : option Z) (st st0 : flat) (t : trace)
  (r : outcome flat * trace) :
  more_used st0 = more_used st ->
  spends more_limit st0 t r -> spends more_limit st t r.
Proof.
  intros Hu (n & He & Hn & Hk & Hd). exists n. rewrite <- Hu.
  repeat split; assumption.
Qed.

Lemma spends_walk_child (E : Env) (walk_rec : json -> Z -> flat -> M flat)
  (link_id : json) (more_limit : option Z) (depth : Z) :
  (forall c d s t, spends more_limit s t (walk_rec c d s t)) ->
  forall child st t,
    spends more_limit st t (walk_child E walk_rec link_id more_limit depth child st t).
Proof.
  intros Hrec child st t. unfold walk_child.
  rewrite bind_lift.
  destruct (dict_get child "kind" JNull) as [kind| |];
    [|apply spends_here; discriminate ..].
  rewrite bind_lift.
  destruct (dict_get child "data" (JDict [])) as [data| |];
    [|apply spends_here; discriminate ..].
  destruct (str_is kind "t1").
  - rewrite bind_lift.
    destruct (comment_record E data depth) as [record| |];
      [|apply spends_here; discriminate ..].
    cbv zeta. rewrite bind_lift.
    destruct (dict_get data "replies" JNull) as [replies| |];
      [|apply spends_here; discriminate ..].
    set (st1 := {| comments := comments st ++ [record]; more_used := more_used st |}).
    assert (Hst1 : spends more_limit st t (ret st1 t)).
    { apply spends_here. intros st' [= <-]. reflexivity. }
    destruct replies; try exact Hst1.
    destruct (truthy (get_or entries "data" JNull)); [|exact Hst1].
    rewrite bind_lift.
    destruct (do d <- getitem (JDict entries) "data"; getitem d "children")
      as [children| |]; [|apply spends_here; discriminate ..].
    apply (spends_same_used more_limit st st1); [reflexivity | apply Hrec].
  - destruct (str_is kind "more");
      [|apply spends_here; intros st' [= <-]; reflexivity].
    destruct (limit_reached more_limit (more_used st)) eqn:Hlim;
      [apply spends_here; intros st' [= <-]; reflexivity|].
    rewrite bind_lift.
    destruct (dict_get data "children" JNull) as [ids| |];
      [|apply spends_here; discriminate ..].
    cbv zeta.
    destruct (truthy (py_or ids (JList []))) eqn:Hids; cbn [negb];
      [|apply spends_here; intros st' [= <-]; reflexivity].
    set (st1 := {| comments := comments st; more_used := more_used st + 1 |}).
    unfold bind.
    destruct (fetch_more_expansions E link_id (py_or ids (JList [])) t Hids)
      as (n1 & He1 & Hn1 & Hd1).
    destruct (_fetch_more_children E link_id (py_or ids (JList [])) t)
      as [[things| |] t1]; cbn [fst snd] in *.
    + specialize (Hd1 things eq_refl). subst n1.
      assert (Hrest : spends more_limit st1 t1
                        (if truthy things then walk_rec things depth st1 t1
                         else ret st1 t1)).
      { destruct (truthy things); [apply Hrec|].
        apply spends_here. intros st' [= <-]. reflexivity. }
      destruct (truthy things);
        destruct Hrest as (n2 & He2 & Hn2 & Hk2 & Hd2);
        exists (1 + n2); cbn [more_used st1] in *;
        (split; [lia|]); (split; [lia|]); (split;
          [intros k Hk; specialize (Hk2 k Hk); subst more_limit;
           cbn [limit_reached] in Hlim; apply Z.leb_gt in Hlim; lia
          |intros st' Hst'; specialize (Hd2 st' Hst'); lia]).
    + exists n1. cbn [fst snd]. split; [exact He1|]. split; [lia|]. split.
      * intros k Hk. subst more_limit. cbn [limit_reached] in Hlim.
        apply Z.leb_gt in Hlim. lia.
      * discriminate.
    + exists n1. cbn [fst snd]. split; [exact He1|]. split; [lia|]. split.
      * intros k Hk. subst more_limit. cbn [limit_reached] in Hlim.
        apply Z.leb_gt in Hlim. lia.
      * discriminate.
Qed.

Lemma spends_walk (E : Env) (link_id : json) (more_limit : option Z) (fuel : nat) :
  forall children depth st t,
    spends more_limit st t (walk E fuel link_id more_limit children depth st t).
Proof.
  induction fuel as [|fuel IH]; intros children depth st t.
  - apply spends_here. discriminate.
  - cbn [walk]. rewrite bind_lift.
    destruct (py_iter children) as [items| |]; [|apply spends_here; discriminate ..].
    apply spends_for_each. intros x s t0. apply spends_walk_child. exact IH.
Qed.

Lemma with_comments_nil (st : flat) : with_comments st [] = st.
Proof. destruct st. unfold with_comments. cbn. rewrite app_nil_r. reflexivity. Qed.

Lemma with_comments_app (st : flat) (a b : list json) :
  with_comments (with_comments st a) b = with_comments st (a ++ b).
Proof. unfold with_comments. cbn. rewrite app_assoc. reflexivity. Qed.

Lemma for_each_exhausted (body : json -> flat -> M flat)
  (pure_body : json -> outcome (list json)) (k : Z) :
  (forall x st t, k <= more_used st -> body x st t = (append_to st (pure_body x), t)) ->
  forall l st t,
    k <= more_used st ->
    for_each body l st t = (append_to st (for_each_append pure_body l), t).
Proof.
  intros Hbody l. induction l as [|x rest IH]; intros st t Hk.
  - cbn. rewrite with_comments_nil. reflexivity.
  - rewrite for_each_cons, (Hbody x st t Hk). cbn [for_each_append].
    destruct (pure_body x) as [here| |]; cbn [append_to obind]; try reflexivity.
    rewrite IH by exact Hk.
    destruct (for_each_append pure_body rest) as [later| |]; cbn [append_to obind];
      try reflexivity.
    rewrite with_comments_app. reflexivity.
Qed.

Lemma walk_child_exhausted (E : Env) (walk_rec : json -> Z -> flat -> M flat)
  (rec : json -> Z -> outcome (list json)) (link_id : json) (k : Z) (depth : Z) :
  (forall c d s t, k <= more_used s -> walk_rec c d s t = (append_to s (rec c d), t)) ->
  forall child st t,
    k <= more_used st ->
    walk_child E walk_rec link_id (Some k) depth child st t
    = (append_to st (initial_child E rec depth child), t).
Proof.
  intros Hrec child st t Hk. unfold walk_child, initial_child.
  rewrite bind_lift.
  destruct (dict_get child "kind" JNull) as [kind| |]; cbn [obind append_to];
    try reflexivity.
  rewrite bind_lift.
  destruct (dict_get child "data" (JDict [])) as [data| |]; cbn [obind append_to];
    try reflexivity.
  destruct (str_is kind "t1").
  - rewrite bind_lift.
    destruct (comment_record E data depth) as [record| |]; cbn [obind append_to];
      try reflexivity.
    cbv zeta. rewrite bind_lift.
    destruct (dict_get data "replies" JNull) as [replies| |]; cbn [obind append_to];
      try reflexivity.
    destruct replies; try reflexivity.
    destruct (truthy (get_or entries "data" JNull)); [|reflexivity].
    rewrite bind_lift.
    destruct (do d <- getitem (JDict entries) "data"; getitem d "children")
      as [children| |]; cbn [obind append_to]; try reflexivity.
    rewrite Hrec by exact Hk.
    destruct (rec children (depth + 1)) as [below| |]; cbn [obind append_to];
      try reflexivity.
    unfold with_comments. cbn. rewrite <- app_assoc. reflexivity.
  - destruct (str_is kind "more").
    + cbn [limit_reached]. apply Z.leb_le in Hk. rewrite Hk.
      cbn. rewrite with_comments_nil. reflexivity.
    + cbn. rewrite with_comments_nil. reflexivity.
Qed.

Lemma walk_exhausted (E : Env) (link_id : json) (k : Z) (fuel : nat) :
  forall children depth st t,
    k <= more_used st ->
    walk E fuel link_id (Some k) children depth st t
    = (append_to st (initial_comments E fuel children depth), t).
Proof.
  induction fuel as [|fuel IH]; intros children depth st t Hk; [reflexivity|].
  cbn [walk initial_comments]. rewrite bind_lift.
  destruct (py_iter children) as [items| |]; cbn [obind append_to]; try reflexivity.
  apply for_each_exhausted with (k := k); [|exact Hk].
  intros x s t0 Hs. apply walk_child_exhausted; [|exact Hs].
  intros c d s' t' Hs'. apply IH. exact Hs'.
Qed.

Lemma spends_monotone (more_limit : option Z) (st st' : flat) (t t' : trace) :
  spends more_limit st t (Done st', t') -> more_used st <= more_used st'.
Proof.
  intros (n & _ & Hn & _ & Hd). specialize (Hd st' eq_refl). lia.
Qed.

Lemma for_each_unlimited (body0 bodyk : json -> flat -> M flat) (k : Z) :
  (forall x st t, spends None st t (body0 x st t)) ->
  (forall x st t st' t',
      body0 x st t = (Done st', t') -> more_used st' <= k ->
      bodyk x st t = (Done st', t')) ->
  forall l st t st' t',
    for_each body0 l st t = (Done st', t') -> more_used st' <= k ->
    for_each bodyk l st t = (Done st', t').
Proof.
  intros Hsp Hbody l. induction l as [|x rest IH]; intros st t st' t' H Hk.
  - exact H.
  - rewrite for_each_cons in *.
    destruct (body0 x st t) as [[st1| |] t1] eqn:Hx; try discriminate.
    assert (Hmono : more_used st1 <= more_used st').
    { pose proof (spends_for_each None body0 Hsp rest st1 t1) as Hs.
      rewrite H in Hs. exact (spends_monotone _ _ _ _ _ Hs). }
    rewrite (Hbody x st t st1 t1 Hx ltac:(lia)). apply IH; assumption.
Qed.

Lemma walk_child_unlimited (E : Env) (rec0 reck : json -> Z -> flat -> M flat)
  (link_id : json) (k : Z) (depth : Z) :
  (forall c d s t, spends None s t (rec0 c d s t)) ->
  (forall c d s t s' t',
      rec0 c d s t = (Done s', t') -> more_used s' <= k -> reck c d s t = (Done s', t')) ->
  forall child st t st' t',
    walk_child E rec0 link_id None depth child st t = (Done st', t') ->
    more_used st' <= k ->
    walk_child E reck link_id (Some k) depth child st t = (Done st', t').
Proof.
  intros Hsp Hrec child st t st' t' H Hk. unfold walk_child in *.
  rewrite bind_lift in *.
  destruct (dict_get child "kind" JNull) as [kind| |]; try discriminate.
  rewrite bind_lift in *.
  destruct (dict_get child "data" (JDict [])) as [data| |]; try discriminate.
  destruct (str_is kind "t1").
  - rewrite bind_lift in *.
    destruct (comment_record E data depth) as [record| |]; try discriminate.
    cbv zeta in *. rewrite bind_lift in *.
    destruct (dict_get data "replies" JNull) as [replies| |]; try discriminate.
    destruct replies; try exact H.
    destruct (truthy (get_or entries "data" JNull)); [|exact H].
    rewrite bind_lift in *.
    destruct (do d <- getitem (JDict entries) "data"; getitem d "children")
      as [children| |]; try discriminate.
    apply Hrec; assumption.
  - destruct (str_is kind "more"); [|exact H].
    cbn [limit_reached] in *. rewrite bind_lift in H.
    destruct (dict_get data "children" JNull) as [ids| |]; try discriminate.
    cbv zeta in H.
    destruct (truthy (py_or ids (JList []))) eqn:Htr; cbn [negb] in H.
    + unfold bind in H.
      destruct (_fetch_more_children E link_id (py_or ids (JList [])) t)
        as [[things| |] t1] eqn:Hfetch; try discriminate.
      assert (Hlt : more_used st + 1 <= more_used st').
      { destruct (truthy things).
        - pose proof (Hsp things depth
                        {| comments := comments st; more_used := more_used st + 1 |} t1)
            as Hs.
          rewrite H in Hs. apply spends_monotone in Hs. exact Hs.
        - injection H as <- _. cbn. lia. }
      assert (Hlim : (k <=? more_used st) = false) by (apply Z.leb_gt; lia).
      rewrite Hlim, bind_lift. cbv zeta. rewrite Htr. cbn [negb].
      unfold bind. rewrite Hfetch.
      destruct (truthy things); [apply Hrec; assumption | exact H].
    + destruct (k <=? more_used st); [exact H|].
      rewrite bind_lift. cbv zeta. rewrite Htr. exact H.
Qed.

Lemma walk_unlimited (E : Env) (link_id : json) (k : Z) (fuel : nat) :
  forall children depth st t st' t',
    walk E fuel link_id None children depth st t = (Done st', t') ->
    more_used st' <= k ->
    walk E fuel link_id (Some k) children depth st t = (Done st', t').
Proof.
  induction fuel as [|fuel IH]; intros children depth st t st' t' H Hk;
    [discriminate|].
  cbn [walk] in *. rewrite bind_lift in *.
  destruct (py_iter children) as [items| |]; try discriminate.
  revert H Hk. apply for_each_unlimited.
  - intros x s t0. apply spends_walk_child. apply spends_walk.
  - intros x s t0 s' t0'. apply walk_child_unlimited.
    + apply spends_walk.
    + exact IH.
Qed.

Lemma walk_child_expands (E : Env) (walk_rec : json -> Z -> flat -> M flat)
  (link_id : json) (more_limit : option Z) (depth : Z) (child data ids : json)
  (st : flat) (t : trace) :
  dict_get child "kind" JNull = Done (JStr "more") ->
  dict_get child "data" (JDict []) = Done data ->
  dict_get data "children" JNull = Done ids ->
  truthy ids = true ->
  limit_reached more_limit (more_used st) = false ->
  walk_child E walk_rec link_id more_limit depth child st t
  = (more_things <- _fetch_more_children E link_id ids ;;
     if truthy more_things then walk_rec more_things depth (one_more_used st)
     else ret (one_more_used st)) t.
Proof.
  intros Hkind Hdata Hids Htr Hlim. unfold walk_child.
  rewrite bind_lift, Hkind, bind_lift, Hdata.
  cbn [str_is String.eqb Ascii.eqb Bool.eqb]. rewrite Hlim, bind_lift, Hids.
  cbv zeta. unfold py_or. rewrite Htr. cbn [negb]. rewrite Htr. reflexivity.
Qed.

Lemma flatten_run (E : Env) (children link_id : json) (depth : Z)
  (more_limit : option Z) (fuel : nat) (t : trace) :
  _flatten_comments E children link_id depth more_limit fuel t
  = match walk E fuel link_id more_limit children depth
            {| comments := []; more_used := 0 |} t with
    | (Done st, t') => (Done (comments st), t')
    | (Raise e, t') => (Raise e, t')
    | (OutOfFuel, t') => (OutOfFuel, t')
    end.
Proof. reflexivity. Qed.

(** C2.  A walk with budget [k] makes at most [k] placeholder expansions
    (at most what [more_used] leaves of [k], and none for a budget below
    1), and [_flatten_comments], which starts [more_used] at 0, makes at
    most [max 0 k].  Under any limit a completed walk has counted one unit
    per expansion, and expanding one placeholder sends its ids in one
    request and passes on [more_used + 1], whatever the ids are.  With the
    budget used up, and so with budget 0 from the start, nothing is
    requested and the comments are those of the initial tree.  With no limit
    a walk that completes is the walk of any budget that covers the
    expansions it made. *)
Theorem C2_expansion_budget :
  forall (E : Env) (fuel : nat) (link_id children : json) (depth : Z)
         (st : flat) (t : trace),
    (forall k o t',
        walk E fuel link_id (Some k) children depth st t = (o, t') ->
        expansions t' - expansions t <= Z.max 0 (k - more_used st)) /\
    (forall k o t',
        _flatten_comments E children link_id depth (Some k) fuel t = (o, t') ->
        expansions t' - expansions t <= Z.max 0 k) /\
    (forall more_limit st' t',
        walk E fuel link_id more_limit children depth st t = (Done st', t') ->
        more_used st' = more_used st + (expansions t' - expansions t)) /\
    (forall more_limit child data ids,
        dict_get child "kind" JNull = Done (JStr "more") ->
        dict_get child "data" (JDict []) = Done data ->
        dict_get data "children" JNull = Done ids ->
        truthy ids = true ->
        limit_reached more_limit (more_used st) = false ->
        walk_child E (walk E fuel link_id more_limit) link_id more_limit depth child st t
        = (more_things <- _fetch_more_children E link_id ids ;;
           if truthy more_things
           then walk E fuel link_id more_limit more_things depth (one_more_used st)
           else ret (one_more_used st)) t) /\
    (forall k,
        k <= more_used st ->
        walk E fuel link_id (Some k) children depth st t
        = (append_to st (initial_comments E fuel children depth), t)) /\
    _flatten_comments E children link_id depth (Some 0) fuel t
      = (initial_comments E fuel children depth, t) /\
    (forall st' t' k,
        walk E fuel link_id None children depth st t = (Done st', t') ->
        more_used st' <= k ->
        walk E fuel link_id (Some k) children depth st t = (Done st', t')).
Proof.
  intros E fuel link_id children depth st t.
  split; [|split; [|split; [|split; [|split; [|split]]]]].
  - intros k o t' H.
    destruct (spends_walk E link_id (Some k) fuel children depth st t)
      as (n & He & _ & Hk & _).
    rewrite H in He. cbn [snd] in He. specialize (Hk k eq_refl). lia.
  - intros k o t' H. rewrite flatten_run in H.
    destruct (spends_walk E link_id (Some k) fuel children depth
                {| comments := []; more_used := 0 |} t) as (n & He & _ & Hk & _).
    specialize (Hk k eq_refl). cbn [more_used] in Hk.
    destruct (walk E fuel link_id (Some k) children depth
                {| comments := []; more_used := 0 |} t) as [[s| |] t1];
      injection H as _ <-; cbn [snd] in He; lia.
  - intros more_limit st' t' H.
    destruct (spends_walk E link_id more_limit fuel children depth st t)
      as (n & He & _ & _ & Hd).
    rewrite H in He, Hd. cbn [fst snd] in He, Hd. specialize (Hd st' eq_refl). lia.
  - intros more_limit child data ids. apply walk_child_expands.
  - intros k Hk. apply walk_exhausted. exact Hk.
  - rewrite flatten_run, walk_exhausted by (cbn; lia).
    destruct (initial_comments E fuel children depth); reflexivity.
  - intros st' t' k. apply walk_unlimited.
Qed.

Lemma C2_expansion_budget_witness :
  expansions
    (snd (_flatten_comments two_expansions tree_with_more (JStr "t3_abc") 0 (Some 1) 5 []))
  - expansions [] <= Z.max 0 1.
Proof.
  destruct (C2_expansion_budget two_expansions 5 (JStr "t3_abc") tree_with_more 0
              {| comments := []; more_used := 0 |} []) as (_ & Hflat & _).
  apply (Hflat 1 _ _ eq_refl).
Defined.

(* ================================================================== *)
(** ** Depth and nesting *)
(* ================================================================== *)

Lemma emitted_none (E : Env) (depth : Z) (st st' : flat) :
  comments st' = comments st -> emitted E depth st st' [].
Proof.
  intros H. exists []. split; [rewrite app_nil_r; exact H|].
  intros above. constructor.
Qed.

Lemma emitted_seq (E : Env) (depth : Z) (st st1 st2 : flat)
  (f1 f2 : list comment_tree) :
  emitted E depth st st1 f1 -> emitted E depth st1 st2 f2 ->
  emitted E depth st st2 (f1 ++ f2).
Proof.
  intros (r1 & H1 & HF1) (r2 & H2 & HF2). exists (r1 ++ r2). split.
  - rewrite H2, H1. symmetry. apply app_assoc.
  - intros above. rewrite flat_map_app. apply Forall2_app; [apply HF1 | apply HF2].
Qed.

Lemma emitted_comment (E : Env) (depth : Z) (st st' : flat) (data record : json)
  (below : list comment_tree) :
  comment_record E data depth = Done record ->
  emitted E (depth + 1)
    {| comments := comments st ++ [record]; more_used := more_used st |} st' below ->
  emitted E depth st st' [CommentNode data below].
Proof.
  intros Hrec (recs & Hc & HF). cbn [comments] in Hc. exists (record :: recs). split.
  - rewrite Hc, <- app_assoc. reflexivity.
  - intros above. cbn [flat_map ancestry]. rewrite app_nil_r. constructor.
    + cbn [fst snd]. rewrite <- Hrec. f_equal. lia.
    + specialize (HF (data :: above)).
      eapply Forall2_impl; [|exact HF].
      intros rec node Hnode. rewrite <- Hnode. f_equal. cbn [List.length]. lia.
Qed.

Lemma unfold_each_cons (body : json -> Z -> M (list comment_tree * Z)) (x : json)
  (rest : list json) (used : Z) (t : trace) :
  unfold_each body (x :: rest) used t
  = match body x used t with
    | (Done here, t1) =>
        match unfold_each body rest (snd here) t1 with
        | (Done later, t2) => (Done (fst here ++ fst later, snd later), t2)
        | (Raise e, t2) => (Raise e, t2)
        | (OutOfFuel, t2) => (OutOfFuel, t2)
        end
    | (Raise e, t1) => (Raise e, t1)
    | (OutOfFuel, t1) => (OutOfFuel, t1)
    end.
Proof.
  cbn [unfold_each]. unfold bind, ret.
  destruct (body x used t) as [[here| |] t1]; reflexivity.
Qed.

Lemma for_each_unfolds (E : Env) (depth : Z) (wbody : json -> flat -> M flat)
  (ubody : json -> Z -> M (list comment_tree * Z)) :
  (forall x st t st' t',
      wbody x st t = (Done st', t') ->
      exists forest,
        ubody x (more_used st) t = (Done (forest, more_used st'), t') /\
        emitted E depth st st' forest) ->
  forall l st t st' t',
    for_each wbody l st t = (Done st', t') ->
    exists forest,
      unfold_each ubody l (more_used st) t = (Done (forest, more_used st'), t') /\
      emitted E depth st st' forest.
Proof.
  intros Hbody l. induction l as [|x rest IH]; intros st t st' t' H.
  - injection H as <- <-. exists []. split; [reflexivity|].
    apply emitted_none. reflexivity.
  - rewrite for_each_cons in H.
    destruct (wbody x st t) as [[st1| |] t1] eqn:Hx; try discriminate.
    destruct (Hbody x st t st1 t1 Hx) as (f1 & Hu1 & He1).
    destruct (IH st1 t1 st' t' H) as (f2 & Hu2 & He2).
    exists (f1 ++ f2). split.
    + rewrite unfold_each_cons, Hu1. cbn [snd fst]. rewrite Hu2. reflexivity.
    + eapply emitted_seq; eassumption.
Qed.

Lemma walk_child_unfolds (E : Env) (wrec : json -> Z -> flat -> M flat)
  (urec : json -> Z -> M (list comment_tree * Z))
  (link_id : json) (more_limit : option Z) (depth : Z) :
  (forall c d s t s' t',
      wrec c d s t = (Done s', t') ->
      exists forest,
        urec c (more_used s) t = (Done (forest, more_used s'), t') /\
        emitted E d s s' forest) ->
  forall child st t st' t',
    walk_child E wrec link_id more_limit depth child st t = (Done st', t') ->
    exists forest,
      unfold_child E urec link_id more_limit child (more_used st) t
        = (Done (forest, more_used st'), t') /\
      emitted E depth st st' forest.
Proof.
  intros Hrec child st t st' t' H. unfold walk_child in H. unfold unfold_child.
  rewrite bind_lift in H. rewrite bind_lift.
  destruct (dict_get child "kind" JNull) as [kind| |]; try discriminate.
  rewrite bind_lift in H. rewrite bind_lift.
  destruct (dict_get child "data" (JDict [])) as [data| |]; try discriminate.
  destruct (str_is kind "t1").
  - rewrite bind_lift in H.
    destruct (comment_record E data depth) as [record| |] eqn:Hrecord; try discriminate.
    cbv zeta in H. rewrite bind_lift in H. rewrite bind_lift.
    destruct (dict_get data "replies" JNull) as [replies| |]; try discriminate.
    assert (Hleaf : forall s,
               ret {| comments := comments st ++ [record]; more_used := more_used st |} t
               = (Done s, t') ->
               exists forest,
                 ret ([CommentNode data []], more_used st) t
                 = (Done (forest, more_used s), t') /\
                 emitted E depth st s forest).
    { intros s [= <- <-]. exists [CommentNode data []]. split; [reflexivity|].
      apply (emitted_comment E depth st _ data record []); [exact Hrecord|].
      apply emitted_none. reflexivity. }
    destruct replies; try (apply Hleaf; exact H).
    destruct (truthy (get_or entries "data" JNull)); [|apply Hleaf; exact H].
    rewrite bind_lift in H. rewrite bind_lift.
    destruct (do d <- getitem (JDict entries) "data"; getitem d "children")
      as [children| |]; try discriminate.
    destruct (Hrec _ _ _ _ _ _ H) as (below & Hu & He). cbn [more_used] in Hu.
    exists [CommentNode data below]. split.
    + unfold bind. rewrite Hu. reflexivity.
    + apply (emitted_comment E depth st st' data record below Hrecord He).
  - assert (Hskip : forall s,
               ret st t = (Done s, t') ->
               exists forest,
                 ret (@nil comment_tree, more_used st) t
                 = (Done (forest, more_used s), t') /\
                 emitted E depth st s forest).
    { intros s [= <- <-]. exists []. split; [reflexivity|].
      apply emitted_none. reflexivity. }
    destruct (str_is kind "more"); [|apply Hskip; exact H].
    destruct (limit_reached more_limit (more_used st)); [apply Hskip; exact H|].
    rewrite bind_lift in H. rewrite bind_lift.
    destruct (dict_get data "children" JNull) as [ids| |]; try discriminate.
    cbv zeta in H. cbv zeta.
    destruct (negb (truthy (py_or ids (JList [])))); [apply Hskip; exact H|].
    unfold bind in H. unfold bind.
    destruct (_fetch_more_children E link_id (py_or ids (JList [])) t)
      as [[things| |] t1]; try discriminate.
    destruct (truthy things).
    + destruct (Hrec _ _ _ _ _ _ H) as (forest & Hu & He). cbn [more_used] in Hu.
      exists forest. split; [exact Hu|].
      destruct He as (recs & Hc & HF). exists recs. split; [exact Hc | exact HF].
    + injection H as <- <-. exists []. split; [reflexivity|].
      apply emitted_none. reflexivity.
Qed.

Lemma walk_unfolds (E : Env) (link_id : json) (more_limit : option Z) (fuel : nat) :
  forall children depth st t st' t',
    walk E fuel link_id more_limit children depth st t = (Done st', t') ->
    exists forest,
      unfold E fuel link_id more_limit children (more_used st) t
        = (Done (forest, more_used st'), t') /\
      emitted E depth st st' forest.
Proof.
  induction fuel as [|fuel IH]; intros children depth st t st' t' H; [discriminate|].
  cbn [walk] in H. cbn [unfold]. rewrite bind_lift in H. rewrite bind_lift.
  destruct (py_iter children) as [items| |]; try discriminate.
  revert H. apply for_each_unfolds.
  intros x s t0 s' t0'. apply walk_child_unfolds. exact IH.
Qed.

Lemma comment_record_depth (E : Env) (data : json) (depth : Z) (record : json) :
  comment_record E data depth = Done record ->
  field record "depth" = Some (JInt depth).
Proof.
  unfold comment_record. intros H. do 8 obind_inv H. injection H as <-. reflexivity.
Qed.

(** C1.  The records that [_flatten_comments] returns are, in order, the
    records of the comments of the forest it explored, taken in pre-order,
    where a comment lies below the comment whose reply list holds it and
    the things revealed by expanding a placeholder lie level with the
    placeholder.  The depth of each record is the starting depth (0 in
    [Reddit.submission]) plus the number of comment ancestors of its comment
    in that forest.  Expanding a placeholder met at depth [depth] walks the
    revealed things at [depth] again, not at [depth + 1]. *)
Theorem C1_depth_is_nesting :
  forall (E : Env) (fuel : nat) (link_id : json) (more_limit : option Z)
         (children : json) (depth : Z) (t t' : trace) (records : list json),
    _flatten_comments E children link_id depth more_limit fuel t = (Done records, t') ->
    (exists forest used,
        unfold E fuel link_id more_limit children 0 t = (Done (forest, used), t') /\
        Forall2
          (fun record node =>
             comment_record E (fst node) (depth + Z.of_nat (List.length (snd node)))
             = Done record /\
             field record "depth"
             = Some (JInt (depth + Z.of_nat (List.length (snd node)))))
          records (flat_map (ancestry []) forest)) /\
    (forall inner child data ids st t0,
        dict_get child "kind" JNull = Done (JStr "more") ->
        dict_get child "data" (JDict []) = Done data ->
        dict_get data "children" JNull = Done ids ->
        truthy ids = true ->
        limit_reached more_limit (more_used st) = false ->
        walk_child E (walk E fuel link_id more_limit) link_id more_limit inner child st t0
        = (more_things <- _fetch_more_children E link_id ids ;;
           if truthy more_things
           then walk E fuel link_id more_limit more_things inner (one_more_used st)
           else ret (one_more_used st)) t0).
Proof.
  intros E fuel link_id more_limit children depth t t' records H. split.
  - rewrite flatten_run in H.
    destruct (walk E fuel link_id more_limit children depth
                {| comments := []; more_used := 0 |} t) as [[st'| |] t1] eqn:Hwalk;
      try discriminate.
    injection H as <- <-.
    destruct (walk_unfolds E link_id more_limit fuel _ _ _ _ _ _ Hwalk)
      as (forest & Hu & recs & Hc & HF).
    exists forest, (more_used st'). split; [exact Hu|].
    cbn [comments app] in Hc. rewrite Hc.
    eapply Forall2_impl; [|exact (HF [])].
    intros record node Hnode. cbn [List.length] in Hnode.
    replace (depth + Z.of_nat (List.length (snd node)) - Z.of_nat 0)
      with (depth + Z.of_nat (List.length (snd node))) in Hnode by lia.
    split; [exact Hnode | exact (comment_record_depth E _ _ _ Hnode)].
  - intros inner child data ids st t0. apply walk_child_expands.
Qed.

Lemma C1_depth_is_nesting_witness :
  exists forest used,
    unfold one_reply_more 5 (JStr "t3_abc") None nested_thread 0 []
    = (Done (forest, used),
       snd (_flatten_comments one_reply_more nested_thread (JStr "t3_abc") 0 None 5 [])) /\
    Forall2
      (fun record node =>
         comment_record one_reply_more (fst node)
           (0 + Z.of_nat (List.length (snd node)))
         = Done record /\
         field record "depth" = Some (JInt (0 + Z.of_nat (List.length (snd node)))))
      (returned (_flatten_comments one_reply_more nested_thread (JStr "t3_abc") 0 None 5 []))
      (flat_map (ancestry []) forest).
Proof.
  apply (C1_depth_is_nesting one_reply_more 5 (JStr "t3_abc") None nested_thread 0
           [] _ _ eq_refl).
Defined.

(* ================================================================== *)
(** * Further properties of the code *)
(* ================================================================== *)

(* ------------------------------------------------------------------ *)
(** ** Media extraction: the shape of the result and its failures *)
(* ------------------------------------------------------------------ *)

Lemma replace_amp_nonempty (s : string) : s <> "" -> replace_amp s <> "".
Proof.
  destruct s as [|c s]; [congruence|]. intros _ H.
  cbn [replace_amp] in H.
  repeat match type of H with
  | (match ?x with _ => _ end) = _ => destruct x
  | (if ?x then _ else _) = _ => destruct x
  end; discriminate.
Qed.

Lemma truthy_str (s : string) : truthy (JStr s) = true <-> s <> "".
Proof.
  cbn. destruct (String.eqb_spec s ""); cbn; split; congruence.
Qed.

Lemma nonempty_str_truthy (v : json) : nonempty_str v -> truthy v = true.
Proof. intros (s & -> & H). apply truthy_str. exact H. Qed.

Lemma for_each_append_Forall (P : json -> Prop) (body : json -> outcome (list json)) :
  (forall x out, body x = Done out -> Forall P out) ->
  forall l out, for_each_append body l = Done out -> Forall P out.
Proof.
  intros Hb. induction l as [|x l IH]; intros out H; cbn in H.
  - inversion H. constructor.
  - obind_at H as here Hh. obind_at H as later Hl. inversion H; subst.
    apply Forall_app; split; eauto.
Qed.

Lemma unescaped_strs (src : json) (out : list json) :
  unescaped src = Done out -> Forall nonempty_str out.
Proof.
  unfold unescaped. destruct (truthy src) eqn:T.
  - destruct src; cbn; try discriminate. intros H; inversion H; subst.
    constructor; [|constructor]. eexists; split; [reflexivity|].
    apply replace_amp_nonempty. apply truthy_str. exact T.
  - intros H; inversion H. constructor.
Qed.

Lemma direct_link_strs (info : list (string * json)) (out : list json) :
  direct_link info = Done out -> Forall nonempty_str out.
Proof.
  unfold direct_link. intros H. obind_at H as u Hu.
  destruct (is_media_link u) eqn:M; inversion H; subst; [|constructor].
  constructor; [|constructor].
  destruct (py_or (get_or info "url" JNull) (JStr "")); try discriminate.
  inversion Hu; subst. eexists; split; [reflexivity|].
  apply truthy_str. apply media_link_nonempty. exact M.
Qed.

Lemma preview_urls_strs (info : list (string * json)) (out : list json) :
  preview_urls info = Done out -> Forall nonempty_str out.
Proof.
  unfold preview_urls. intros H. obind_at H as images Hi.
  revert H. apply for_each_append_Forall. clear.
  intros img out H. unfold image_urls in H.
  obind_at H as src Hs. obind_at H as res Hr. inversion H; subst.
  apply Forall_app; split.
  - unfold source_url in Hs. obind_at Hs as a Ha. obind_at Hs as b Hb.
    eapply unescaped_strs; eauto.
  - unfold resolution_urls in Hr. obind_at Hr as a Ha. obind_at Hr as b Hb.
    revert Hr. apply for_each_append_Forall. clear.
    intros x out H. unfold resolution_url in H. obind_at H as u Hu.
    eapply unescaped_strs; eauto.
Qed.

Lemma gallery_urls_strs (info : list (string * json)) (out : list json) :
  gallery_urls info = Done out -> Forall nonempty_str out.
Proof.
  unfold gallery_urls.
  destruct (get_or info "gallery_data" JNull); try solve [intros H; inversion H; constructor].
  destruct (get_or info "media_metadata" JNull); try solve [intros H; inversion H; constructor].
  intros H.
  obind_at H as items Hi. revert H. apply for_each_append_Forall.
  intros x o H. unfold gallery_item_url in H.
  obind_at H as a Ha. obind_at H as b Hb. obind_at H as c Hc. obind_at H as d Hd.
  eapply unescaped_strs; eauto.
Qed.

Lemma video_urls_cases (info : list (string * json)) (out : list json) :
  video_urls info = Done out ->
  out = [] \/ exists u, out = [u] /\ truthy u = true.
Proof.
  unfold video_urls.
  destruct (py_or _ _); try solve [intros H; inversion H; auto].
  intros H.
  obind_at H as f Hf. destruct (truthy f) eqn:T; inversion H; eauto.
Qed.

(** The candidates of a successful extraction: non-empty strings, then what
    the video step gives. *)
Lemma extract_media_parts (info : list (string * json)) (r : media_info) :
  _extract_media (JDict info) = Done r ->
  exists strs video,
    Forall nonempty_str strs /\
    video_urls info = Done video /\
    dedup [] (strs ++ video) = Done (media_urls r) /\
    primary_media_url r = hd JNull (media_urls r).
Proof.
  intros H. cbn [_extract_media] in H.
  obind_at H as d Hd. obind_at H as p Hp. obind_at H as g Hg. obind_at H as v Hv.
  obind_at H as out Ho. inversion H; subst; cbn.
  exists (d ++ p ++ g), v. repeat rewrite <- app_assoc.
  split; [|auto].
  apply Forall_app; split; [eapply direct_link_strs; eauto|].
  apply Forall_app; split; [eapply preview_urls_strs; eauto|].
  eapply gallery_urls_strs; eauto.
Qed.

(** X1.  Every entry of [media_urls] is truthy: no empty string, no [None],
    no zero.  Hence [primary_media_url] is [None] exactly when [media_urls]
    is empty, and is its first entry otherwise. *)
Theorem X1_media_urls_truthy (info : json) (r : media_info) :
  _extract_media info = Done r ->
  Forall (fun u => truthy u = true) (media_urls r) /\
  (primary_media_url r = JNull <-> media_urls r = []) /\
  (forall u rest, media_urls r = u :: rest -> primary_media_url r = u).
Proof.
  intros H. destruct info; try discriminate.
  apply extract_media_parts in H. destruct H as (strs & video & Hs & Hv & Hd & Hp).
  assert (F : Forall (fun u => truthy u = true) (media_urls r)).
  { apply Forall_forall. intros u Hu.
    destruct (dedup_unseen _ _ _ Hd u Hu) as [Hin _].
    apply in_app_or in Hin. destruct Hin as [Hin|Hin].
    - apply nonempty_str_truthy. rewrite Forall_forall in Hs. auto.
    - apply video_urls_cases in Hv. destruct Hv as [->|(x & -> & T)].
      + destruct Hin.
      + destruct Hin as [<-|[]]. exact T. }
  split; [exact F|]. rewrite Hp. split.
  - destruct (media_urls r) as [|u rest]; cbn.
    + tauto.
    + inversion F; subst. split; [|discriminate]. intros ->. discriminate.
  - intros u rest ->. reflexivity.
Qed.

Lemma X1_media_urls_truthy_witness :
  Forall (fun u => truthy u = true) [JStr "s1"; JStr "r1"; JStr "s2"] /\
  (JStr "s1" = JNull <-> [JStr "s1"; JStr "r1"; JStr "s2"] = []) /\
  (forall u rest, [JStr "s1"; JStr "r1"; JStr "s2"] = u :: rest -> JStr "s1" = u).
Proof.
  exact (X1_media_urls_truthy (JDict two_images)
           {| media_urls := [JStr "s1"; JStr "r1"; JStr "s2"];
              primary_media_url := JStr "s1" |} eq_refl).
Defined.

(** X2.  An entry of [media_urls] is a non-empty string, unless it is the
    video fallback: the direct link, the preview and the gallery only give
    strings, and only [fallback_url] is appended as it was found. *)
Theorem X2_media_urls_strings (info : list (string * json)) (r : media_info) :
  _extract_media (JDict info) = Done r ->
  forall u, In u (media_urls r) ->
    (exists s, u = JStr s /\ s <> "") \/ (video_urls info = Done [u] /\ truthy u = true).
Proof.
  intros H u Hu.
  apply extract_media_parts in H. destruct H as (strs & video & Hs & Hv & Hd & Hp).
  destruct (dedup_unseen _ _ _ Hd u Hu) as [Hin _].
  apply in_app_or in Hin. destruct Hin as [Hin|Hin].
  - left. rewrite Forall_forall in Hs. apply Hs. exact Hin.
  - right. pose proof Hv as Hv'. apply video_urls_cases in Hv'.
    destruct Hv' as [->|(x & -> & T)].
    + destruct Hin.
    + destruct Hin as [<-|[]]. auto.
Qed.

Lemma X2_media_urls_strings_witness :
  (exists s, JStr "https://v.redd.it/xyz/DASH_720.mp4" = JStr s /\ s <> "") \/
  (video_urls video_post = Done [JStr "https://v.redd.it/xyz/DASH_720.mp4"] /\
   truthy (JStr "https://v.redd.it/xyz/DASH_720.mp4") = true).
Proof.
  apply (X2_media_urls_strings video_post
           {| media_urls := [JStr "https://preview.redd.it/a.jpg?s=1&w=2";
                             JStr "https://v.redd.it/xyz/DASH_720.mp4"];
              primary_media_url := JStr "https://preview.redd.it/a.jpg?s=1&w=2" |}
           eq_refl).
  simpl. right. left. reflexivity.
Defined.

(** X3.  A [url] that is truthy and not a string makes [_extract_media]
    raise [AttributeError]: [url.lower()] is called on it. *)
Theorem X3_url_not_a_string_raises (info : list (string * json)) (url : json) :
  lookup info "url" = Some url ->
  truthy url = true ->
  (forall s, url <> JStr s) ->
  _extract_media (JDict info) = Raise AttributeError.
Proof.
  intros Hl Ht Hs. cbn [_extract_media]. unfold direct_link, get_or, py_or.
  rewrite Hl, Ht. destruct url; try reflexivity. destruct (Hs s). reflexivity.
Qed.

Lemma X3_url_not_a_string_raises_witness :
  _extract_media (JDict numeric_url) = Raise AttributeError.
Proof.
  apply (X3_url_not_a_string_raises numeric_url (JInt 5)).
  - reflexivity.
  - reflexivity.
  - intros s. discriminate.
Defined.

Lemma dedup_unhashable (strs : list json) (u : json) :
  Forall nonempty_str strs -> hashable u = false ->
  forall seen, dedup seen (strs ++ [u]) = Raise TypeError.
Proof.
  intros Hs Hu. induction Hs as [|x l (s & -> & _) _ IH]; intros seen; cbn.
  - rewrite Hu. reflexivity.
  - destruct (existsb _ seen); [apply IH|]. rewrite IH. reflexivity.
Qed.

(** X4.  A video fallback that is a list or a dict makes [_extract_media]
    raise [TypeError], whatever the other steps found: it is appended as a
    candidate, and the deduplication loop cannot put it in the [seen]
    set. *)
Theorem X4_unhashable_fallback_raises (info : list (string * json))
  (direct preview gallery : list json) (u : json) :
  direct_link info = Done direct ->
  preview_urls info = Done preview ->
  gallery_urls info = Done gallery ->
  video_urls info = Done [u] ->
  hashable u = false ->
  _extract_media (JDict info) = Raise TypeError.
Proof.
  intros Hd Hp Hg Hv Hu. cbn [_extract_media]. rewrite Hd, Hp, Hg, Hv. cbn [obind].
  replace (direct ++ preview ++ gallery ++ [u]) with ((direct ++ preview ++ gallery) ++ [u])
    by (repeat rewrite <- app_assoc; reflexivity).
  rewrite dedup_unhashable; [reflexivity| |exact Hu].
  apply Forall_app; split; [eapply direct_link_strs; eauto|].
  apply Forall_app; split; [eapply preview_urls_strs; eauto|].
  eapply gallery_urls_strs; eauto.
Qed.

Lemma X4_unhashable_fallback_raises_witness :
  _extract_media (JDict listed_fallback) = Raise TypeError.
Proof.
  apply (X4_unhashable_fallback_raises listed_fallback [] [] [] (JList [JStr "x"]));
    reflexivity.
Defined.

(** X5.  When [media] is truthy, [secure_media] has no influence on the
    result: two links that differ in [secure_media] alone get the same
    media, or fail alike. *)
Theorem X5_secure_media_ignored (info info' : list (string * json)) :
  (forall k, k <> "secure_media" -> lookup info k = lookup info' k) ->
  truthy (get_or info "media" JNull) = true ->
  _extract_media (JDict info) = _extract_media (JDict info').
Proof.
  intros Hsame Hm.
  assert (Hg : forall k, k <> "secure_media" -> forall d, get_or info k d = get_or info' k d).
  { intros k Hk d. unfold get_or. rewrite (Hsame k Hk). reflexivity. }
  assert (Hd : direct_link info = direct_link info').
  { unfold direct_link. rewrite (Hg "url"); [reflexivity|discriminate]. }
  assert (Hp : preview_urls info = preview_urls info').
  { unfold preview_urls, preview_images. rewrite (Hg "preview"); [reflexivity|discriminate]. }
  assert (Hga : gallery_urls info = gallery_urls info').
  { unfold gallery_urls.
    rewrite (Hg "gallery_data"), (Hg "media_metadata"); [reflexivity|discriminate..]. }
  assert (Hv : video_urls info = video_urls info').
  { unfold video_urls, py_or. rewrite <- (Hg "media"); [|discriminate].
    rewrite Hm. reflexivity. }
  cbn [_extract_media]. rewrite Hd, Hp, Hga, Hv. reflexivity.
Qed.

Lemma X5_secure_media_ignored_witness :
  _extract_media (JDict (embedded (JDict (listed_fallback))))
  = _extract_media (JDict (embedded JNull)).
Proof.
  apply X5_secure_media_ignored.
  - intros k Hk. unfold embedded. cbn [lookup].
    destruct (String.eqb "media" k); [reflexivity|].
    destruct (String.eqb_spec "secure_media" k); [congruence|reflexivity].
  - reflexivity.
Defined.

(** X6.  The deduplication loop changes nothing on a list it has already
    deduplicated. *)
Theorem X6_dedup_idempotent (l : list json) :
  forall seen out, dedup seen l = Done out -> dedup seen out = Done out.
Proof.
  induction l as [|u rest IH]; intros seen out H; cbn in H.
  - injection H as <-. reflexivity.
  - destruct (hashable u) eqn:Hh; [|discriminate].
    destruct (existsb (py_eq u) seen) eqn:Hs; [eauto|].
    obind_at H as d Hd. injection H as <-. cbn. rewrite Hh, Hs.
    rewrite (IH _ _ Hd). reflexivity.
Qed.

Lemma X6_dedup_idempotent_witness :
  dedup [] [JStr "a"; JStr "b"] = Done [JStr "a"; JStr "b"].
Proof.
  exact (X6_dedup_idempotent [JStr "a"; JStr "b"; JStr "a"] [] [JStr "a"; JStr "b"] eq_refl).
Defined.

(* ------------------------------------------------------------------ *)
(** ** What a run sends *)
(* ------------------------------------------------------------------ *)

Lemma emits_only_pure {A : Type} (P : event -> Prop) (m : M A) :
  (forall t, snd (m t) = t) -> emits_only P m.
Proof.
  intros Hm t t' o H. exists []. split; [|constructor].
  rewrite app_nil_r. specialize (Hm t). rewrite H in Hm. exact Hm.
Qed.

Lemma emits_only_ret {A : Type} (P : event -> Prop) (a : A) : emits_only P (ret a).
Proof. apply emits_only_pure. reflexivity. Qed.

Lemma emits_only_lift {A : Type} (P : event -> Prop) (o : outcome A) : emits_only P (lift o).
Proof. apply emits_only_pure. reflexivity. Qed.

Lemma emits_only_out_of_fuel {A : Type} (P : event -> Prop) : emits_only P (@out_of_fuel A).
Proof. apply emits_only_pure. reflexivity. Qed.

Lemma emits_only_yield (P : event -> Prop) (item : json) :
  P (Yield item) -> emits_only P (yield item).
Proof.
  intros HP t t' o [= <- <-]. exists [Yield item]. split; [reflexivity|].
  constructor; [exact HP|constructor].
Qed.

Lemma emits_only_get (E : Env) (P : event -> Prop) (path : string)
  (params : list (string * json)) :
  P (Request path params) -> emits_only P (_get E path params).
Proof.
  intros HP t t' o H. exists [Request path params]. split.
  - rewrite <- (get_trace E path params t). rewrite H. reflexivity.
  - constructor; [exact HP|constructor].
Qed.

Lemma emits_only_bind {A B : Type} (P : event -> Prop) (m : M A) (k : A -> M B) :
  emits_only P m -> (forall a, emits_only P (k a)) -> emits_only P (bind m k).
Proof.
  intros Hm Hk t t' o H. unfold bind in H.
  destruct (m t) as [o1 t1] eqn:Hrun.
  destruct (Hm t t1 o1 Hrun) as (new1 & -> & H1).
  destruct o1 as [a| |].
  - destruct (Hk a _ _ _ H) as (new2 & -> & H2).
    exists (new1 ++ new2). split; [symmetry; apply app_assoc|].
    apply Forall_app; split; assumption.
  - injection H as <- <-. exists new1. split; [reflexivity|assumption].
  - injection H as <- <-. exists new1. split; [reflexivity|assumption].
Qed.

Lemma emits_only_weaken {A : Type} (P Q : event -> Prop) (m : M A) :
  (forall ev, P ev -> Q ev) -> emits_only P m -> emits_only Q m.
Proof.
  intros HPQ Hm t t' o H. destruct (Hm t t' o H) as (new & -> & HF).
  exists new. split; [reflexivity|]. eapply Forall_impl; eauto.
Qed.

Ltac eo_step :=
  match goal with
  | |- emits_only _ (bind _ _) => apply emits_only_bind; [|intros ?]
  | |- emits_only _ (lift _) => apply emits_only_lift
  | |- emits_only _ (ret _) => apply emits_only_ret
  | |- emits_only _ out_of_fuel => apply emits_only_out_of_fuel
  | |- emits_only _ (if ?b then _ else _) => destruct b
  | |- emits_only _ (match ?x with _ => _ end) => destruct x
  end.

Ltac eo := cbv zeta; repeat (eo_step; cbv zeta); auto.

Lemma emits_only_for_each {S : Type} (P : event -> Prop) (body : json -> S -> M S) :
  (forall x st, emits_only P (body x st)) ->
  forall l st, emits_only P (for_each body l st).
Proof.
  intros Hbody l. induction l as [|x rest IH]; intros st; cbn [for_each]; eo.
Qed.


Lemma fetch_more_emits (E : Env) (link_id child_ids : json) :
  emits_only (expansion_event link_id) (_fetch_more_children E link_id child_ids).
Proof.
  unfold _fetch_more_children. eo.
  apply emits_only_get. cbn. split; [reflexivity|]. eexists. reflexivity.
Qed.

Lemma walk_child_emits (E : Env) (walk_rec : json -> Z -> flat -> M flat)
  (link_id : json) (more_limit : option Z) (depth : Z) (child : json) (st : flat) :
  (forall c d s, emits_only (expansion_event link_id) (walk_rec c d s)) ->
  emits_only (expansion_event link_id)
    (walk_child E walk_rec link_id more_limit depth child st).
Proof.
  intros Hrec. unfold walk_child. pose proof (fetch_more_emits E link_id) as Hfetch. eo.
Qed.

Lemma walk_emits (E : Env) (link_id : json) (more_limit : option Z) (fuel : nat) :
  forall children depth st,
    emits_only (expansion_event link_id) (walk E fuel link_id more_limit children depth st).
Proof.
  induction fuel as [|fuel IH]; intros children depth st; cbn [walk]; eo.
  apply emits_only_for_each. intros x s. apply walk_child_emits. exact IH.
Qed.

(** X7.  A comment walk sends nothing but placeholder expansions: every
    request goes to [/api/morechildren.json] with the five fixed parameters,
    the [link_id] of the walk and a string of child ids, and the walk
    yields nothing. *)
Theorem X7_walk_sends_expansions_only (E : Env) (children link_id : json) (depth : Z)
  (more_limit : option Z) (fuel : nat) :
  emits_only (expansion_event link_id)
    (_flatten_comments E children link_id depth more_limit fuel).
Proof. unfold _flatten_comments. pose proof (walk_emits E link_id more_limit fuel). eo. Qed.

Lemma page_size_within (limit remaining : option Z) :
  within limit remaining -> page_size_ok limit (page_size remaining).
Proof.
  unfold within, page_size_ok, page_size.
  destruct limit as [l|], remaining as [r|]; try tauto; intros; lia.
Qed.

Lemma within_refl (limit : option Z) : within limit limit.
Proof. destruct limit; cbn; [lia|exact I]. Qed.

Lemma search_page_within (limit : option Z) (full : bool) (children : list json) :
  forall results remaining results' remaining',
    search_page full children results remaining = Done (Continue (results', remaining')) ->
    within limit remaining -> within limit remaining'.
Proof.
  induction children as [|child rest IH]; intros results remaining results' remaining' H W.
  - cbn in H. injection H as _ <-. exact W.
  - cbn [search_page] in H. obind_at H as info Hi. obind_at H as sub Hs.
    destruct remaining as [r|].
    + cbv zeta in H. destruct (r - 1 <=? 0) eqn:Hr; [discriminate|].
      apply Z.leb_gt in Hr. apply IH in H; [exact H|].
      destruct limit as [l|]; cbn in *; [lia|tauto].
    + apply IH in H; assumption.
Qed.

Lemma search_params_event (query : string) (limit remaining : option Z) (after : json) :
  within limit remaining ->
  search_event query limit
    (Request "/subreddits/search.json"
       (if truthy after
        then dict_set [("q", JStr query); ("limit", JInt (page_size remaining))] "after" after
        else [("q", JStr query); ("limit", JInt (page_size remaining))])).
Proof.
  intros W. apply page_size_within in W.
  destruct (truthy after); cbn; (split; [reflexivity|]); (split; [reflexivity|]);
    (split; [eauto|]); intros k Hk; cbn in *; tauto.
Qed.

Lemma search_loop_emits (E : Env) (query : string) (limit : option Z) (full : bool)
  (fuel : nat) :
  forall results after remaining,
    within limit remaining ->
    emits_only (search_event query limit)
      (search_loop E fuel query full results after remaining).
Proof.
  induction fuel as [|fuel IH]; intros results after remaining W; cbn [search_loop].
  - apply emits_only_out_of_fuel.
  - cbv zeta. apply emits_only_bind.
    { apply emits_only_get. apply search_params_event. exact W. }
    intros data. apply emits_only_bind; [apply emits_only_lift|]. intros children.
    apply emits_only_bind; [apply emits_only_lift|]. intros items.
    destruct (search_page full items results remaining) as [fl| |] eqn:Hp;
      [|intros t t' o H; rewrite bind_lift in H; injection H as <- <-;
        exists []; rewrite app_nil_r; split; [reflexivity|constructor]..].
    intros t t' o H. rewrite bind_lift in H. revert t t' o H.
    change (emits_only (search_event query limit)
      (match fl with
       | Return results0 => ret results0
       | Continue (results0, remaining0) =>
           after0 <- lift (do d <- getitem data "data"; dict_get d "after" JNull) ;;
           if negb (truthy after0) || negb (truthy children) then ret results0
           else search_loop E fuel query full results0 after0 remaining0
       end)).
    destruct fl as [[results' remaining']|r]; [|apply emits_only_ret].
    apply search_page_within with (limit := limit) in Hp; [|exact W].
    eo.
Qed.

(** X8.  Every request of a subreddit search goes to
    [/subreddits/search.json], carries the query as [q] and a page size
    [limit] that is at most 100 and at most the budget (100 without a
    budget, positive with a positive one), and has no parameter besides
    [q], [limit] and [after]; a search yields nothing. *)
Theorem X8_search_requests (E : Env) (self : Reddit) (query : string) (limit : option Z)
  (full : option bool) (fuel : nat) :
  emits_only (search_event query limit) (search_subreddits E self query limit full fuel).
Proof. unfold search_subreddits. apply search_loop_emits. apply within_refl. Qed.

Lemma listing_page_within (E : Env) (limit : option Z) (full : bool) (children : list json) :
  forall remaining remaining' t t',
    listing_page E full children remaining t = (Done (Continue remaining'), t') ->
    within limit remaining -> within limit remaining'.
Proof.
  induction children as [|child rest IH]; intros remaining remaining' t t' H W.
  - cbn in H. injection H as <- _. exact W.
  - rewrite listing_page_cons in H. rewrite bind_lift in H.
    destruct (dict_get child "kind" JNull) as [kind| |]; try discriminate.
    destruct (negb (str_is kind "t3")); [eapply IH; eauto|].
    rewrite bind_lift in H. destruct (getitem child "data") as [info| |]; try discriminate.
    rewrite bind_lift in H. destruct (_extract_media info) as [media| |]; try discriminate.
    rewrite bind_lift in H.
    destruct (submission_fields E info media) as [fields| |]; try discriminate.
    cbv zeta in H. rewrite bind_yield in H.
    destruct remaining as [r|].
    + destruct (r - 1 <=? 0) eqn:Hr; [discriminate|].
      apply Z.leb_gt in Hr. apply IH in H; [exact H|].
      destruct limit as [l|]; cbn in *; [lia|tauto].
    + apply IH in H; assumption.
Qed.

Lemma listing_page_emits (E : Env) (P : event -> Prop) (full : bool) (children : list json) :
  (forall item, P (Yield item)) ->
  forall remaining, emits_only P (listing_page E full children remaining).
Proof.
  intros HP remaining t t' o H.
  destruct (listing_page_yields E full children remaining t t' o H) as (items & -> & _).
  exists (map Yield items). split; [reflexivity|].
  apply Forall_forall. intros ev Hev. apply in_map_iff in Hev.
  destruct Hev as (item & <- & _). apply HP.
Qed.

Lemma listing_params_event (path sort : string) (time_filter : option string)
  (limit remaining : option Z) (after : json) :
  within limit remaining ->
  listing_event path limit (option_map JStr (wants_time_filter time_filter sort))
    (Request path (listing_params sort time_filter after remaining)).
Proof.
  intros W. apply page_size_within in W. unfold listing_params.
  destruct (wants_time_filter time_filter sort) as [tf|]; destruct (truthy after); cbn;
    (split; [reflexivity|]); (split; [reflexivity|]);
    (split; [eauto|]); intros k Hk; cbn in *; tauto.
Qed.

Lemma listing_loop_emits (E : Env) (path sort : string) (time_filter : option string)
  (limit : option Z) (full : bool) (fuel : nat) :
  forall after remaining,
    within limit remaining ->
    emits_only
      (listing_event path limit (option_map JStr (wants_time_filter time_filter sort)))
      (listing_loop E fuel path sort time_filter full after remaining).
Proof.
  induction fuel as [|fuel IH]; intros after remaining W; cbn [listing_loop].
  - apply emits_only_out_of_fuel.
  - cbv zeta. apply emits_only_bind.
    { apply emits_only_get. apply listing_params_event. exact W. }
    intros data. apply emits_only_bind; [apply emits_only_lift|]. intros children.
    apply emits_only_bind; [apply emits_only_lift|]. intros items.
    intros t t' o H. unfold bind at 1 in H.
    destruct (listing_page E full items remaining t) as [o1 t1] eqn:Hp.
    destruct (listing_page_emits E
                (listing_event path limit
                   (option_map JStr (wants_time_filter time_filter sort)))
                full items (fun _ => I) remaining t t1 o1 Hp) as (new1 & -> & F1).
    destruct o1 as [fl| |];
      [|injection H as <- <-; exists new1; split; [reflexivity|exact F1]..].
    assert (Hk : emits_only
      (listing_event path limit (option_map JStr (wants_time_filter time_filter sort)))
      (match fl with
       | Return _ => ret tt
       | Continue remaining0 =>
           after0 <- lift (do d <- getitem data "data"; dict_get d "after" JNull) ;;
           if negb (truthy after0) || negb (truthy children) then ret tt
           else listing_loop E fuel path sort time_filter full after0 remaining0
       end)).
    { destruct fl as [remaining'|r]; [|apply emits_only_ret].
      apply listing_page_within with (limit := limit) in Hp; [|exact W].
      eo. }
    destruct (Hk _ _ _ H) as (new2 & -> & F2).
    exists (new1 ++ new2). split; [symmetry; apply app_assoc|].
    apply Forall_app; split; assumption.
Qed.

(** X9.  Every request of a listing goes to [/r/<name>/<sort>.json] with a
    page size that is at most 100 and at most the budget, and with no
    parameter besides [limit], [after] and [t].  [hot] and [new] never send
    a time filter; [top] sends its time filter as [t], unless it is empty
    or [None]. *)
Theorem X9_listing_requests (E : Env) (self : Subreddit) (limit : option Z)
  (full : option bool) (fuel : nat) :
  (forall sort time_filter,
      emits_only
        (listing_event ("/r/" ++ name self ++ "/" ++ sort ++ ".json") limit
           (option_map JStr (wants_time_filter time_filter sort)))
        (_listing E self sort limit time_filter full fuel)) /\
  emits_only (listing_event ("/r/" ++ name self ++ "/hot.json") limit None)
    (hot E self limit full fuel) /\
  emits_only (listing_event ("/r/" ++ name self ++ "/new.json") limit None)
    (new E self limit full fuel) /\
  (forall time_filter,
      emits_only
        (listing_event ("/r/" ++ name self ++ "/top.json") limit
           (match time_filter with
            | Some "" | None => None
            | Some t => Some (JStr t)
            end))
        (top E self limit time_filter full fuel)).
Proof.
  assert (H : forall sort time_filter,
      emits_only
        (listing_event ("/r/" ++ name self ++ "/" ++ sort ++ ".json") limit
           (option_map JStr (wants_time_filter time_filter sort)))
        (_listing E self sort limit time_filter full fuel)).
  { intros sort time_filter. unfold _listing. apply listing_loop_emits. apply within_refl. }
  split; [exact H|]. split; [exact (H "hot" None)|]. split; [exact (H "new" None)|].
  intros time_filter. specialize (H "top" time_filter).
  destruct time_filter as [[|c s]|]; exact H.
Qed.

(* ------------------------------------------------------------------ *)
(** ** Whether the loops end *)
(* ------------------------------------------------------------------ *)

Lemma py_iter_empty (v : json) : py_iter v = Done [] -> truthy v = false.
Proof.
  destruct v as [| | | |s|items|entries]; cbn; try discriminate.
  - destruct s; [reflexivity|discriminate].
  - intros [= ->]. reflexivity.
  - destruct entries; [reflexivity|discriminate].
Qed.

Lemma search_page_continues (full : bool) (children : list json) :
  forall (results results' : list json) (r : Z) (remaining' : option Z),
    search_page full children results (Some r) = Done (Continue (results', remaining')) ->
    (children = [] /\ remaining' = Some r) \/
    (exists r', remaining' = Some r' /\ 1 <= r' < r).
Proof.
  induction children as [|child rest IH]; intros results results' r remaining' H.
  - cbn in H. injection H as _ <-. left. split; reflexivity.
  - right. cbn [search_page] in H. obind_at H as info Hi. obind_at H as sub Hs.
    cbv zeta in H. destruct (r - 1 <=? 0) eqn:Hr; [discriminate|].
    apply Z.leb_gt in Hr. apply IH in H.
    destruct H as [[_ ->]|(r' & -> & Hr')]; eexists; (split; [reflexivity|lia]).
Qed.

Lemma getitem_returns (v : json) (key : string) : getitem v key <> OutOfFuel.
Proof. destruct v; cbn; try discriminate. destruct (lookup entries key); discriminate. Qed.

Lemma dict_get_returns (v : json) (key : string) (d : json) : dict_get v key d <> OutOfFuel.
Proof. destruct v; cbn; discriminate. Qed.

Lemma py_iter_returns (v : json) : py_iter v <> OutOfFuel.
Proof. destruct v; cbn; discriminate. Qed.

Lemma obind_returns {A B : Type} (o : outcome A) (k : A -> outcome B) :
  o <> OutOfFuel -> (forall a, k a <> OutOfFuel) -> obind o k <> OutOfFuel.
Proof. destruct o; cbn; auto. discriminate. Qed.

Lemma get_returns (E : Env) (path : string) (params : list (string * json)) (t : trace) :
  fst (_get E path params t) <> OutOfFuel.
Proof. unfold _get. destruct (ok _); [destruct (body _)|]; discriminate. Qed.

Ltac returns :=
  repeat first
    [ apply getitem_returns | apply dict_get_returns | apply py_iter_returns
    | discriminate
    | apply obind_returns; [|intros ?] ].

Lemma subreddit_record_returns (full : bool) (info : json) :
  subreddit_record full info <> OutOfFuel.
Proof. unfold subreddit_record. returns. Qed.

Lemma search_page_returns (full : bool) (children : list json) :
  forall results remaining, search_page full children results remaining <> OutOfFuel.
Proof.
  induction children as [|child rest IH]; intros results remaining; cbn [search_page].
  - discriminate.
  - apply obind_returns; [apply getitem_returns|]. intros info.
    apply obind_returns; [apply subreddit_record_returns|]. intros sub.
    cbv zeta. destruct remaining as [r|]; [|apply IH].
    destruct (r - 1 <=? 0); [discriminate|apply IH].
Qed.

Lemma search_loop_terminates (E : Env) (query : string) (full : bool) (fuel : nat) :
  forall (results : list json) (after : json) (r : Z) (t t' : trace) (o : outcome (list json)),
    (Z.to_nat (Z.max 1 r) <= fuel)%nat ->
    search_loop E fuel query full results after (Some r) t = (o, t') ->
    o <> OutOfFuel /\
    (List.length (requests t') <= List.length (requests t) + Z.to_nat (Z.max 1 r))%nat.
Proof.
  induction fuel as [|fuel IH]; intros results after r t t' o Hfuel H; [lia|].
  cbn [search_loop] in H. cbv zeta in H.
  set (params := if truthy after then _ else _) in H.
  unfold bind at 1 in H.
  pose proof (get_returns E "/subreddits/search.json" params t) as Hret.
  destruct (_get E "/subreddits/search.json" params t) as [o1 t1] eqn:Hget.
  assert (Ht1 : t1 = t ++ [Request "/subreddits/search.json" params]).
  { rewrite <- (get_trace E "/subreddits/search.json" params t). rewrite Hget. reflexivity. }
  assert (Hlen : List.length (requests t1) = S (List.length (requests t))).
  { rewrite Ht1, requests_app, length_app. cbn. lia. }
  clear Hget Ht1. cbn [fst] in Hret.
  destruct o1 as [data| |]; [|injection H as <- <-; split; [discriminate|lia]|congruence].
  clear Hret. rewrite bind_lift in H.
  assert (R1 : (do d <- getitem data "data"; getitem d "children") <> OutOfFuel) by returns.
  destruct (do d <- getitem data "data"; getitem d "children") as [children| |];
    [|injection H as <- <-; split; [discriminate|lia]|congruence].
  rewrite bind_lift in H.
  pose proof (py_iter_returns children) as R2.
  destruct (py_iter children) as [items| |] eqn:Hitems;
    [|injection H as <- <-; split; [discriminate|lia]|congruence].
  rewrite bind_lift in H.
  pose proof (search_page_returns full items results (Some r)) as R3.
  destruct (search_page full items results (Some r)) as [fl| |] eqn:Hpage;
    [|injection H as <- <-; split; [discriminate|lia]|congruence].
  destruct fl as [[results' remaining']|out];
    [|injection H as <- <-; split; [discriminate|lia]].
  rewrite bind_lift in H.
  assert (R4 : (do d <- getitem data "data"; dict_get d "after" JNull) <> OutOfFuel)
    by returns.
  destruct (do d <- getitem data "data"; dict_get d "after" JNull) as [cursor| |];
    [|injection H as <- <-; split; [discriminate|lia]|congruence].
  apply search_page_continues in Hpage.
  destruct Hpage as [[-> ->]|(r' & -> & Hr')].
  - apply py_iter_empty in Hitems. rewrite Hitems in H.
    rewrite orb_true_r in H. injection H as <- <-. split; [discriminate|lia].
  - destruct (negb (truthy cursor) || negb (truthy children));
      [injection H as <- <-; split; [discriminate|lia]|].
    destruct (IH results' cursor r' t1 t' o ltac:(lia) H) as [H1 H2].
    split; [exact H1|]. lia.
Qed.

(** X10.  A search with a budget ends: with room for [max 1 limit] pages it
    returns or raises, and it has sent at most [max 1 limit] requests.
    Every page but the last holds a result, and each result takes one from
    the budget. *)
Theorem X10_search_terminates (E : Env) (self : Reddit) (query : string) (limit : Z)
  (full : option bool) (fuel : nat) (t t' : trace) (o : outcome (list json)) :
  (Z.to_nat (Z.max 1 limit) <= fuel)%nat ->
  search_subreddits E self query (Some limit) full fuel t = (o, t') ->
  o <> OutOfFuel /\
  (List.length (requests t') <= List.length (requests t) + Z.to_nat (Z.max 1 limit))%nat.
Proof. unfold search_subreddits. apply search_loop_terminates. Qed.

Lemma X10_search_terminates_witness :
  fst (search_subreddits (script_env [ok_json subreddit_page])
         {| return_full := false |} "rocq" (Some 5) None 5 []) <> OutOfFuel /\
  (List.length
     (requests (snd (search_subreddits (script_env [ok_json subreddit_page])
                       {| return_full := false |} "rocq" (Some 5%Z) None 5 [])))
   <= List.length (requests []) + Z.to_nat (Z.max 1 5)%Z)%nat.
Proof.
  apply (X10_search_terminates (script_env [ok_json subreddit_page])
           {| return_full := false |} "rocq" 5 None 5 []).
  - vm_compute. lia.
  - vm_compute. reflexivity.
Defined.

Lemma py_iter_nonempty (v : json) (x : json) (l : list json) :
  py_iter v = Done (x :: l) -> truthy v = true.
Proof.
  destruct v as [| | | |s|items|entries]; cbn; try discriminate.
  - destruct s; [discriminate|reflexivity].
  - intros [= ->]. reflexivity.
  - destruct entries; [discriminate|reflexivity].
Qed.

Lemma filter_none {A : Type} (f : A -> bool) (l : list A) :
  Forall (fun x => f x = false) l -> filter f l = [].
Proof.
  induction 1 as [|x l Hx _ IH]; cbn; [reflexivity|]. rewrite Hx. exact IH.
Qed.

Lemma listing_loop_unbounded (E : Env) (page children cursor : json) (items : list json)
  (path sort : string) (time_filter : option string) (full : bool) :
  (forall sent p q, server E sent p q = ok_json page) ->
  (do d <- getitem page "data"; getitem d "children") = Done children ->
  py_iter children = Done items ->
  items <> [] ->
  Forall (fun c => not_passed_over c = false) items ->
  (do d <- getitem page "data"; dict_get d "after" JNull) = Done cursor ->
  truthy cursor = true ->
  forall (fuel : nat) (after : json) (remaining : option Z) (t : trace),
    exists t',
      listing_loop E fuel path sort time_filter full after remaining t = (OutOfFuel, t') /\
      yielded t' = yielded t /\
      List.length (requests t') = (List.length (requests t) + fuel)%nat.
Proof.
  intros Hserver Hchildren Hitems Hne Hpass Hcursor Htruthy.
  induction fuel as [|fuel IH]; intros after remaining t.
  - exists t. cbn. repeat split. lia.
  - cbn [listing_loop]. cbv zeta.
    set (params := listing_params sort time_filter after remaining).
    destruct (IH cursor remaining (t ++ [Request path params])) as (t' & Hrun & Hy & Hr).
    exists t'. split; [|split].
    + unfold bind at 1. unfold _get. rewrite Hserver. cbn [ok body ok_json].
      rewrite bind_lift, Hchildren. rewrite bind_lift, Hitems.
      unfold bind at 1. rewrite listing_page_filter, (filter_none _ _ Hpass).
      cbn [listing_page ret]. rewrite bind_lift, Hcursor.
      rewrite Htruthy. destruct items as [|x l]; [congruence|].
      rewrite (py_iter_nonempty _ _ _ Hitems). cbn [negb orb]. exact Hrun.
    + rewrite Hy, yielded_app. cbn. apply app_nil_r.
    + rewrite Hr, requests_app, length_app. cbn. lia.
Qed.

(** X11.  A listing need not end.  Against a server whose every page holds
    a cursor and children that are all passed over (none of kind [t3]),
    [_listing] asks for page after page, whatever the budget: however many
    pages the run is given, it uses them all and yields nothing. *)
Theorem X11_listing_can_run_forever (E : Env) (page children cursor : json)
  (items : list json) :
  (forall sent p q, server E sent p q = ok_json page) ->
  (do d <- getitem page "data"; getitem d "children") = Done children ->
  py_iter children = Done items ->
  items <> [] ->
  Forall (fun c => not_passed_over c = false) items ->
  (do d <- getitem page "data"; dict_get d "after" JNull) = Done cursor ->
  truthy cursor = true ->
  forall (self : Subreddit) (sort : string) (limit : option Z)
         (time_filter : option string) (full : option bool) (fuel : nat) (t : trace),
    exists t',
      _listing E self sort limit time_filter full fuel t = (OutOfFuel, t') /\
      yielded t' = yielded t /\
      List.length (requests t') = (List.length (requests t) + fuel)%nat.
Proof.
  intros Hserver Hchildren Hitems Hne Hpass Hcursor Htruthy self sort limit time_filter
         full fuel t.
  unfold _listing. eapply listing_loop_unbounded; eauto.
Qed.

Lemma X11_listing_can_run_forever_witness :
  exists t',
    _listing (constant_env comment_page) (subreddit {| return_full := false |} "rocq")
      "new" (Some 1) None None 4 [] = (OutOfFuel, t') /\
    yielded t' = yielded [] /\
    List.length (requests t') = (List.length (requests []) + 4)%nat.
Proof.
  apply (X11_listing_can_run_forever (constant_env comment_page) comment_page
           (JList [comment "c1" "t3_abc" JNull]) (JStr "t1_c1")
           [comment "c1" "t3_abc" JNull]).
  - intros sent p q. reflexivity.
  - reflexivity.
  - reflexivity.
  - discriminate.
  - repeat constructor.
  - reflexivity.
  - reflexivity.
Defined.

Lemma height_item (items : list json) (x : json) :
  In x items -> (height x < height (JList items))%nat.
Proof.
  cbn [height]. induction items as [|y l IH]; intros H; [destruct H|].
  cbn [fold_right]. destruct H as [->|H]; [lia|]. specialize (IH H). lia.
Qed.

Lemma height_lookup (entries : list (string * json)) (key : string) (x : json) :
  lookup entries key = Some x -> (height x < height (JDict entries))%nat.
Proof.
  cbn [height]. induction entries as [|[k y] l IH]; intros H; [discriminate|].
  cbn [fold_right]. cbn [lookup] in H. destruct (String.eqb k key).
  - injection H as ->. lia.
  - specialize (IH H). lia.
Qed.

Lemma height_getitem (v x : json) (key : string) :
  getitem v key = Done x -> (height x < height v)%nat.
Proof.
  destruct v; cbn [getitem]; try discriminate.
  destruct (lookup entries key) eqn:H; [|discriminate].
  intros [= ->]. eapply height_lookup; eauto.
Qed.

Lemma height_iter (v : json) (items : list json) (x : json) :
  py_iter v = Done items -> In x items -> (height x < height v)%nat \/ height x = O.
Proof.
  destruct v as [| | | |s|l|entries]; cbn [py_iter]; try discriminate; intros [= <-] H.
  - right. clear -H. induction s; cbn in H; [destruct H|].
    destruct H as [<-|H]; [reflexivity|auto].
  - left. apply height_item. exact H.
  - right. apply in_map_iff in H. destruct H as (kv & <- & _). reflexivity.
Qed.

Lemma for_each_append_returns (body : json -> outcome (list json)) (l : list json) :
  (forall x, In x l -> body x <> OutOfFuel) -> for_each_append body l <> OutOfFuel.
Proof.
  induction l as [|x l IH]; intros H; cbn [for_each_append]; [discriminate|].
  apply obind_returns; [apply H; left; reflexivity|]. intros here.
  apply obind_returns; [apply IH; intros y Hy; apply H; right; exact Hy|].
  intros later. discriminate.
Qed.

Lemma parent_link_returns (v : json) : parent_link v <> OutOfFuel.
Proof.
  unfold parent_link. destruct (truthy v); [|discriminate].
  destruct v; cbn; try discriminate.
  destruct (startswith s "t1_"); [discriminate|].
  destruct (startswith s "t3_"); discriminate.
Qed.

Lemma comment_record_returns (E : Env) (data : json) (depth : Z) :
  comment_record E data depth <> OutOfFuel.
Proof.
  unfold comment_record.
  apply obind_returns; [apply dict_get_returns|]. intros p.
  apply obind_returns; [apply parent_link_returns|]. intros l.
  cbv zeta. returns.
Qed.

Lemma initial_comments_terminates (E : Env) (fuel : nat) :
  forall (children : json) (depth : Z),
    (height children < fuel)%nat -> initial_comments E fuel children depth <> OutOfFuel.
Proof.
  induction fuel as [|fuel IH]; intros children depth Hh; [lia|].
  cbn [initial_comments].
  destruct (py_iter children) as [items| |] eqn:Hitems; cbn [obind]; try discriminate.
  2:{ exfalso. exact (py_iter_returns children Hitems). }
  apply for_each_append_returns. intros child Hin.
  pose proof (height_iter _ _ _ Hitems Hin) as Hchild.
  unfold initial_child.
  apply obind_returns; [apply dict_get_returns|]. intros kind.
  destruct (dict_get child "data" (JDict [])) as [data| |] eqn:Hdata; cbn [obind];
    try discriminate.
  2:{ exfalso. exact (dict_get_returns child "data" (JDict []) Hdata). }
  destruct (str_is kind "t1"); [|discriminate].
  apply obind_returns; [apply comment_record_returns|]. intros record.
  destruct (dict_get data "replies" JNull) as [replies| |] eqn:Hreplies; cbn [obind];
    try discriminate.
  2:{ exfalso. exact (dict_get_returns data "replies" JNull Hreplies). }
  destruct replies as [| | | | | |r]; try discriminate.
  destruct (truthy (get_or r "data" JNull)); [|discriminate].
  destruct (do d <- getitem (JDict r) "data"; getitem d "children") as [below| |] eqn:Hbelow;
    cbn [obind]; try discriminate.
  2:{ exfalso. revert Hbelow. returns. }
  apply obind_returns; [|discriminate].
  apply IH.
  (* the children of the replies sit at least four levels below the listing *)
  obind_at Hbelow as d Hd. apply height_getitem in Hd, Hbelow.
  assert (Hr : (height (JDict r) <= height data)%nat).
  { destruct data; cbn [dict_get] in Hreplies; try discriminate.
    injection Hreplies as Hreplies. unfold get_or in Hreplies.
    destruct (lookup entries "replies") eqn:Hl; [|discriminate]. subst j.
    apply height_lookup in Hl. lia. }
  assert (Hd' : (height data <= height child)%nat \/ child = child).
  { right. reflexivity. }
  assert (Hc : (height (JDict r) < height child)%nat).
  { destruct child; cbn [dict_get] in Hdata; try discriminate.
    injection Hdata as Hdata. unfold get_or in Hdata.
    destruct (lookup entries "data") eqn:Hl.
    - subst j. apply height_lookup in Hl. lia.
    - subst data. cbn [dict_get get_or lookup] in Hreplies. discriminate. }
  destruct Hchild as [Hchild|Hchild]; lia.
Qed.

(** X12.  Without expansions the walk ends: with a budget [k <= 0] and
    room for calls nested deeper than the listing is, [_flatten_comments]
    returns or raises, and it sends nothing. *)
Theorem X12_walk_without_expansions_terminates (E : Env) (children link_id : json) (depth k : Z) (fuel : nat) (t : trace) :
  (height children < fuel)%nat ->
  k <= 0 ->
  exists o,
    _flatten_comments E children link_id depth (Some k) fuel t = (o, t) /\
    o <> OutOfFuel.
Proof.
  intros Hh Hk. exists (initial_comments E fuel children depth). split.
  - rewrite flatten_run, walk_exhausted by (cbn; lia).
    destruct (initial_comments E fuel children depth); reflexivity.
  - apply initial_comments_terminates. exact Hh.
Qed.

Lemma X12_walk_without_expansions_terminates_witness :
  exists o,
    _flatten_comments two_expansions nested_thread (JStr "t3_abc") 0 (Some 0) 20 [] = (o, [])
    /\ o <> OutOfFuel.
Proof.
  apply X12_walk_without_expansions_terminates.
  - vm_compute. lia.
  - lia.
Defined.

Lemma listing_first_request (E : Env) (path sort : string) (time_filter : option string)
  (full : bool) (fuel : nat) (after : json) (remaining : option Z) (t : trace) :
  exists rest,
    snd (listing_loop E (S fuel) path sort time_filter full after remaining t)
    = t ++ Request path (listing_params sort time_filter after remaining) :: rest.
Proof.
  cbn [listing_loop]. cbv zeta.
  set (params := listing_params sort time_filter after remaining).
  unfold bind at 1. pose proof (get_trace E path params t) as Hget.
  destruct (_get E path params t) as [[data| |] t1]; cbn [snd] in Hget; subst t1.
  - match goal with
    | |- context [snd (?k (t ++ [Request path params]))] =>
        assert (Hk : exists new, snd (k (t ++ [Request path params]))
                                 = (t ++ [Request path params]) ++ new)
    end.
    { apply fails_fast_extends with (E := E).
      pose proof (fails_fast_listing_page E full) as Hpage.
      pose proof (fails_fast_listing E path sort time_filter full fuel) as Hloop. ff. }
    destruct Hk as (new & Hk). exists new.
    rewrite Hk, <- app_assoc. reflexivity.
  - exists []. reflexivity.
  - exists []. reflexivity.
Qed.

Lemma listing_params_after (sort : string) (time_filter : option string) (after : json)
  (remaining : option Z) :
  lookup (listing_params sort time_filter after remaining) "after"
  = if truthy after then Some after else None.
Proof.
  unfold listing_params.
  destruct (wants_time_filter time_filter sort), (truthy after); reflexivity.
Qed.

(** X13.  After a page that came with a cursor and with children, and
    that left the budget open, a listing asks for the next page: the
    request follows the yields of the page, carries the cursor as [after]
    and the page size of the budget that is left. *)
Theorem X13_listing_follows_cursor (E : Env) (path sort : string)
  (time_filter : option string) (full : bool) (fuel : nat) (after : json)
  (remaining remaining' : option Z) (t t1 t2 : trace)
  (data children cursor : json) (items : list json) :
  _get E path (listing_params sort time_filter after remaining) t = (Done data, t1) ->
  (do d <- getitem data "data"; getitem d "children") = Done children ->
  py_iter children = Done items ->
  listing_page E full items remaining t1 = (Done (Continue remaining'), t2) ->
  (do d <- getitem data "data"; dict_get d "after" JNull) = Done cursor ->
  truthy cursor = true ->
  truthy children = true ->
  listing_loop E (S (S fuel)) path sort time_filter full after remaining t
  = listing_loop E (S fuel) path sort time_filter full cursor remaining' t2 /\
  exists params rest,
    snd (listing_loop E (S (S fuel)) path sort time_filter full after remaining t)
    = t2 ++ Request path params :: rest /\
    lookup params "after" = Some cursor /\
    lookup params "limit" = Some (JInt (page_size remaining')).
Proof.
  intros Hget Hchildren Hitems Hpage Hcursor Hc Hch.
  assert (Hstep : listing_loop E (S (S fuel)) path sort time_filter full after remaining t
                  = listing_loop E (S fuel) path sort time_filter full cursor remaining' t2).
  { remember (S fuel) as fuel1. cbn [listing_loop]. cbv zeta.
    unfold bind at 1. rewrite Hget. rewrite bind_lift, Hchildren. rewrite bind_lift, Hitems.
    unfold bind at 1. rewrite Hpage. rewrite bind_lift, Hcursor. rewrite Hc, Hch.
    reflexivity. }
  split; [exact Hstep|]. rewrite Hstep.
  destruct (listing_first_request E path sort time_filter full fuel cursor remaining' t2)
    as (rest & Hrest).
  exists (listing_params sort time_filter cursor remaining'), rest.
  split; [exact Hrest|]. split.
  - rewrite listing_params_after, Hc. reflexivity.
  - unfold listing_params.
    destruct (wants_time_filter time_filter sort), (truthy cursor); reflexivity.
Qed.

Lemma X13_listing_follows_cursor_witness :
  listing_loop (script_env [ok_json links_with_cursor; ok_json two_links]) 3
    "/r/rocq/hot.json" "hot" None false JNull (Some 5) []
  = listing_loop (script_env [ok_json links_with_cursor; ok_json two_links]) 2
      "/r/rocq/hot.json" "hot" None false (JStr "t3_def") (Some 3)
      (snd (listing_page (script_env []) false [link "abc"; link "def"] (Some 5)
              [Request "/r/rocq/hot.json" [("limit", JInt 5)]])) /\
  exists params rest,
    snd (listing_loop (script_env [ok_json links_with_cursor; ok_json two_links]) 3
           "/r/rocq/hot.json" "hot" None false JNull (Some 5) [])
    = snd (listing_page (script_env []) false [link "abc"; link "def"] (Some 5)
             [Request "/r/rocq/hot.json" [("limit", JInt 5)]])
      ++ Request "/r/rocq/hot.json" params :: rest /\
    lookup params "after" = Some (JStr "t3_def") /\
    lookup params "limit" = Some (JInt (page_size (Some 3))).
Proof.
  apply (X13_listing_follows_cursor
           (script_env [ok_json links_with_cursor; ok_json two_links])
           "/r/rocq/hot.json" "hot" None false 1 JNull (Some 5) (Some 3) []
           [Request "/r/rocq/hot.json" [("limit", JInt 5)]]
           (snd (listing_page (script_env []) false [link "abc"; link "def"] (Some 5)
                   [Request "/r/rocq/hot.json" [("limit", JInt 5)]]))
           links_with_cursor
           (JList [link "abc"; link "def"]) (JStr "t3_def") [link "abc"; link "def"]);
    reflexivity.
Defined.

(* ------------------------------------------------------------------ *)
(** ** What a page contributes *)
(* ------------------------------------------------------------------ *)

Lemma search_page_step (full : bool) (child record : json) (rest results : list json)
  (remaining : option Z) :
  subreddit_of full child = Done record ->
  search_page full (child :: rest) results remaining
  = match remaining with
    | Some r =>
        if r - 1 <=? 0 then Done (Return (results ++ [record]))
        else search_page full rest (results ++ [record]) (Some (r - 1))
    | None => search_page full rest (results ++ [record]) None
    end.
Proof.
  unfold subreddit_of. intros H. obind_at H as info Hi.
  cbn [search_page]. rewrite Hi. cbn [obind]. rewrite H. reflexivity.
Qed.

Lemma search_page_cut (full : bool) (pre post recs : list json) :
  Forall2 (fun child record => subreddit_of full child = Done record) pre recs ->
  forall (results : list json) (r : Z),
    List.length pre = Z.to_nat (Z.max 1 r) ->
    search_page full (pre ++ post) results (Some r) = Done (Return (results ++ recs)).
Proof.
  induction 1 as [|child record pre recs Hc HF IH]; intros results r Hlen.
  - cbn in Hlen. lia.
  - cbn [app]. rewrite (search_page_step _ _ _ _ _ _ Hc).
    cbn [List.length] in Hlen.
    destruct (r - 1 <=? 0) eqn:Hr.
    + apply Z.leb_le in Hr. destruct pre; [|cbn in Hlen; lia].
      inversion HF; subst. reflexivity.
    + apply Z.leb_gt in Hr. rewrite IH by lia. rewrite <- app_assoc. reflexivity.
Qed.

Lemma search_page_whole (full : bool) (children recs : list json) :
  Forall2 (fun child record => subreddit_of full child = Done record) children recs ->
  forall (results : list json) (remaining : option Z),
    match remaining with
    | Some r => Z.of_nat (List.length children) < Z.max 1 r
    | None => True
    end ->
    search_page full children results remaining
    = Done (Continue (results ++ recs,
                      option_map (fun r => r - Z.of_nat (List.length children)) remaining)).
Proof.
  induction 1 as [|child record children recs Hc HF IH]; intros results remaining Hlen.
  - cbn. rewrite app_nil_r. destruct remaining; cbn; [|reflexivity].
    repeat f_equal. lia.
  - rewrite (search_page_step _ _ _ _ _ _ Hc). cbn [List.length] in *.
    destruct remaining as [r|].
    + destruct (r - 1 <=? 0) eqn:Hr; [apply Z.leb_le in Hr; lia|].
      apply Z.leb_gt in Hr. rewrite IH by (cbv beta iota; lia). rewrite <- app_assoc.
      cbn [option_map app].
      replace (r - 1 - Z.of_nat (List.length children))
        with (r - Z.of_nat (S (List.length children))) by lia.
      reflexivity.
    + rewrite IH by exact I. rewrite <- app_assoc. reflexivity.
Qed.

Lemma get_ok (E : Env) (path : string) (params : list (string * json)) (t : trace)
  (page : json) :
  server E (requests t) path params = ok_json page ->
  _get E path params t = (Done page, t ++ [Request path params]).
Proof. intros H. unfold _get. rewrite H. reflexivity. Qed.

(** X14.  A search whose first page holds at least [max 1 limit] items
    returns the records of the first [max 1 limit] of them, in the order of
    the page, after that one request: the budget cuts the page. *)
Theorem X14_search_cut_at_budget (E : Env) (self : Reddit) (query : string) (limit : Z) (full : option bool)
  (fuel : nat) (t : trace) (page children : json) (pre post recs : list json) :
  server E (requests t) "/subreddits/search.json" (search_params query JNull (Some limit))
    = ok_json page ->
  (do d <- getitem page "data"; getitem d "children") = Done children ->
  py_iter children = Done (pre ++ post) ->
  Forall2 (fun child record => subreddit_of (resolve_full self full) child = Done record)
    pre recs ->
  List.length pre = Z.to_nat (Z.max 1 limit) ->
  search_subreddits E self query (Some limit) full (S fuel) t
  = (Done recs,
     t ++ [Request "/subreddits/search.json" (search_params query JNull (Some limit))]).
Proof.
  intros Hget Hchildren Hitems Hrecs Hlen. apply get_ok in Hget.
  unfold search_subreddits. cbn [search_loop]. cbv zeta.
  change (if truthy JNull then _ else _) with (search_params query JNull (Some limit)).
  unfold bind at 1. rewrite Hget. rewrite bind_lift, Hchildren. rewrite bind_lift, Hitems.
  rewrite bind_lift. rewrite (search_page_cut _ _ _ _ Hrecs) by exact Hlen. reflexivity.
Qed.

Lemma X14_search_cut_at_budget_witness :
  search_subreddits (script_env [ok_json subreddit_page]) {| return_full := false |}
    "rocq" (Some 1) None 1 []
  = (Done [rocq_record],
     [] ++ [Request "/subreddits/search.json" (search_params "rocq" JNull (Some 1))]).
Proof.
  apply (X14_search_cut_at_budget (script_env [ok_json subreddit_page])
           {| return_full := false |} "rocq" 1 None 0 [] subreddit_page
           (JList [rocq_thing; coq_thing]) [rocq_thing] [coq_thing] [rocq_record]).
  - reflexivity.
  - reflexivity.
  - reflexivity.
  - repeat constructor.
  - reflexivity.
Defined.

(** X15.  A page with fewer items than [max 1 remaining], or any page of a
    search without budget, is taken whole: its records are appended to the
    results in the order of the page and the budget goes down by their
    number.  The search then ends with these results if the page has no
    cursor or no children, and goes on from the cursor otherwise. *)
Theorem X15_search_takes_whole_page (E : Env) (query : string) (full : bool) (fuel : nat)
  (results : list json) (after : json) (remaining : option Z) (t : trace)
  (page children cursor : json) (items recs : list json) :
  server E (requests t) "/subreddits/search.json" (search_params query after remaining)
    = ok_json page ->
  (do d <- getitem page "data"; getitem d "children") = Done children ->
  py_iter children = Done items ->
  Forall2 (fun child record => subreddit_of full child = Done record) items recs ->
  match remaining with
  | Some r => Z.of_nat (List.length items) < Z.max 1 r
  | None => True
  end ->
  (do d <- getitem page "data"; dict_get d "after" JNull) = Done cursor ->
  search_loop E (S fuel) query full results after remaining t
  = if truthy cursor && truthy children
    then search_loop E fuel query full (results ++ recs) cursor
           (option_map (fun r => r - Z.of_nat (List.length items)) remaining)
           (t ++ [Request "/subreddits/search.json" (search_params query after remaining)])
    else (Done (results ++ recs),
          t ++ [Request "/subreddits/search.json" (search_params query after remaining)]).
Proof.
  intros Hget Hchildren Hitems Hrecs Hlen Hcursor. apply get_ok in Hget.
  cbn [search_loop]. cbv zeta.
  change (if truthy after then _ else _) with (search_params query after remaining).
  unfold bind at 1. rewrite Hget. rewrite bind_lift, Hchildren. rewrite bind_lift, Hitems.
  rewrite bind_lift. rewrite (search_page_whole _ _ _ Hrecs) by exact Hlen.
  rewrite bind_lift, Hcursor.
  destruct (truthy cursor), (truthy children); reflexivity.
Qed.

Lemma X15_search_takes_whole_page_witness :
  search_loop (script_env [ok_json subreddit_page]) 1 "rocq" false [] JNull (Some 5) []
  = if truthy JNull && truthy (JList [rocq_thing; coq_thing])
    then search_loop (script_env [ok_json subreddit_page]) 0 "rocq" false
           ([] ++ [rocq_record; coq_record]) JNull
           (option_map (fun r => r - Z.of_nat (List.length [rocq_thing; coq_thing]))
              (Some 5))
           ([] ++ [Request "/subreddits/search.json" (search_params "rocq" JNull (Some 5))])
    else (Done ([] ++ [rocq_record; coq_record]),
          [] ++ [Request "/subreddits/search.json" (search_params "rocq" JNull (Some 5))]).
Proof.
  apply (X15_search_takes_whole_page (script_env [ok_json subreddit_page]) "rocq" false 0
           [] JNull (Some 5) [] subreddit_page (JList [rocq_thing; coq_thing]) JNull
           [rocq_thing; coq_thing] [rocq_record; coq_record]).
  - reflexivity.
  - reflexivity.
  - reflexivity.
  - repeat constructor.
  - reflexivity.
  - reflexivity.
Defined.

Lemma listing_page_step (E : Env) (full : bool) (child item : json) (rest : list json)
  (remaining : option Z) (t : trace) :
  record_of_link E full child item ->
  listing_page E full (child :: rest) remaining t
  = match remaining with
    | Some r =>
        if r - 1 <=? 0 then (Done (Return tt), t ++ [Yield item])
        else listing_page E full rest (Some (r - 1)) (t ++ [Yield item])
    | None => listing_page E full rest None (t ++ [Yield item])
    end.
Proof.
  intros (Hkind & info & media & fields & Hinfo & Hmedia & Hfields & ->).
  rewrite listing_page_cons. rewrite bind_lift, Hkind.
  change (str_is (JStr "t3") "t3") with true. cbn [negb].
  rewrite bind_lift, Hinfo. rewrite bind_lift, Hmedia. rewrite bind_lift, Hfields.
  cbv zeta. rewrite bind_yield.
  destruct remaining as [r|]; [|reflexivity].
  destruct (r - 1 <=? 0); reflexivity.
Qed.

Lemma listing_page_cut (E : Env) (full : bool) (pre post recs : list json) :
  Forall2 (record_of_link E full) pre recs ->
  forall (r : Z) (t : trace),
    List.length pre = Z.to_nat (Z.max 1 r) ->
    listing_page E full (pre ++ post) (Some r) t = (Done (Return tt), t ++ map Yield recs).
Proof.
  induction 1 as [|child record pre recs Hc HF IH]; intros r t Hlen.
  - cbn in Hlen. lia.
  - cbn [app]. rewrite (listing_page_step _ _ _ _ _ _ _ Hc).
    cbn [List.length] in Hlen.
    destruct (r - 1 <=? 0) eqn:Hr.
    + apply Z.leb_le in Hr. destruct pre; [|cbn in Hlen; lia].
      inversion HF; subst. reflexivity.
    + apply Z.leb_gt in Hr. rewrite IH by lia. rewrite <- app_assoc. reflexivity.
Qed.

(** X16.  A listing whose first page holds at least [max 1 limit] children
    that are not passed over yields the records of the first [max 1 limit]
    of them, in the order of the page, after that one request, and ends:
    children of another kind neither count nor show. *)
Theorem X16_listing_cut_at_budget (E : Env) (self : Subreddit) (sort : string) (limit : Z)
  (time_filter : option string) (full : option bool) (fuel : nat) (t : trace)
  (page children : json) (items pre post recs : list json) :
  server E (requests t) ("/r/" ++ name self ++ "/" ++ sort ++ ".json")
    (listing_params sort time_filter JNull (Some limit)) = ok_json page ->
  (do d <- getitem page "data"; getitem d "children") = Done children ->
  py_iter children = Done items ->
  filter not_passed_over items = pre ++ post ->
  Forall2 (record_of_link E (resolve_full (reddit self) full)) pre recs ->
  List.length pre = Z.to_nat (Z.max 1 limit) ->
  _listing E self sort (Some limit) time_filter full (S fuel) t
  = (Done tt,
     t ++ Request ("/r/" ++ name self ++ "/" ++ sort ++ ".json")
            (listing_params sort time_filter JNull (Some limit))
       :: map Yield recs).
Proof.
  intros Hget Hchildren Hitems Hfilter Hrecs Hlen. apply get_ok in Hget.
  unfold _listing. cbn [listing_loop]. cbv zeta.
  unfold bind at 1. rewrite Hget. rewrite bind_lift, Hchildren. rewrite bind_lift, Hitems.
  unfold bind at 1. rewrite listing_page_filter, Hfilter.
  rewrite (listing_page_cut _ _ _ _ _ Hrecs) by exact Hlen.
  rewrite <- app_assoc. reflexivity.
Qed.

Lemma X16_listing_cut_at_budget_witness :
  _listing (script_env [ok_json (listing_of [comment "c1" "t3_abc" JNull;
                                                link "abc"; link "def"])])
    (subreddit {| return_full := false |} "rocq") "top" (Some 1) (Some "week") None 1 []
  = (Done tt,
     [] ++ Request ("/r/" ++ "rocq" ++ "/" ++ "top" ++ ".json")
             (listing_params "top" (Some "week") JNull (Some 1))
        :: map Yield [link_record "abc"]).
Proof.
  apply (X16_listing_cut_at_budget
           (script_env [ok_json (listing_of [comment "c1" "t3_abc" JNull;
                                             link "abc"; link "def"])])
           (subreddit {| return_full := false |} "rocq") "top" 1 (Some "week") None 0 []
           (listing_of [comment "c1" "t3_abc" JNull; link "abc"; link "def"])
           (JList [comment "c1" "t3_abc" JNull; link "abc"; link "def"])
           [comment "c1" "t3_abc" JNull; link "abc"; link "def"]
           [link "abc"] [link "def"] [link_record "abc"]).
  - reflexivity.
  - reflexivity.
  - reflexivity.
  - reflexivity.
  - repeat econstructor.
  - reflexivity.
Defined.

(* ------------------------------------------------------------------ *)
(** ** Expansions and the children a walk passes over *)
(* ------------------------------------------------------------------ *)

Lemma join_strs_concat (sep : string) (ids : list string) :
  join_strs sep (map JStr ids) = Done (String.concat sep ids).
Proof.
  induction ids as [|x [|y l] IH]; [reflexivity..|].
  change (join_strs sep (map JStr (x :: y :: l)))
    with (do r <- join_strs sep (map JStr (y :: l)); Done (x ++ sep ++ r)%string).
  rewrite IH. reflexivity.
Qed.

Lemma join_strs_not_str (sep : string) (l : list json) (x : json) :
  In x l -> (forall s, x <> JStr s) -> join_strs sep l = Raise TypeError.
Proof.
  induction l as [|y l IH]; intros Hin Hx; [destruct Hin|].
  destruct y as [| | | |s| |]; try reflexivity.
  destruct Hin as [<-|Hin]; [destruct (Hx s); reflexivity|].
  specialize (IH Hin Hx). destruct l as [|z l]; [destruct Hin|].
  change (join_strs sep (JStr s :: z :: l))
    with (do r <- join_strs sep (z :: l); Done (s ++ sep ++ r)%string).
  rewrite IH. reflexivity.
Qed.

(** X17.  For a non-empty list of child ids, [_fetch_more_children] sends
    one request, with the ids joined by commas as [children], and returns
    the [things] under [json] and [data] of the answer, or an empty list
    where the answer has no [json]. *)
Theorem X17_fetch_joins_ids (E : Env) (link_id : json) (ids : list string) (t : trace)
  (page : list (string * json)) :
  ids <> [] ->
  server E (requests t) "/api/morechildren.json"
    (expansion_params link_id (String.concat "," ids)) = ok_json (JDict page) ->
  _fetch_more_children E link_id (JList (map JStr ids)) t
  = (match lookup page "json" with
     | Some j => do d <- dict_get j "data" (JDict []); dict_get d "things" (JList [])
     | None => Done (JList [])
     end,
     t ++ [Request "/api/morechildren.json"
             (expansion_params link_id (String.concat "," ids))]).
Proof.
  intros Hne Hserver. apply get_ok in Hserver.
  unfold _fetch_more_children.
  destruct ids as [|x l]; [congruence|].
  change (truthy (JList (map JStr (x :: l)))) with true. cbn [negb].
  rewrite bind_lift. unfold py_join. cbn [py_iter obind].
  rewrite (join_strs_concat "," (x :: l)). cbv zeta.
  change [("api_type", JStr "json"); ("link_id", link_id);
          ("children", JStr (String.concat "," (x :: l)));
          ("limit_children", JBool false); ("sort", JStr "confidence")]
    with (expansion_params link_id (String.concat "," (x :: l))).
  unfold bind. rewrite Hserver. unfold lift. cbn [dict_get obind]. unfold get_or.
  destruct (lookup page "json"); reflexivity.
Qed.

Lemma X17_fetch_joins_ids_witness :
  _fetch_more_children
    (script_env [ok_json (more_children_page [comment "c2" "t3_abc" JNull])])
    (JStr "t3_abc") (JList (map JStr ["c2"; "c3"])) []
  = (Done (JList [comment "c2" "t3_abc" JNull]),
     [Request "/api/morechildren.json" (expansion_params (JStr "t3_abc") "c2,c3")]).
Proof.
  apply (X17_fetch_joins_ids
           (script_env [ok_json (more_children_page [comment "c2" "t3_abc" JNull])])
           (JStr "t3_abc") ["c2"; "c3"] []
           [("json", JDict [("data", JDict [("things",
                JList [comment "c2" "t3_abc" JNull])])])]).
  - discriminate.
  - reflexivity.
Defined.

(** X18.  A child id that is not a string makes [_fetch_more_children]
    raise [TypeError] before it sends anything. *)
Theorem X18_fetch_rejects_non_string_id (E : Env) (link_id : json) (ids : list json) (x : json) (t : trace) :
  In x ids ->
  (forall s, x <> JStr s) ->
  _fetch_more_children E link_id (JList ids) t = (Raise TypeError, t).
Proof.
  intros Hin Hx. unfold _fetch_more_children.
  destruct ids as [|y l]; [destruct Hin|]. cbn [truthy negb].
  rewrite bind_lift. unfold py_join. cbn [py_iter obind].
  rewrite (join_strs_not_str "," (y :: l) x Hin Hx). reflexivity.
Qed.

Lemma X18_fetch_rejects_non_string_id_witness :
  _fetch_more_children (script_env []) (JStr "t3_abc") (JList [JStr "c2"; JInt 3]) []
  = (Raise TypeError, []).
Proof.
  apply (X18_fetch_rejects_non_string_id (script_env []) (JStr "t3_abc")
           [JStr "c2"; JInt 3] (JInt 3) []).
  - simpl. right. left. reflexivity.
  - intros s. discriminate.
Defined.

Lemma walk_child_other_kind (E : Env) (walk_rec : json -> Z -> flat -> M flat)
  (link_id : json) (more_limit : option Z) (depth : Z) (child : json) (st : flat)
  (t : trace) :
  walked child = false ->
  walk_child E walk_rec link_id more_limit depth child st t = (Done st, t).
Proof.
  unfold walked, walk_child. intros H.
  destruct child; cbn [dict_get] in *; try discriminate.
  rewrite bind_lift. rewrite bind_lift.
  apply orb_false_elim in H. destruct H as [-> ->]. reflexivity.
Qed.

(** X19.  [walk] passes over every child that is a dict whose kind is
    neither [t1] nor [more]: the walk of a listing is the walk of the
    listing without those children, whatever their data holds. *)
Theorem X19_walk_skips_other_kinds (E : Env) (fuel : nat) (link_id : json) (more_limit : option Z)
  (items : list json) (depth : Z) :
  forall (st : flat) (t : trace),
    walk E (S fuel) link_id more_limit (JList items) depth st t
    = walk E (S fuel) link_id more_limit (JList (filter walked items)) depth st t.
Proof.
  intros st t. rewrite !walk_list. revert st t.
  induction items as [|child rest IH]; intros st t; [reflexivity|].
  cbn [filter]. destruct (walked child) eqn:Hw.
  - rewrite !for_each_cons.
    destruct (walk_child E _ link_id more_limit depth child st t) as [[st'| |] t'];
      [apply IH|reflexivity..].
  - rewrite for_each_cons, (walk_child_other_kind _ _ _ _ _ _ _ _ Hw). apply IH.
Qed.

(* ------------------------------------------------------------------ *)
(** ** Submissions and the shape of the records *)
(* ------------------------------------------------------------------ *)

Lemma submission_fields_comments (E : Env) (info : json) (media : media_info)
  (fields : list (string * json)) (c : json) :
  submission_fields E info media = Done fields ->
  dict_set fields "comments" c = fields ++ [("comments", c)] /\
  map fst fields = submission_keys.
Proof.
  unfold submission_fields. intros H. do 17 obind_inv H. injection H as <-.
  split; reflexivity.
Qed.

Lemma submission_run (E : Env) (self : Reddit) (id : string) (more_limit : option Z)
  (full : option bool) (fuel : nat) (t : trace) :
  submission E self id more_limit full fuel t
  = (raw <- _get E ("/comments/" ++ id ++ ".json")%string [("limit", JInt 500)] ;;
     link_info <- lift (link_of_response raw) ;;
     comments_listing <- lift (comments_of_response raw) ;;
     media <- lift (_extract_media link_info) ;;
     submission_dict <- lift (submission_fields E link_info media) ;;
     link_id <- lift (link_fullname E link_info) ;;
     comments_flat <- _flatten_comments E comments_listing link_id 0 more_limit fuel ;;
     ret (JDict
            (if resolve_full self full then
               dict_set (dict_set (dict_set
                 (dict_set submission_dict "comments" (JList comments_flat))
                 "raw_response" raw) "raw_link" link_info)
                 "raw_comments_listing" comments_listing
             else dict_set submission_dict "comments" (JList comments_flat)))) t.
Proof. reflexivity. Qed.

(** X20.  A submission that is returned was built in this way: one request
    to [/comments/<id>.json] with [limit] 500; the link is the first child
    of the first listing of the answer, the comments are the children of
    the second; the link's fields come first in the record, then
    [comments], the flattening of those children from depth 0 under the
    link's [name], or under [t3_] and its id where the name is missing or
    empty, then the three raw entries if [full]; and every later request
    of the run is a placeholder expansion for that link. *)
Theorem X20_submission_structure (E : Env) (self : Reddit) (id : string) (more_limit : option Z)
  (full : option bool) (fuel : nat) (t t' : trace) (record : json) :
  submission E self id more_limit full fuel t = (Done record, t') ->
  let first := Request ("/comments/" ++ id ++ ".json") [("limit", JInt 500)] in
  exists raw link_info comments_listing media fields link_id records,
    _get E ("/comments/" ++ id ++ ".json") [("limit", JInt 500)] t
      = (Done raw, t ++ [first]) /\
    link_of_response raw = Done link_info /\
    comments_of_response raw = Done comments_listing /\
    _extract_media link_info = Done media /\
    submission_fields E link_info media = Done fields /\
    link_fullname E link_info = Done link_id /\
    _flatten_comments E comments_listing link_id 0 more_limit fuel (t ++ [first])
      = (Done records, t') /\
    record = JDict (fields ++ ("comments", JList records)
                      :: (if resolve_full self full
                          then [("raw_response", raw); ("raw_link", link_info);
                                ("raw_comments_listing", comments_listing)]
                          else [])) /\
    exists rest, t' = t ++ first :: rest /\ Forall (expansion_event link_id) rest.
Proof.
  intros H first. rewrite submission_run in H.
  unfold bind at 1 in H.
  pose proof (get_trace E ("/comments/" ++ id ++ ".json") [("limit", JInt 500)] t) as Hget.
  destruct (_get E ("/comments/" ++ id ++ ".json") [("limit", JInt 500)] t)
    as [[raw| |] t1] eqn:Hrun; try discriminate.
  cbn [snd] in Hget. subst t1.
  rewrite bind_lift in H.
  destruct (link_of_response raw) as [link_info| |] eqn:Hlink; try discriminate.
  rewrite bind_lift in H.
  destruct (comments_of_response raw) as [comments_listing| |] eqn:Hcomments;
    try discriminate.
  rewrite bind_lift in H.
  destruct (_extract_media link_info) as [media| |] eqn:Hmedia; try discriminate.
  rewrite bind_lift in H.
  destruct (submission_fields E link_info media) as [fields| |] eqn:Hfields;
    try discriminate.
  rewrite bind_lift in H.
  destruct (link_fullname E link_info) as [link_id| |] eqn:Hname; try discriminate.
  unfold bind at 1 in H.
  destruct (_flatten_comments E comments_listing link_id 0 more_limit fuel
              (t ++ [Request ("/comments/" ++ id ++ ".json") [("limit", JInt 500)]]))
    as [[records| |] t2] eqn:Hflat; try discriminate.
  injection H as <- <-.
  exists raw, link_info, comments_listing, media, fields, link_id, records.
  repeat (split; [first [reflexivity | assumption]|]).
  split.
  - destruct (submission_fields_comments E _ _ _ (JList records) Hfields) as [Hc _].
    destruct (submission_fields_no_extras E _ _ _ (JList records) raw link_info
                comments_listing Hfields) as [Hx _].
    destruct (resolve_full self full).
    + rewrite Hx, Hc, <- app_assoc. reflexivity.
    + rewrite Hc. reflexivity.
  - assert (Hev : emits_only (expansion_event link_id)
                    (_flatten_comments E comments_listing link_id 0 more_limit fuel)).
    { unfold _flatten_comments. pose proof (walk_emits E link_id more_limit fuel). eo. }
    destruct (Hev _ _ _ Hflat) as (rest & -> & HF).
    exists rest. split; [|exact HF]. rewrite <- app_assoc. reflexivity.
Qed.

Lemma X20_submission_structure_witness :
  let first := Request ("/comments/" ++ "abc" ++ ".json") [("limit", JInt 500)] in
  exists raw link_info comments_listing media fields link_id records,
    _get (script_env [ok_json thread_page]) ("/comments/" ++ "abc" ++ ".json")
      [("limit", JInt 500)] [] = (Done raw, [] ++ [first]) /\
    link_of_response raw = Done link_info /\
    comments_of_response raw = Done comments_listing /\
    _extract_media link_info = Done media /\
    submission_fields (script_env [ok_json thread_page]) link_info media = Done fields /\
    link_fullname (script_env [ok_json thread_page]) link_info = Done link_id /\
    _flatten_comments (script_env [ok_json thread_page]) comments_listing link_id 0
      (Some 0) 5 ([] ++ [first])
      = (Done records, [Request "/comments/abc.json" [("limit", JInt 500)]]) /\
    thread_record
    = JDict (fields ++ ("comments", JList records)
               :: (if resolve_full {| return_full := false |} None
                   then [("raw_response", raw); ("raw_link", link_info);
                         ("raw_comments_listing", comments_listing)]
                   else [])) /\
    exists rest,
      [Request "/comments/abc.json" [("limit", JInt 500)]] = [] ++ first :: rest /\
      Forall (expansion_event link_id) rest.
Proof.
  exact (X20_submission_structure (script_env [ok_json thread_page])
           {| return_full := false |} "abc" (Some 0) None 5 []
           [Request "/comments/abc.json" [("limit", JInt 500)]] thread_record eq_refl).
Defined.

Lemma comment_record_keys (E : Env) (data : json) (depth : Z) (record : json) :
  comment_record E data depth = Done record -> keys record = comment_keys.
Proof.
  unfold comment_record. intros H. do 2 obind_inv H. cbv zeta in H. do 6 obind_inv H.
  injection H as <-. reflexivity.
Qed.

Lemma subreddit_record_keys (full : bool) (info record : json) :
  subreddit_record full info = Done record ->
  keys record = subreddit_keys ++ raw_keys full ["raw"].
Proof.
  unfold subreddit_record. intros H. do 6 obind_inv H. cbv zeta in H.
  injection H as <-. destruct full; reflexivity.
Qed.

Lemma record_of_link_keys (E : Env) (full : bool) (child item : json) :
  record_of_link E full child item ->
  keys item = submission_keys ++ raw_keys full ["raw"].
Proof.
  intros (_ & info & media & fields & _ & _ & Hfields & ->).
  destruct (submission_fields_no_raw E _ _ _ info Hfields) as [Hraw _].
  destruct (submission_fields_comments E _ _ _ JNull Hfields) as [_ Hkeys].
  destruct full; cbn [keys raw_keys].
  - rewrite Hraw, map_app, Hkeys. reflexivity.
  - rewrite Hkeys, app_nil_r. reflexivity.
Qed.

Lemma search_page_results (P : json -> Prop) (full : bool) (children : list json) :
  (forall info record, subreddit_record full info = Done record -> P record) ->
  forall results remaining fl,
    Forall P results ->
    search_page full children results remaining = Done fl ->
    match fl with
    | Continue (results', _) => Forall P results'
    | Return results' => Forall P results'
    end.
Proof.
  intros HP. induction children as [|child rest IH]; intros results remaining fl HF H.
  - cbn in H. injection H as <-. exact HF.
  - cbn [search_page] in H. obind_at H as info Hi. obind_at H as sub Hs.
    assert (HF' : Forall P (results ++ [sub])).
    { apply Forall_app. split; [exact HF|]. constructor; [eauto|constructor]. }
    cbv zeta in H. destruct remaining as [r|]; [|eapply IH; eauto].
    destruct (r - 1 <=? 0); [|eapply IH; eauto].
    injection H as <-. exact HF'.
Qed.

Lemma search_loop_results (E : Env) (P : json -> Prop) (query : string) (full : bool)
  (fuel : nat) :
  (forall info record, subreddit_record full info = Done record -> P record) ->
  forall results after remaining t t' out,
    Forall P results ->
    search_loop E fuel query full results after remaining t = (Done out, t') ->
    Forall P out.
Proof.
  intros HP. induction fuel as [|fuel IH]; intros results after remaining t t' out HF H;
    [discriminate|].
  cbn [search_loop] in H. cbv zeta in H. unfold bind at 1 in H.
  destruct (_get E "/subreddits/search.json" _ t) as [[data| |] t1]; try discriminate.
  rewrite bind_lift in H.
  destruct (do d <- getitem data "data"; getitem d "children") as [children| |];
    try discriminate.
  rewrite bind_lift in H. destruct (py_iter children) as [items| |]; try discriminate.
  rewrite bind_lift in H.
  destruct (search_page full items results remaining) as [fl| |] eqn:Hpage;
    try discriminate.
  pose proof (search_page_results P full items HP _ _ _ HF Hpage) as HF'.
  destruct fl as [[results' remaining']|results'].
  - rewrite bind_lift in H.
    destruct (do d <- getitem data "data"; dict_get d "after" JNull) as [cursor| |];
      try discriminate.
    destruct (negb (truthy cursor) || negb (truthy children)).
    + injection H as <- _. exact HF'.
    + eapply IH; eauto.
  - injection H as <- _. exact HF'.
Qed.

Lemma listing_page_items (E : Env) (P : json -> Prop) (full : bool) (children : list json) :
  (forall child item, record_of_link E full child item -> P item) ->
  forall remaining, emits_only (yields_only P) (listing_page E full children remaining).
Proof.
  intros HP remaining t t' o H.
  destruct (listing_page_yields E full children remaining t t' o H) as (items & -> & HF).
  exists (map Yield items). split; [reflexivity|].
  apply Forall_forall. intros ev Hev. apply in_map_iff in Hev.
  destruct Hev as (item & <- & Hin). rewrite Forall_forall in HF.
  destruct (HF item Hin) as (child & _ & Hrec). exact (HP child item Hrec).
Qed.

Lemma listing_loop_items (E : Env) (P : json -> Prop) (path sort : string)
  (time_filter : option string) (full : bool) (fuel : nat) :
  (forall child item, record_of_link E full child item -> P item) ->
  forall after remaining,
    emits_only (yields_only P)
      (listing_loop E fuel path sort time_filter full after remaining).
Proof.
  intros HP. induction fuel as [|fuel IH]; intros after remaining; cbn [listing_loop].
  - apply emits_only_out_of_fuel.
  - pose proof (listing_page_items E P full) as Hpage.
    cbv zeta. apply emits_only_bind; [apply emits_only_get; exact I|]. intros data. eo.
Qed.

(** X21.  The records have fixed keys, in a fixed order.  A submission has
    the twenty keys of a link, then [comments], then the three raw keys if
    [full]; every comment of a flattening has the twelve keys of a comment;
    every item a listing yields has the twenty keys of a link, then [raw]
    if [full]; every result of a search has the six keys of a subreddit,
    then [raw] if [full]. *)
Theorem X21_record_keys (E : Env) :
  (forall self id more_limit full fuel t t' record,
      submission E self id more_limit full fuel t = (Done record, t') ->
      keys record
      = submission_keys ++ ["comments"]
          ++ raw_keys (resolve_full self full)
               ["raw_response"; "raw_link"; "raw_comments_listing"]) /\
  (forall children link_id depth more_limit fuel t t' records,
      _flatten_comments E children link_id depth more_limit fuel t = (Done records, t') ->
      Forall (fun record => keys record = comment_keys) records) /\
  (forall self sort limit time_filter full fuel,
      emits_only
        (yields_only (fun item =>
           keys item = submission_keys ++ raw_keys (resolve_full (reddit self) full) ["raw"]))
        (_listing E self sort limit time_filter full fuel)) /\
  (forall self query limit full fuel t t' results,
      search_subreddits E self query limit full fuel t = (Done results, t') ->
      Forall (fun record =>
                keys record = subreddit_keys ++ raw_keys (resolve_full self full) ["raw"])
        results).
Proof.
  split; [|split; [|split]].
  - intros self id more_limit full fuel t t' record H.
    rewrite submission_run in H. unfold bind at 1 in H.
    destruct (_get E _ _ t) as [[raw| |] t1]; try discriminate.
    rewrite bind_lift in H.
    destruct (link_of_response raw) as [link_info| |]; try discriminate.
    rewrite bind_lift in H.
    destruct (comments_of_response raw) as [comments_listing| |]; try discriminate.
    rewrite bind_lift in H.
    destruct (_extract_media link_info) as [media| |]; try discriminate.
    rewrite bind_lift in H.
    destruct (submission_fields E link_info media) as [fields| |] eqn:Hfields;
      try discriminate.
    rewrite bind_lift in H.
    destruct (link_fullname E link_info) as [link_id| |]; try discriminate.
    unfold bind at 1 in H.
    destruct (_flatten_comments E comments_listing link_id 0 more_limit fuel t1)
      as [[records| |] t2]; try discriminate.
    injection H as <- _.
    destruct (submission_fields_comments E _ _ _ (JList records) Hfields) as [Hc Hk].
    destruct (submission_fields_no_extras E _ _ _ (JList records) raw link_info
                comments_listing Hfields) as [Hx _].
    destruct (resolve_full self full); cbn [keys raw_keys].
    + rewrite Hx, Hc, !map_app, Hk. rewrite <- app_assoc. reflexivity.
    + rewrite Hc, map_app, Hk. reflexivity.
  - intros children link_id depth more_limit fuel t t' records H.
    rewrite flatten_run in H.
    destruct (walk E fuel link_id more_limit children depth
                {| comments := []; more_used := 0 |} t) as [[st| |] t1] eqn:Hwalk;
      try discriminate.
    injection H as <- _.
    destruct (walk_unfolds E link_id more_limit fuel _ _ _ _ _ _ Hwalk)
      as (forest & _ & recs & Hrecs & Hall).
    cbn [comments app] in Hrecs. rewrite Hrecs.
    specialize (Hall []). clear -Hall.
    induction Hall as [|record node recs nodes Hrec _ IH]; constructor; [|exact IH].
    eapply comment_record_keys. exact Hrec.
  - intros self sort limit time_filter full fuel. unfold _listing.
    apply listing_loop_items. intros child item. apply record_of_link_keys.
  - intros self query limit full fuel t t' results H. unfold search_subreddits in H.
    eapply search_loop_results in H; [exact H| |constructor].
    intros info record. apply subreddit_record_keys.
Qed.

Lemma X21_record_keys_witness :
  Forall (fun record =>
            keys record
            = subreddit_keys ++ raw_keys (resolve_full {| return_full := false |} None) ["raw"])
    [rocq_record; coq_record].
Proof.
  apply (proj2 (proj2 (proj2 (X21_record_keys (script_env [ok_json subreddit_page]))))
           {| return_full := false |} "rocq" (Some 5) None 3%nat []
           [Request "/subreddits/search.json" (search_params "rocq" JNull (Some 5))]
           [rocq_record; coq_record]).
  reflexivity.
Defined.

Lemma getindex_returns (v : json) (i : nat) : getindex v i <> OutOfFuel.
Proof.
  destruct v; cbn [getindex]; try discriminate; destruct (nth_error _ i); discriminate.
Qed.

(** X22.  An answer to [/comments/<id>.json] that is a list of fewer than
    two elements makes [submission] raise after that one request:
    [IndexError] for an empty list; nothing is expanded. *)
Theorem X22_submission_short_answer (E : Env) (self : Reddit) (id : string) (more_limit : option Z)
  (full : option bool) (fuel : nat) (t : trace) (items : list json) :
  server E (requests t) ("/comments/" ++ id ++ ".json") [("limit", JInt 500)]
    = ok_json (JList items) ->
  (List.length items < 2)%nat ->
  exists e,
    submission E self id more_limit full fuel t
    = (Raise e, t ++ [Request ("/comments/" ++ id ++ ".json") [("limit", JInt 500)]]) /\
    (items = [] -> e = IndexError).
Proof.
  intros Hserver Hlen. apply get_ok in Hserver.
  rewrite submission_run. unfold bind at 1. rewrite Hserver. rewrite bind_lift.
  destruct items as [|x [|y l]]; [| |cbn in Hlen; lia].
  - exists IndexError. split; reflexivity.
  - assert (Hno : link_of_response (JList [x]) <> OutOfFuel).
    { unfold link_of_response. apply obind_returns; [discriminate|]. intros listing.
      apply obind_returns; [apply getitem_returns|]. intros d.
      apply obind_returns; [apply getitem_returns|]. intros children.
      apply obind_returns; [apply getindex_returns|].
      intros link. apply getitem_returns. }
    destruct (link_of_response (JList [x])) as [link_info|e|]; [|eauto|congruence].
    + exists IndexError. split; [reflexivity|discriminate].
    + exists e. split; [reflexivity|discriminate].
Qed.

Lemma X22_submission_short_answer_witness :
  exists e,
    submission (script_env [ok_json (JList [])]) {| return_full := false |} "abc" None None
      5 []
    = (Raise e, [] ++ [Request ("/comments/" ++ "abc" ++ ".json") [("limit", JInt 500)]]) /\
    (@nil json = [] -> e = IndexError).
Proof.
  apply (X22_submission_short_answer (script_env [ok_json (JList [])])
           {| return_full := false |} "abc" None None 5 [] []).
  - reflexivity.
  - simpl. lia.
Defined.

(* ------------------------------------------------------------------ *)
(** ** The public listings: budget and last page *)
(* ------------------------------------------------------------------ *)

(** X23.  With a budget of at least 1, [hot], [new] and [top] never yield
    more items than the budget, however the run ends, and
    [search_subreddits] never returns more results than the budget. *)
Theorem X23_positive_budget_respected (E : Env) (self : Subreddit) (limit : Z) (full : option bool) (fuel : nat)
  (t : trace) :
  1 <= limit ->
  count_yields (snd (hot E self (Some limit) full fuel t)) <= count_yields t + limit /\
  count_yields (snd (new E self (Some limit) full fuel t)) <= count_yields t + limit /\
  (forall time_filter,
      count_yields (snd (top E self (Some limit) time_filter full fuel t))
      <= count_yields t + limit) /\
  (forall (client : Reddit) (query : string),
      Z.of_nat (List.length (returned (search_subreddits E client query (Some limit) full
                                         fuel t)))
      <= limit).
Proof.
  intros Hl.
  assert (H : forall sort time_filter,
             count_yields (snd (_listing E self sort (Some limit) time_filter full fuel t))
             <= count_yields t + limit).
  { intros sort time_filter. unfold _listing.
    destruct (listing_loop E fuel _ sort time_filter _ JNull (Some limit) t)
      as [o t'] eqn:Hrun.
    exact (listing_loop_budget E _ sort time_filter _ fuel JNull limit t t' o Hl Hrun). }
  split; [apply H|]. split; [apply H|]. split; [intros tf; apply H|].
  intros client query. unfold returned, search_subreddits.
  destruct (search_loop E fuel query _ [] JNull (Some limit) t) as [[out| |] t'] eqn:Hrun;
    cbn [fst List.length]; try lia.
  pose proof (search_loop_budget E query _ fuel [] JNull limit t t' out Hl Hrun) as Hb.
  cbn [List.length] in Hb. lia.
Qed.

Lemma X23_positive_budget_respected_witness :
  count_yields (snd (hot (script_env [ok_json two_links])
                       (subreddit {| return_full := false |} "rocq") (Some 1) None 3 []))
  <= count_yields [] + 1 /\
  count_yields (snd (new (script_env [ok_json two_links])
                       (subreddit {| return_full := false |} "rocq") (Some 1) None 3 []))
  <= count_yields [] + 1 /\
  (forall time_filter,
      count_yields (snd (top (script_env [ok_json two_links])
                           (subreddit {| return_full := false |} "rocq") (Some 1)
                           time_filter None 3 []))
      <= count_yields [] + 1) /\
  (forall (client : Reddit) (query : string),
      Z.of_nat (List.length (returned (search_subreddits (script_env [ok_json two_links])
                                         client query (Some 1) None 3 [])))
      <= 1).
Proof.
  apply (X23_positive_budget_respected (script_env [ok_json two_links])
           (subreddit {| return_full := false |} "rocq") 1 None 3 []).
  lia.
Defined.

Lemma listing_page_whole (E : Env) (full : bool) (children recs : list json) :
  Forall2 (record_of_link E full) children recs ->
  forall (remaining : option Z) (t : trace),
    match remaining with
    | Some r => Z.of_nat (List.length children) < Z.max 1 r
    | None => True
    end ->
    listing_page E full children remaining t
    = (Done (Continue (option_map (fun r => r - Z.of_nat (List.length children)) remaining)),
       t ++ map Yield recs).
Proof.
  induction 1 as [|child record children recs Hc HF IH]; intros remaining t Hlen.
  - destruct remaining as [r|]; cbn [listing_page ret map option_map List.length];
      rewrite app_nil_r; [|reflexivity].
    replace (r - Z.of_nat 0) with r by lia. reflexivity.
  - rewrite (listing_page_step _ _ _ _ _ _ _ Hc). cbn [List.length] in *.
    destruct remaining as [r|].
    + destruct (r - 1 <=? 0) eqn:Hr; [apply Z.leb_le in Hr; lia|].
      apply Z.leb_gt in Hr. rewrite IH by (cbv beta iota; lia). rewrite <- app_assoc.
      cbn [option_map app map].
      replace (r - 1 - Z.of_nat (List.length children))
        with (r - Z.of_nat (S (List.length children))) by lia.
      reflexivity.
    + rewrite IH by exact I. rewrite <- app_assoc. reflexivity.
Qed.

(** X24.  A listing whose first page comes without a cursor, or without
    children, and does not use up the budget yields the records of all
    the children of that page that are not passed over, in the order of the
    page, and ends after that one request. *)
Theorem X24_listing_ends_on_last_page (E : Env) (self : Subreddit) (sort : string) (limit : option Z)
  (time_filter : option string) (full : option bool) (fuel : nat) (t : trace)
  (page children cursor : json) (items recs : list json) :
  server E (requests t) ("/r/" ++ name self ++ "/" ++ sort ++ ".json")
    (listing_params sort time_filter JNull limit) = ok_json page ->
  (do d <- getitem page "data"; getitem d "children") = Done children ->
  py_iter children = Done items ->
  Forall2 (record_of_link E (resolve_full (reddit self) full))
    (filter not_passed_over items) recs ->
  match limit with
  | Some l => Z.of_nat (List.length recs) < Z.max 1 l
  | None => True
  end ->
  (do d <- getitem page "data"; dict_get d "after" JNull) = Done cursor ->
  truthy cursor = false \/ truthy children = false ->
  _listing E self sort limit time_filter full (S fuel) t
  = (Done tt,
     t ++ Request ("/r/" ++ name self ++ "/" ++ sort ++ ".json")
            (listing_params sort time_filter JNull limit)
       :: map Yield recs).
Proof.
  intros Hget Hchildren Hitems Hrecs Hlen Hcursor Hstop. apply get_ok in Hget.
  unfold _listing. cbn [listing_loop]. cbv zeta.
  unfold bind at 1. rewrite Hget. rewrite bind_lift, Hchildren. rewrite bind_lift, Hitems.
  unfold bind at 1. rewrite listing_page_filter.
  rewrite (listing_page_whole _ _ _ _ Hrecs).
  2:{ rewrite (Forall2_length Hrecs). exact Hlen. }
  rewrite bind_lift, Hcursor. rewrite <- app_assoc.
  destruct Hstop as [-> | ->]; [reflexivity|].
  rewrite orb_true_r. reflexivity.
Qed.

Lemma X24_listing_ends_on_last_page_witness :
  _listing (script_env [ok_json two_links]) (subreddit {| return_full := false |} "rocq")
    "hot" (Some 5) None None 1 []
  = (Done tt,
     [] ++ Request ("/r/" ++ "rocq" ++ "/" ++ "hot" ++ ".json")
             (listing_params "hot" None JNull (Some 5))
        :: map Yield [link_record "abc"; link_record "def"]).
Proof.
  apply (X24_listing_ends_on_last_page (script_env [ok_json two_links])
           (subreddit {| return_full := false |} "rocq") "hot" (Some 5) None None 0 []
           two_links (JList [link "abc"; link "def"]) JNull [link "abc"; link "def"]
           [link_record "abc"; link_record "def"]).
  - reflexivity.
  - reflexivity.
  - reflexivity.
  - repeat econstructor.
  - reflexivity.
  - reflexivity.
  - left. reflexivity.
Defined.

(* ------------------------------------------------------------------ *)
(** ** What expansion and [full] add *)
(* ------------------------------------------------------------------ *)

Lemma subseq_none {A : Type} (b : list A) : subseq [] b.
Proof. induction b; [apply subseq_nil | apply subseq_skip; assumption]. Qed.

Lemma subseq_app {A : Type} (a1 b1 a2 b2 : list A) :
  subseq a1 b1 -> subseq a2 b2 -> subseq (a1 ++ a2) (b1 ++ b2).
Proof.
  intros H1 H2.
  induction H1; cbn [app];
    [exact H2 | apply subseq_skip; assumption | apply subseq_keep; assumption].
Qed.


Lemma keeps_nothing (st st' : flat) (recs : list json) :
  comments st' = comments st ++ recs -> keeps (Done []) st st'.
Proof.
  intros H. exists [], recs.
  split; [reflexivity|]. split; [exact H|apply subseq_none].
Qed.

Lemma for_each_keeps (wbody : json -> flat -> M flat) (ibody : json -> outcome (list json)) :
  (forall x st t st' t', wbody x st t = (Done st', t') -> keeps (ibody x) st st') ->
  forall l st t st' t',
    for_each wbody l st t = (Done st', t') -> keeps (for_each_append ibody l) st st'.
Proof.
  intros Hbody. induction l as [|x l IH]; intros st t st' t' H.
  - injection H as <- _. apply keeps_nothing with (recs := []). symmetry. apply app_nil_r.
  - rewrite for_each_cons in H.
    destruct (wbody x st t) as [[st1| |] t1] eqn:Hx; try discriminate.
    destruct (Hbody _ _ _ _ _ Hx) as (f1 & r1 & Hi1 & Hc1 & Hs1).
    destruct (IH _ _ _ _ H) as (f2 & r2 & Hi2 & Hc2 & Hs2).
    exists (f1 ++ f2), (r1 ++ r2). split; [|split].
    + cbn [for_each_append]. rewrite Hi1, Hi2. reflexivity.
    + rewrite Hc2, Hc1. symmetry. apply app_assoc.
    + apply subseq_app; assumption.
Qed.

Lemma walk_child_keeps (E : Env) (wrec : json -> Z -> flat -> M flat)
  (irec : json -> Z -> outcome (list json)) (link_id : json) (more_limit : option Z)
  (depth : Z) :
  (forall c d s t s' t', wrec c d s t = (Done s', t') -> keeps (irec c d) s s') ->
  forall child st t st' t',
    walk_child E wrec link_id more_limit depth child st t = (Done st', t') ->
    keeps (initial_child E irec depth child) st st'.
Proof.
  intros Hrec child st t st' t' H. unfold walk_child in H. unfold initial_child.
  rewrite bind_lift in H.
  destruct (dict_get child "kind" JNull) as [kind| |]; try discriminate.
  rewrite bind_lift in H.
  destruct (dict_get child "data" (JDict [])) as [data| |]; try discriminate.
  cbn [obind].
  destruct (str_is kind "t1").
  - rewrite bind_lift in H.
    destruct (comment_record E data depth) as [record| |]; try discriminate.
    cbv zeta in H. rewrite bind_lift in H.
    destruct (dict_get data "replies" JNull) as [replies| |]; try discriminate.
    cbn [obind].
    assert (Hone : forall s',
               comments s' = comments st ++ [record] -> keeps (Done [record]) st s').
    { intros s' Hs. exists [record], [record].
      split; [reflexivity|]. split; [exact Hs|].
      apply subseq_keep. apply subseq_nil. }
    destruct replies as [| | | | | |r]; try (injection H as <- _; apply Hone; reflexivity).
    destruct (truthy (get_or r "data" JNull));
      [|injection H as <- _; apply Hone; reflexivity].
    rewrite bind_lift in H.
    destruct (do d <- getitem (JDict r) "data"; getitem d "children") as [children| |];
      try discriminate.
    cbn [obind].
    destruct (Hrec _ _ _ _ _ _ H) as (f & recs & Hi & Hc & Hs).
    exists (record :: f), (record :: recs). split; [|split].
    + rewrite Hi. reflexivity.
    + rewrite Hc. cbn [comments]. rewrite <- app_assoc. reflexivity.
    + apply subseq_keep. exact Hs.
  - destruct (str_is kind "more");
      [|injection H as <- _; apply keeps_nothing with (recs := []);
        symmetry; apply app_nil_r].
    destruct (limit_reached more_limit (more_used st));
      [injection H as <- _; apply keeps_nothing with (recs := []);
       symmetry; apply app_nil_r|].
    rewrite bind_lift in H.
    destruct (dict_get data "children" JNull) as [ids| |]; try discriminate.
    cbv zeta in H.
    destruct (negb (truthy (py_or ids (JList []))));
      [injection H as <- _; apply keeps_nothing with (recs := []);
       symmetry; apply app_nil_r|].
    unfold bind at 1 in H.
    destruct (_fetch_more_children E link_id (py_or ids (JList [])) t)
      as [[things| |] t1]; try discriminate.
    destruct (truthy things).
    + destruct (Hrec _ _ _ _ _ _ H) as (f & recs & _ & Hc & _).
      apply keeps_nothing with (recs := recs). exact Hc.
    + injection H as <- _. apply keeps_nothing with (recs := []).
      symmetry. apply app_nil_r.
Qed.

Lemma walk_keeps (E : Env) (link_id : json) (more_limit : option Z) (fuel : nat) :
  forall children depth st t st' t',
    walk E fuel link_id more_limit children depth st t = (Done st', t') ->
    keeps (initial_comments E fuel children depth) st st'.
Proof.
  induction fuel as [|fuel IH]; intros children depth st t st' t' H; [discriminate|].
  cbn [walk] in H. cbn [initial_comments]. rewrite bind_lift in H.
  destruct (py_iter children) as [items| |]; try discriminate. cbn [obind].
  revert H. apply for_each_keeps. intros x s t0 s' t0'.
  apply walk_child_keeps. exact IH.
Qed.

(** X25.  Expansion only adds comments.  The comments that the walk
    returns without expanding anything are among those it returns under
    any budget, in the same order and with the same records. *)
Theorem X25_expansion_keeps_initial_comments (E : Env) (children link_id : json) (depth : Z) (more_limit : option Z)
  (fuel : nat) (t t' : trace) (records : list json) :
  _flatten_comments E children link_id depth more_limit fuel t = (Done records, t') ->
  exists initial,
    _flatten_comments E children link_id depth (Some 0) fuel t = (Done initial, t) /\
    subseq initial records.
Proof.
  intros H. rewrite flatten_run in H.
  destruct (walk E fuel link_id more_limit children depth
              {| comments := []; more_used := 0 |} t) as [[st| |] t1] eqn:Hwalk;
    try discriminate.
  injection H as <- <-.
  destruct (walk_keeps E _ _ _ _ _ _ _ _ _ Hwalk) as (first & recs & Hi & Hc & Hs).
  cbn [comments app] in Hc. exists first. split.
  - rewrite flatten_run, walk_exhausted by (cbn; lia). rewrite Hi. cbn.
    reflexivity.
  - rewrite Hc. exact Hs.
Qed.

Lemma X25_expansion_keeps_initial_comments_witness :
  exists initial,
    _flatten_comments two_expansions tree_with_more (JStr "t3_abc") 0 (Some 0) 5 []
    = (Done initial, []) /\
    subseq initial expanded_records.
Proof.
  exact (X25_expansion_keeps_initial_comments two_expansions tree_with_more
           (JStr "t3_abc") 0 None 5 [] expanded_trace expanded_records eq_refl).
Defined.

Lemma record_of_link_raw (E : Env) (child item : json) :
  record_of_link E true child item -> built_from_raw (link_record_of E) item.
Proof.
  intros (_ & info & media & fields & _ & Hmedia & Hfields & ->).
  destruct (submission_fields_no_raw E _ _ _ info Hfields) as [Hraw _].
  exists info, fields. split.
  - unfold link_record_of. rewrite Hmedia. cbn [obind]. rewrite Hfields. reflexivity.
  - rewrite Hraw. reflexivity.
Qed.

Lemma subreddit_record_raw (info record : json) :
  subreddit_record true info = Done record ->
  built_from_raw (subreddit_record false) record.
Proof.
  unfold subreddit_record. intros H.
  obind_at H as id Hid. obind_at H as name Hname. obind_at H as title Htitle.
  obind_at H as subscribers Hsubscribers. obind_at H as description Hdescription.
  obind_at H as url Hurl. cbv zeta in H. injection H as <-.
  exists info. eexists. split.
  - rewrite Hid, Hname, Htitle, Hsubscribers, Hdescription, Hurl. reflexivity.
  - reflexivity.
Qed.

(** X26.  With [full], every item a listing yields and every result a
    search returns is the record the code builds from some [data], followed
    by that very [data] as [raw]: the fields of a record agree with its
    [raw]. *)
Theorem X26_raw_is_the_source (E : Env) :
  (forall self sort limit time_filter fuel,
      emits_only (yields_only (built_from_raw (link_record_of E)))
        (_listing E self sort limit time_filter (Some true) fuel)) /\
  (forall self query limit fuel t t' results,
      search_subreddits E self query limit (Some true) fuel t = (Done results, t') ->
      Forall (built_from_raw (subreddit_record false)) results).
Proof.
  split.
  - intros self sort limit time_filter fuel. unfold _listing.
    apply listing_loop_items. intros child item. apply record_of_link_raw.
  - intros self query limit fuel t t' results H. unfold search_subreddits in H.
    eapply search_loop_results in H; [exact H| |constructor].
    intros info record. apply subreddit_record_raw.
Qed.

Lemma X26_raw_is_the_source_witness :
  Forall (built_from_raw (subreddit_record false)) full_search_results.
Proof.
  apply (proj2 (X26_raw_is_the_source (script_env [ok_json subreddit_page]))
           {| return_full := false |} "rocq" (Some 5) 3%nat []
           [Request "/subreddits/search.json" (search_params "rocq" JNull (Some 5))]
           full_search_results).
  reflexivity.
Defined.
